(** * GDM prediction backend: a shallow embedding of the inference pipeline

    The development follows the two source files of the repository:

    - [gdm_backend.py]               (module [GdmBackend], the extended variant)
    - [fastapi_backend_modified.py]  (module [FastapiBackendModified], the
                                      legacy variant)

    Numbers.  Python floats and ints are modelled by exact rationals [Q].
    Every threshold of the code (18.5, 25, 30, 140, 0.5, 0.7, ...) is
    compared with [Qle_bool], which is what the IEEE comparison does on
    finite values; rounding of arithmetic is not modelled.  [log1p] and a
    division by zero are kept as symbolic cells.  Where rounding decides
    a property (the complement [1 - p] of a probability), module
    [Binary64] repeats the lines concerned on machine numbers.

    Tables.  A Python dict and a one-row [DataFrame] are association lists
    in insertion order; [dict_set] overwrites in place or appends, as a
    column assignment does.

    Exceptions.  Code that can raise returns a [result]; a [try]/[except]
    is a [match] on it.  The fitted objects loaded from disk (models,
    scaler, label encoders) are functions that return [None] when the
    call raises. *)

From Stdlib Require Import QArith Qabs ZArith String List Bool Lia Lqa.
From Stdlib Require PrimFloat.
Import ListNotations.

Open Scope string_scope.
Open Scope Q_scope.

(** ** Python values shared by both files *)

Module Py.

(** *** Comparisons on numbers *)

Definition Qltb (x y : Q) : bool := negb (Qle_bool y x).
Definition Qgeb (x y : Q) : bool := Qle_bool y x.
Definition Qgtb (x y : Q) : bool := negb (Qle_bool x y).

(** [.astype(int)] of a boolean, and a boolean used as a number. *)
Definition b2q (b : bool) : Q := if b then 1 else 0.

(** [max(a, b)]: the first argument unless the second is greater. *)
Definition py_max (a b : Q) : Q := if Qgtb b a then b else a.

(** [int(x)]: truncation towards zero. *)
Definition py_int (x : Q) : Z := Z.quot (Qnum x) (Zpos (Qden x)).

(** [sum] of a list of booleans. *)
Definition count_true (bs : list bool) : nat := length (filter id bs).

(** [Index.unique()]: the first occurrence of every name, in order. *)
Fixpoint unique (l : list string) : list string :=
  match l with
  | [] => []
  | x :: rest => x :: filter (fun y => negb (String.eqb y x)) (unique rest)
  end.

(** [sub in s] on strings. *)
Fixpoint str_contains (sub s : string) : bool :=
  if String.prefix sub s then true
  else match s with
       | EmptyString => false
       | String _ rest => str_contains sub rest
       end.

(** *** Exceptions *)

Inductive exn : Type :=
| KeyError (key : string)
| ColumnsNotInIndex (not_found : list string)
                       (* KeyError("[not_found] not in index") of df[cols] *)
| NoneOfColumns (key : list string)
                       (* KeyError("None of [key] are in the [columns]") *)
| ValueError (msg : string)
| IndexError
| TypeError
| ModelError           (* raised inside a fitted object loaded from disk *)
| PredictionFailed (cause : exn).
                       (* ValueError("Prediction failed: " + str(cause)) *)

Inductive result (A : Type) : Type :=
| Ok (a : A)
| Raise (e : exn).
Arguments Ok {A} a.
Arguments Raise {A} e.

Definition bind {A B} (r : result A) (k : A -> result B) : result B :=
  match r with
  | Ok a => k a
  | Raise e => Raise e
  end.

(** [l[i]] on a Python list, negative indices counting from the end. *)
Definition list_getitem {A} (l : list A) (i : Z) : result A :=
  let n := Z.of_nat (length l) in
  let j := (if i <? 0 then i + n else i)%Z in
  if ((0 <=? j) && (j <? n))%Z%bool then
    match nth_error l (Z.to_nat j) with
    | Some a => Ok a
    | None => Raise IndexError
    end
  else Raise IndexError.

(** *** Dicts and one-row frames *)

Section Dict.
Context {V : Type}.

Definition dict : Type := list (string * V).

Fixpoint dict_get (k : string) (d : dict) : option V :=
  match d with
  | [] => None
  | (k', v) :: rest => if String.eqb k k' then Some v else dict_get k rest
  end.

(** [k in d] *)
Definition dict_mem (k : string) (d : dict) : bool :=
  match dict_get k d with Some _ => true | None => false end.

(** [d.get(k, default)] *)
Definition dict_get_default (k : string) (default : V) (d : dict) : V :=
  match dict_get k d with Some v => v | None => default end.

(** [d[k] = v] *)
Fixpoint dict_set (k : string) (v : V) (d : dict) : dict :=
  match d with
  | [] => [(k, v)]
  | (k', v') :: rest =>
      if String.eqb k k' then (k, v) :: rest
      else (k', v') :: dict_set k v rest
  end.

(** [d[k]] *)
Definition dict_getitem (k : string) (d : dict) : result V :=
  match dict_get k d with
  | Some v => Ok v
  | None => Raise (KeyError k)
  end.

Definition keys (d : dict) : list string := map fst d.
End Dict.
Arguments dict V : clear implicits.

(** A cell of a one-row frame. *)
Inductive cell : Type :=
| Num (q : Q)                   (* a finite number *)
| PosInf | NegInf | NaN         (* float division by zero *)
| Log1p (q : Q)                 (* np.log1p q, kept symbolic *)
| Cat (label : option string).  (* a Categorical value, None = NaN *)

Definition frame : Type := dict cell.

(** [pd.DataFrame([data])] *)
Definition DataFrame (data : dict Q) : frame :=
  map (fun kv => (fst kv, Num (snd kv))) data.

(** What a fitted model is given: a frame, or a stacked matrix whose
    rows are the input rows. *)
Inductive array_like : Type :=
| OfFrame (df : frame)
| OfMatrix (m : list (list Q)).

(** A fitted estimator; [None] when the call raises (for
    [predict_proba] also when the estimator has no such method). *)
Record Model : Type := {
  predict : array_like -> option (list Q);
  predict_proba : array_like -> option (list (list Q))
}.

(** [np.zeros(n)] *)
Definition np_zeros (n : nat) : list Q := repeat 0 n.

(** [np.array(rows).T] for equally long rows; numpy rejects ragged
    input ("inhomogeneous shape"). *)
Definition np_array_T (rows : list (list Q)) : result (list (list Q)) :=
  match rows with
  | [] => Ok []
  | r :: _ =>
      let n := length r in
      if forallb (fun r' => Nat.eqb (length r') n) rows
      then Ok (map (fun i => map (fun r' => nth i r' 0) rows) (seq 0 n))
      else Raise (ValueError "inhomogeneous shape")
  end.

(** *** pandas / numpy primitives used by the feature engineer *)

(** [np.searchsorted(bins, x, side='left')] on increasing [bins]. *)
Fixpoint searchsorted_left (bins : list Q) (x : Q) : nat :=
  match bins with
  | [] => O
  | b :: rest => if Qltb b x then S (searchsorted_left rest x) else O
  end.

(** [pd.cut(x, bins, labels)] with the defaults [right=True],
    [include_lowest=False]: bin [i] is (bins[i], bins[i+1]]; a value at
    or below the first edge or above the last one is NaN. *)
Definition pd_cut (x : Q) (bins : list Q) (labels : list string)
  : option string :=
  let i := searchsorted_left bins x in
  if (Nat.eqb i 0 || Nat.eqb i (length bins))%bool then None
  else nth_error labels (i - 1).

(** [np.where(c, a, b)] on one row. *)
Definition np_where {A} (c : bool) (a b : A) : A := if c then a else b.

(** Float division [a / b] of two finite numbers. *)
Definition truediv (a b : Q) : cell :=
  if Qeq_bool b 0 then
    (if Qltb 0 a then PosInf else if Qltb a 0 then NegInf else NaN)
  else Num (a / b).

(** A cell used as a number; comparing or adding a Categorical raises. *)
Definition as_num (c : cell) : result Q :=
  match c with
  | Num q => Ok q
  | _ => Raise TypeError
  end.

End Py.
Import Py.

Notation "x <- c1 ;; c2" := (bind c1 (fun x => c2))
  (at level 61, c1 at next level, right associativity).

(** ** gdm_backend.py: the extended variant *)

Module GdmBackend.

(** [df[k]] read as a number. *)
Definition column (k : string) (df : frame) : result Q :=
  c <- dict_getitem k df ;; as_num c.

(** [df.get(k, default)] read as a number. *)
Definition column_or (k : string) (default : Q) (df : frame) : result Q :=
  match dict_get k df with
  | Some c => as_num c
  | None => Ok default
  end.

Definition bmi_bins : list Q := [0; 18.5; 25; 30; 50].
Definition bmi_labels : list string :=
  ["Underweight"; "Normal"; "Overweight"; "Obese"].
Definition ogtt_bins : list Q := [0; 140; 200; 1000].
Definition ogtt_labels : list string := ["Normal"; "Impaired"; "Diabetic"].

Definition BMI_Category (bmi : Q) : cell :=
  Cat (pd_cut bmi bmi_bins bmi_labels).

Definition BMI_Risk_Score (bmi : Q) : Q :=
  np_where (Qltb bmi 18.5) 1
    (np_where (Qltb bmi 25) 0
       (np_where (Qltb bmi 30) 2 4)).

Definition OGTT_Category (ogtt : Q) : cell :=
  Cat (pd_cut ogtt ogtt_bins ogtt_labels).

Definition OGTT_Risk_Score (ogtt : Q) : Q :=
  np_where (Qltb ogtt 140) 0
    (np_where (Qltb ogtt 200) 3 5).

(** The blocks of [advanced_feature_engineering], in source order. *)

Definition bmi_features (df : frame) : result frame :=
  if dict_mem "BMI" df then
    bmi <- column "BMI" df ;;
    let df := dict_set "BMI_Category" (BMI_Category bmi) df in
    Ok (dict_set "BMI_Risk_Score" (Num (BMI_Risk_Score bmi)) df)
  else Ok df.

Definition ogtt_features (df : frame) : result frame :=
  if dict_mem "OGTT" df then
    ogtt <- column "OGTT" df ;;
    let df := dict_set "OGTT_Category" (OGTT_Category ogtt) df in
    Ok (dict_set "OGTT_Risk_Score" (Num (OGTT_Risk_Score ogtt)) df)
  else Ok df.

Definition combined_risk (df : frame) : result frame :=
  if (dict_mem "BMI_Risk_Score" df && dict_mem "OGTT_Risk_Score" df)%bool then
    b <- column "BMI_Risk_Score" df ;;
    o <- column "OGTT_Risk_Score" df ;;
    Ok (dict_set "BMI_OGTT_Risk" (Num (b + o)) df)
  else Ok df.

Definition age_bmi_interaction (df : frame) : result frame :=
  if (dict_mem "Age" df && dict_mem "BMI" df)%bool then
    age <- column "Age" df ;;
    bmi <- column "BMI" df ;;
    Ok (dict_set "Age_BMI_Interaction" (Num (age * bmi / 100)) df)
  else Ok df.

Definition Hypertensive (sys dia : Q) : Q :=
  b2q (Qgeb sys 140 || Qgeb dia 90).

Definition blood_pressure_features (df : frame) : result frame :=
  if (dict_mem "Sys BP" df && dict_mem "Dia BP" df)%bool then
    sys <- column "Sys BP" df ;;
    dia <- column "Dia BP" df ;;
    let df := dict_set "BP_Ratio" (truediv sys dia) df in
    let df := dict_set "Pulse_Pressure" (Num (sys - dia)) df in
    let df := dict_set "Mean_Arterial_Pressure"
                       (Num ((sys + 2 * dia) / 3)) df in
    Ok (dict_set "Hypertensive" (Num (Hypertensive sys dia)) df)
  else Ok df.

(** The accumulation of [risk_score]; [Age] and [No of Pregnancy] are
    indexed without a presence test. *)
Definition risk_score (df : frame) : result Q :=
  let rs := 0 in
  rs <- (if dict_mem "OGTT_Risk_Score" df
         then s <- column "OGTT_Risk_Score" df ;; Ok (rs + s * 2)
         else Ok rs) ;;
  rs <- (if dict_mem "BMI_Risk_Score" df
         then s <- column "BMI_Risk_Score" df ;; Ok (rs + s * 1.5)
         else Ok rs) ;;
  age <- column "Age" df ;;
  let rs := rs + b2q (Qgtb age 35) * 2 in
  fh <- column_or "Family History" 0 df ;;
  let rs := rs + fh * 2 in
  pcos <- column_or "PCOS" 0 df ;;
  let rs := rs + pcos * 2.5 in
  np <- column "No of Pregnancy" df ;;
  let rs := rs + b2q (Qgtb np 2) * 1 in
  (if dict_mem "Hypertensive" df
   then h <- column "Hypertensive" df ;; Ok (rs + h * 1.5)
   else Ok rs).

Definition comprehensive_risk_score (df : frame) : result frame :=
  rs <- risk_score df ;;
  Ok (dict_set "Comprehensive_Risk_Score" (Num rs) df).

Definition high_risk_bmi (df : frame) : result frame :=
  if dict_mem "BMI" df then
    bmi <- column "BMI" df ;;
    Ok (dict_set "High_Risk_BMI" (Num (b2q (Qgeb bmi 30))) df)
  else Ok df.

Definition high_risk_ogtt (df : frame) : result frame :=
  if dict_mem "OGTT" df then
    ogtt <- column "OGTT" df ;;
    Ok (dict_set "High_Risk_OGTT" (Num (b2q (Qgeb ogtt 140))) df)
  else Ok df.

(** [Age] is indexed without a presence test here too. *)
Definition advanced_age_indicator (df : frame) : result frame :=
  age <- column "Age" df ;;
  Ok (dict_set "Advanced_Age" (Num (b2q (Qgeb age 35))) df).

Definition log_transform (col : string) (df : frame) : result frame :=
  if dict_mem col df then
    x <- column col df ;;
    Ok (dict_set (col ++ "_log") (Log1p x) df)
  else Ok df.

Definition advanced_feature_engineering (df : frame) : result frame :=
  df <- bmi_features df ;;
  df <- ogtt_features df ;;
  df <- combined_risk df ;;
  df <- age_bmi_interaction df ;;
  df <- blood_pressure_features df ;;
  df <- comprehensive_risk_score df ;;
  df <- high_risk_bmi df ;;
  df <- high_risk_ogtt df ;;
  df <- advanced_age_indicator df ;;
  df <- log_transform "BMI" df ;;
  log_transform "OGTT" df.

(** *** Preprocessing state and model set *)

(** A fitted label encoder, seen through
    [encoder.transform(column.astype(str))] on one cell: the integer
    code, or [None] when it raises [ValueError] (unseen label). *)
Record LabelEncoder : Type := {
  transform : cell -> option Z
}.

Record Preprocessing : Type := {
  label_encoders : dict LabelEncoder;
  feature_columns : list string;
  (* scaler.transform on the one-row frame: the scaled row, None on error *)
  scaler : frame -> option (list Q);
  optimal_threshold : option Q
}.

Record ModelComponents : Type := {
  models : dict Model;
  preprocessing : Preprocessing
}.

(** *** predict_with_ensemble *)

Definition is_categorical (c : cell) : bool :=
  match c with Cat _ => true | _ => false end.

Definition encode_column (df : frame) (ce : string * LabelEncoder) : frame :=
  let (col, encoder) := ce in
  match dict_get col df with
  | None => df
  | Some c =>
      if (is_categorical c
          || existsb (String.eqb col) ["BMI_Category"; "OGTT_Category"])%bool
      then match transform encoder c with
           | Some code => dict_set col (Num (inject_Z code)) df
           | None => dict_set col (Num 0) df
           end
      else df
  end.

Definition apply_label_encoders (encoders : dict LabelEncoder) (df : frame)
  : frame :=
  fold_left encode_column encoders df.

Definition defaults : dict Q :=
  [("Age", 28); ("BMI", 23); ("OGTT", 120); ("Hemoglobin", 12); ("HDL", 50)].

Definition default_value (col : string) : Q :=
  if (str_contains "Risk" col || str_contains "Score" col)%bool then 0
  else if existsb (String.eqb col) ["Age"; "BMI"; "OGTT"; "Hemoglobin"; "HDL"]
       then dict_get_default col 0 defaults
       else 0.

Definition fill_missing (feature_columns : list string) (df : frame) : frame :=
  fold_left
    (fun df col =>
       if dict_mem col df then df
       else dict_set col (Num (default_value col)) df)
    feature_columns df.

(** [df[cols]]: the listed columns in the listed order, [KeyError] on
    an absent one. *)
Fixpoint select_columns (cols : list string) (df : frame) : result frame :=
  match cols with
  | [] => Ok []
  | c :: rest =>
      v <- dict_getitem c df ;;
      tl <- select_columns rest df ;;
      Ok ((c, v) :: tl)
  end.

(** The [try] around the alignment; the handler keeps the frame as the
    fill loop left it. *)
Definition select_features (feature_columns : list string) (df : frame)
  : frame :=
  let processed_data := fill_missing feature_columns df in
  match select_columns feature_columns processed_data with
  | Ok final_data => final_data
  | Raise _ => processed_data
  end.

Definition apply_scaling (scaler : frame -> option (list Q)) (df : frame)
  : frame :=
  match scaler df with
  | Some row =>
      if Nat.eqb (length row) (length df)
      then combine (keys df) (map Num row)
      else df
  | None => df
  end.

(** The [try] around the feature engineer: on any exception the frame
    is used as it came in. *)
Definition enhanced_data (data : frame) : frame :=
  match advanced_feature_engineering data with
  | Ok df => df
  | Raise _ => data
  end.

(** Everything before the models: feature engineering, encoding,
    alignment and scaling. *)
Definition preprocess (pp : Preprocessing) (data : dict Q) : frame :=
  let data := DataFrame data in
  let enhanced_data := enhanced_data data in
  let processed_data := apply_label_encoders (label_encoders pp) enhanced_data in
  let final_data := select_features (feature_columns pp) processed_data in
  apply_scaling (scaler pp) final_data.

(** One turn of the loop over [models.items()].  The log line that
    prints [pred[0]] sits inside the [try] after the append, so an empty
    prediction is followed by the zero vector of the handler. *)
Definition base_predictions (n_rows : nat) (scaled_df : frame)
           (item : string * Model) : list (list Q) :=
  let (model_name, model) := item in
  if String.eqb model_name "Ensemble" then []
  else match predict model (OfFrame scaled_df) with
       | Some pred =>
           match pred with
           | [] => [pred; np_zeros n_rows]
           | _ :: _ => [pred]
           end
       | None => [np_zeros n_rows]
       end.

Definition individual_predictions (n_rows : nat) (scaled_df : frame)
           (models : dict Model) : list (list Q) :=
  flat_map (base_predictions n_rows scaled_df) models.

(** The ensemble stage on a frame of [n_rows] rows. *)
Definition ensemble_predict (n_rows : nat) (models : dict Model)
           (scaled_df : frame) : result (list Q * list (list Q)) :=
  let preds := individual_predictions n_rows scaled_df models in
  stacked_predictions <-
    (match preds with
     | [] => Raise (ValueError "No individual models available for prediction")
     | _ :: _ => np_array_T preds
     end) ;;
  ensemble_model <- dict_getitem "Ensemble" models ;;
  final_predictions <-
    (match predict ensemble_model (OfMatrix stacked_predictions) with
     | Some p => Ok p
     | None => Raise ModelError
     end) ;;
  let final_probabilities :=
    match predict_proba ensemble_model (OfMatrix stacked_predictions) with
    | Some p => p
    | None => map (fun pred => [1 - pred; pred]) final_predictions
    end in
  Ok (final_predictions, final_probabilities).

Definition predict_with_ensemble (data : dict Q) (mc : ModelComponents)
  : result (list Q * list (list Q)) :=
  ensemble_predict 1 (models mc) (preprocess (preprocessing mc) data).

(** *** predict_gdm *)

Record RiskFactors : Type := {
  obesity : bool;
  overweight : bool;
  high_glucose : bool;
  impaired_glucose : bool;
  family_history : bool;
  pcos : bool;
  prediabetes : bool;
  advanced_age : bool;
  high_bp : bool;
  previous_complications : bool;
  sedentary_lifestyle : bool;
  low_hdl : bool;
  anemia : bool;
  multiple_pregnancies : bool
}.

Record Recommendations : Type := {
  immediate_action : string;
  monitoring : string;
  lifestyle : string;
  follow_up : string
}.

Record Outcome : Type := {
  prediction : string;
  gdm_probability : Q;
  non_gdm_probability : Q;
  risk_category : string;
  confidence : Q;
  risk_factors : RiskFactors;
  clinical_recommendations : Recommendations
}.

Definition classes : list string := ["Non GDM"; "GDM"].

(** The five terms of [high_risk_factors]. *)
Definition high_risk_markers (patient_data : dict Q) : list bool :=
  [ Qgeb (dict_get_default "BMI" 20 patient_data) 30;
    Qgeb (dict_get_default "OGTT" 100 patient_data) 140;
    Qgeb (dict_get_default "Age" 20 patient_data) 35;
    Qeq_bool (dict_get_default "Family History" 0 patient_data) 1;
    Qeq_bool (dict_get_default "PCOS" 0 patient_data) 1 ].

Definition risk_category_of (gdm_probability : Q) (high_risk_factors : nat)
  : string :=
  if (Qgeb gdm_probability 0.7 || Nat.leb 3 high_risk_factors)%bool
  then "High Risk"
  else if (Qgeb gdm_probability 0.4 || Nat.leb 2 high_risk_factors)%bool
       then "Moderate Risk"
       else "Low Risk".

Definition risk_factors_of (patient_data : dict Q) : RiskFactors :=
  let get k d := dict_get_default k d patient_data in
  {| obesity := Qgeb (get "BMI" 20) 30;
     overweight := Qle_bool 25 (get "BMI" 20) && Qltb (get "BMI" 20) 30;
     high_glucose := Qgeb (get "OGTT" 100) 140;
     impaired_glucose :=
       Qle_bool 120 (get "OGTT" 100) && Qltb (get "OGTT" 100) 140;
     family_history := Qeq_bool (get "Family History" 0) 1;
     pcos := Qeq_bool (get "PCOS" 0) 1;
     prediabetes := Qeq_bool (get "Prediabetes" 0) 1;
     advanced_age := Qgeb (get "Age" 20) 35;
     high_bp := Qgeb (get "Sys BP" 0) 140 || Qgeb (get "Dia BP" 0) 90;
     previous_complications :=
       Qeq_bool (get "Large Child or Birth Default" 0) 1
       || Qeq_bool (get "unexplained prenetal loss" 0) 1;
     sedentary_lifestyle := Qeq_bool (get "Sedentary Lifestyle" 0) 1;
     low_hdl := Qltb (get "HDL" 50) 40;
     anemia := Qltb (get "Hemoglobin" 12) 11;
     multiple_pregnancies := Qgtb (get "No of Pregnancy" 1) 2 |}.

Definition recommendations_of (prediction_label risk_category : string)
  : Recommendations :=
  if (String.eqb prediction_label "GDM"
      || String.eqb risk_category "High Risk")%bool then
    {| immediate_action := "Consult with healthcare provider immediately for comprehensive GDM management";
       monitoring := "Regular blood glucose monitoring and dietary modifications required";
       lifestyle := "Implement supervised exercise program and nutritional counseling";
       follow_up := "Weekly monitoring with healthcare team recommended" |}
  else if String.eqb risk_category "Moderate Risk" then
    {| immediate_action := "Schedule follow-up appointment within 1-2 weeks";
       monitoring := "Increase frequency of glucose monitoring";
       lifestyle := "Focus on healthy diet and regular physical activity";
       follow_up := "Bi-weekly check-ups recommended" |}
  else
    {| immediate_action := "Continue routine prenatal care";
       monitoring := "Standard prenatal glucose screening as scheduled";
       lifestyle := "Maintain healthy lifestyle with balanced diet and exercise";
       follow_up := "Regular prenatal appointments as planned" |}.

(** [predictions[0] if len(predictions) > 0 else 0] *)
Definition first_prediction (predictions : list Q) : Q :=
  match predictions with p :: _ => p | [] => 0 end.

(** [probabilities[0] if len(probabilities) > 0 else [1, 0]] *)
Definition first_row (probabilities : list (list Q)) : list Q :=
  match probabilities with r :: _ => r | [] => [1; 0] end.

(** The probabilities read off the first row [proba]. *)
Definition probabilities_of (prediction : Q) (proba : list Q)
  : result (Q * Q) :=
  if Nat.leb 2 (length proba) then
    non_gdm_probability <- list_getitem proba 0%Z ;;
    gdm_probability <- list_getitem proba 1%Z ;;
    Ok (gdm_probability, non_gdm_probability)
  else
    p0 <- list_getitem proba 0%Z ;;
    let gdm_probability := if Qeq_bool prediction 1 then p0 else 1 - p0 in
    Ok (gdm_probability, 1 - gdm_probability).

(** [preprocessing.get('optimal_threshold', 0.5)] *)
Definition threshold_of (pp : Preprocessing) : Q :=
  match optimal_threshold pp with
  | Some t => t
  | None => 0.5
  end.

(** The body of the [try] block of [predict_gdm]. *)
Definition predict_gdm_body (mc : ModelComponents) (patient_data : dict Q)
  : result Outcome :=
  pp <- predict_with_ensemble patient_data mc ;;
  let (predictions, probabilities) := pp in
  let prediction := first_prediction predictions in
  let proba := first_row probabilities in
  prediction_label <- list_getitem classes (py_int prediction) ;;
  gn <- probabilities_of prediction proba ;;
  let (gdm_probability, non_gdm_probability) := gn in
  let optimal_threshold := threshold_of (preprocessing mc) in
  let prediction_label :=
    if Qgeb gdm_probability optimal_threshold then "GDM" else "Non GDM" in
  let high_risk_factors := count_true (high_risk_markers patient_data) in
  let risk_category := risk_category_of gdm_probability high_risk_factors in
  Ok {| prediction := prediction_label;
        gdm_probability := gdm_probability;
        non_gdm_probability := non_gdm_probability;
        risk_category := risk_category;
        confidence := py_max gdm_probability non_gdm_probability;
        risk_factors := risk_factors_of patient_data;
        clinical_recommendations :=
          recommendations_of prediction_label risk_category |}.

(** [model_components] is the module-level global, [None] until the
    bundle is loaded.  Any exception of the body is re-raised as
    [ValueError("Prediction failed: ...")]. *)
Definition predict_gdm (model_components : option ModelComponents)
           (patient_data : dict Q) : result Outcome :=
  match model_components with
  | None => Raise (ValueError "Model not loaded")
  | Some mc =>
      match predict_gdm_body mc patient_data with
      | Ok out => Ok out
      | Raise e => Raise (PredictionFailed e)
      end
  end.

(** *** Request schema *)

(** [class PatientData(BaseModel)]: the arguments of the constructor,
    float fields as [Q], int fields as [Z]. *)
Record PatientData : Type := {
  Age : Q;
  No_of_Pregnancy : Z;
  Gestation_in_previous_Pregnancy : Q;
  BMI : Q;
  OGTT : Q;
  HDL : Q;
  Family_History : Z;
  unexplained_prenetal_loss : Z;
  Large_Child_or_Birth_Default : Z;
  PCOS : Z;
  Sys_BP : Q;
  Dia_BP : Q;
  Hemoglobin : Q;
  Sedentary_Lifestyle : Z;
  Prediabetes : Z
}.

(** [Field(..., ge=lo, le=hi)] *)
Definition ge_le (lo hi x : Q) : bool := Qle_bool lo x && Qle_bool x hi.
Definition ge_le_int (lo hi x : Z) : bool := ((lo <=? x) && (x <=? hi))%Z.

(** [@field_validator('Dia_BP')]; [sys_bp] is [info.data.get('Sys_BP')],
    there only when Sys_BP itself validated. *)
Definition validate_blood_pressure (sys_bp : option Q) (dia_bp : Q)
  : result Q :=
  match sys_bp with
  | Some sys =>
      if Qgeb dia_bp sys
      then Raise (ValueError "Diastolic BP must be less than Systolic BP")
      else Ok dia_bp
  | None => Ok dia_bp
  end.

(** [@field_validator('BMI')] *)
Definition validate_bmi (bmi : Q) : result Q :=
  if (Qltb bmi 15 || Qgtb bmi 50)%bool
  then Raise (ValueError "BMI must be between 15 and 50")
  else Ok bmi.

(** [@field_validator('OGTT')] *)
Definition validate_ogtt (ogtt : Q) : result Q :=
  if (Qltb ogtt 50 || Qgtb ogtt 400)%bool
  then Raise (ValueError "OGTT must be between 50 and 400 mg/dL")
  else Ok ogtt.

(** One field of the model: its bounds, then its validator (which runs
    only when the bounds hold); the alias of the field when it fails. *)
Definition field_errors {A} (alias : string) (bounds_ok : bool)
  (validator : result A) : list string :=
  if bounds_ok then
    match validator with
    | Ok _ => []
    | Raise _ => [alias]
    end
  else [alias].

(** The fields that fail, in declaration order. *)
Definition validation_errors (p : PatientData) : list string :=
  (field_errors "Age" (ge_le 15 60 (Age p)) (Ok (Age p))
   ++ field_errors "No of Pregnancy"
        (ge_le_int 0 20 (No_of_Pregnancy p)) (Ok (No_of_Pregnancy p))
   ++ field_errors "Gestation in previous Pregnancy"
        (ge_le 0 45 (Gestation_in_previous_Pregnancy p))
        (Ok (Gestation_in_previous_Pregnancy p))
   ++ field_errors "BMI" (ge_le 15 50 (BMI p)) (validate_bmi (BMI p))
   ++ field_errors "OGTT" (ge_le 50 400 (OGTT p)) (validate_ogtt (OGTT p))
   ++ field_errors "HDL" (ge_le 10 150 (HDL p)) (Ok (HDL p))
   ++ field_errors "Family History"
        (ge_le_int 0 1 (Family_History p)) (Ok (Family_History p))
   ++ field_errors "unexplained prenetal loss"
        (ge_le_int 0 1 (unexplained_prenetal_loss p))
        (Ok (unexplained_prenetal_loss p))
   ++ field_errors "Large Child or Birth Default"
        (ge_le_int 0 1 (Large_Child_or_Birth_Default p))
        (Ok (Large_Child_or_Birth_Default p))
   ++ field_errors "PCOS" (ge_le_int 0 1 (PCOS p)) (Ok (PCOS p))
   ++ field_errors "Sys BP" (ge_le 70 200 (Sys_BP p)) (Ok (Sys_BP p))
   ++ field_errors "Dia BP" (ge_le 40 130 (Dia_BP p))
        (validate_blood_pressure
           (if ge_le 70 200 (Sys_BP p) then Some (Sys_BP p) else None)
           (Dia_BP p))
   ++ field_errors "Hemoglobin" (ge_le 5 20 (Hemoglobin p)) (Ok (Hemoglobin p))
   ++ field_errors "Sedentary Lifestyle"
        (ge_le_int 0 1 (Sedentary_Lifestyle p)) (Ok (Sedentary_Lifestyle p))
   ++ field_errors "Prediabetes"
        (ge_le_int 0 1 (Prediabetes p)) (Ok (Prediabetes p)))%list.

(** The constructor accepts the arguments. *)
Definition is_valid (p : PatientData) : bool :=
  match validation_errors p with
  | [] => true
  | _ :: _ => false
  end.

(** [patient_data.model_dump(by_alias=True)] *)
Definition model_dump (p : PatientData) : dict Q :=
  [("Age", Age p);
   ("No of Pregnancy", inject_Z (No_of_Pregnancy p));
   ("Gestation in previous Pregnancy", Gestation_in_previous_Pregnancy p);
   ("BMI", BMI p);
   ("OGTT", OGTT p);
   ("HDL", HDL p);
   ("Family History", inject_Z (Family_History p));
   ("unexplained prenetal loss", inject_Z (unexplained_prenetal_loss p));
   ("Large Child or Birth Default",
    inject_Z (Large_Child_or_Birth_Default p));
   ("PCOS", inject_Z (PCOS p));
   ("Sys BP", Sys_BP p);
   ("Dia BP", Dia_BP p);
   ("Hemoglobin", Hemoglobin p);
   ("Sedentary Lifestyle", inject_Z (Sedentary_Lifestyle p));
   ("Prediabetes", inject_Z (Prediabetes p))].

(** *** Loading the bundle *)

(** The entries of [model_metadata.json] the code indexes.  The loader
    needs 'saved_models'; 'version', 'timestamp' and 'problem_type' are
    only read by the service and may be absent from the file. *)
Record Metadata : Type := {
  version : option string;
  metadata_timestamp : option string;
  problem_type : option string;
  saved_models : dict string     (* model name -> file name *)
}.

(** [model_metadata[k]] for an entry that may be absent. *)
Definition metadata_getitem (k : string) (entry : option string)
  : result string :=
  match entry with
  | Some v => Ok v
  | None => Raise (KeyError k)
  end.

(** The dict returned by [load_model_version]: its 'models' and
    'preprocessing' entries, and its 'metadata'. *)
Record Bundle : Type := {
  components : ModelComponents;
  bundle_metadata : Metadata
}.

(** The disk, as the loader sees it; a read answers [None] when
    [open], [json.load] or [joblib.load] raises. *)
Record FileSystem : Type := {
  path_exists : string -> bool;
  json_load : string -> option Metadata;
  joblib_load_preprocessing : string -> option Preprocessing;
  joblib_load_model : string -> option Model
}.

Inductive load_error : Type :=
| FileNotFoundError (msg : string)
| ReadError (path : string).

(** [os.path.join(a, b)] on POSIX paths. *)
Definition path_join (a b : string) : string :=
  if String.prefix "/" b then b
  else if String.eqb a "" then b
  else if String.eqb (substring (String.length a - 1) 1 a) "/" then a ++ b
  else a ++ "/" ++ b.

(** The loop over [metadata['saved_models'].items()]. *)
Fixpoint load_models (fs : FileSystem) (version_dir : string)
  (saved : dict string) (loaded_models : dict Model)
  : load_error + dict Model :=
  match saved with
  | [] => inr loaded_models
  | (model_name, filename) :: rest =>
      let model_path := path_join version_dir filename in
      match joblib_load_model fs model_path with
      | Some m =>
          load_models fs version_dir rest (dict_set model_name m loaded_models)
      | None => inl (ReadError model_path)
      end
  end.

Definition load_model_version (fs : FileSystem) (version_dir : string)
  : load_error + Bundle :=
  let metadata_path := path_join version_dir "model_metadata.json" in
  match json_load fs metadata_path with
  | None => inl (ReadError metadata_path)
  | Some metadata =>
      let preprocessing_path := path_join version_dir "preprocessing.pkl" in
      match joblib_load_preprocessing fs preprocessing_path with
      | None => inl (ReadError preprocessing_path)
      | Some preprocessing_data =>
          match load_models fs version_dir (saved_models metadata) [] with
          | inl e => inl e
          | inr loaded_models =>
              inr {| components :=
                       {| models := loaded_models;
                          preprocessing := preprocessing_data |};
                     bundle_metadata := metadata |}
          end
      end
  end.

Definition MODELS_DIR : string := ".".

Definition load_latest_model (fs : FileSystem) : load_error + Bundle :=
  let latest_dir := path_join MODELS_DIR "latest" in
  if path_exists fs latest_dir then load_model_version fs latest_dir
  else inl (FileNotFoundError
              "No latest model found. Please train and save a model first.").

(** *** The service *)

(** The two module-level globals. *)
Record ServiceState : Type := {
  model_components : option ModelComponents;
  model_metadata : option Metadata
}.

(** [lifespan] up to its [yield]: a failed load is logged and the server
    goes on with both globals [None].  After a load that returned, both
    globals are assigned before the log lines index the metadata, so a
    [KeyError] raised there is logged by the same handler and leaves
    them set. *)
Definition lifespan (fs : FileSystem) : ServiceState :=
  match load_latest_model fs with
  | inr bundle =>
      {| model_components := Some (components bundle);
         model_metadata := Some (bundle_metadata bundle) |}
  | inl _ =>
      {| model_components := None; model_metadata := None |}
  end.

Record PredictionResponse : Type := {
  success : bool;
  prediction_result : Outcome;
  timestamp : string;
  model_version : string;
  message : string
}.

(** What an endpoint does: it returns its value, raises an
    [HTTPException], or lets another exception out, which the server
    answers with 500 Internal Server Error. *)
Inductive http (A : Type) : Type :=
| Returned (a : A)
| HTTPException (status_code : Z) (cause : option exn)
| Unhandled (e : exn).
Arguments Returned {A} a.
Arguments HTTPException {A} status_code cause.
Arguments Unhandled {A} e.

(** [POST /predict]; [now] is [datetime.now().isoformat()]. *)
Definition predict_endpoint (st : ServiceState) (now : string)
  (patient_data : PatientData) : http PredictionResponse :=
  let data_dict := model_dump patient_data in
  let response :=
    prediction_result <- predict_gdm (model_components st) data_dict ;;
    model_version <-
      (match model_metadata st with
       | Some md => metadata_getitem "version" (version md)
       | None => Ok "unknown"
       end) ;;
    Ok {| success := true;
          prediction_result := prediction_result;
          timestamp := now;
          model_version := model_version;
          message := "Prediction completed successfully with fixed models" |}
  in
  match response with
  | Ok r => Returned r
  | Raise e => HTTPException 500 (Some e)
  end.

(** The profile built by [test_high_risk]. *)
Definition high_risk_profile : PatientData :=
  {| Age := 38; No_of_Pregnancy := 3; Gestation_in_previous_Pregnancy := 1;
     BMI := 32.5; OGTT := 180; HDL := 35; Family_History := 1;
     unexplained_prenetal_loss := 1; Large_Child_or_Birth_Default := 1;
     PCOS := 1; Sys_BP := 145; Dia_BP := 95; Hemoglobin := 10.5;
     Sedentary_Lifestyle := 1; Prediabetes := 1 |}.

(** The profile built by [test_low_risk]. *)
Definition low_risk_profile : PatientData :=
  {| Age := 25; No_of_Pregnancy := 1; Gestation_in_previous_Pregnancy := 0;
     BMI := 22.5; OGTT := 115; HDL := 60; Family_History := 0;
     unexplained_prenetal_loss := 0; Large_Child_or_Birth_Default := 0;
     PCOS := 0; Sys_BP := 110; Dia_BP := 70; Hemoglobin := 12.5;
     Sedentary_Lifestyle := 0; Prediabetes := 0 |}.

(** [POST /test/high-risk] and [POST /test/low-risk]. *)
Definition test_high_risk (st : ServiceState) (now : string)
  : http PredictionResponse :=
  predict_endpoint st now high_risk_profile.

Definition test_low_risk (st : ServiceState) (now : string)
  : http PredictionResponse :=
  predict_endpoint st now low_risk_profile.

(** [GET /health]: status, model_loaded and, when loaded, the version. *)
Record Health : Type := {
  status : string;
  model_loaded : bool;
  health_model_version : option string
}.

Definition health_check (st : ServiceState) : http Health :=
  let model_loaded :=
    match model_components st with Some _ => true | None => false end in
  let health_status :=
    {| status := if model_loaded then "healthy" else "degraded";
       model_loaded := model_loaded;
       health_model_version := None |} in
  match model_loaded, model_metadata st with
  | true, Some md =>
      match metadata_getitem "version" (version md) with
      | Ok v =>
          Returned {| status := status health_status;
                      model_loaded := true;
                      health_model_version := Some v |}
      | Raise e => Unhandled e
      end
  | _, _ => Returned health_status
  end.

(** [GET /model-info]: version, timestamp, problem type and the saved
    model names. *)
Definition model_info (st : ServiceState)
  : http (string * string * string * list string) :=
  match model_components st, model_metadata st with
  | Some _, Some md =>
      let info :=
        model_version <- metadata_getitem "version" (version md) ;;
        timestamp <- metadata_getitem "timestamp" (metadata_timestamp md) ;;
        problem_type <- metadata_getitem "problem_type" (problem_type md) ;;
        Ok (model_version, timestamp, problem_type, keys (saved_models md))
      in
      match info with
      | Ok i => Returned i
      | Raise e => Unhandled e
      end
  | _, _ => HTTPException 503 None
  end.

End GdmBackend.

(** ** fastapi_backend_modified.py: the legacy variant *)

Module FastapiBackendModified.

(** A fitted label encoder, seen through [encoder.transform(column)] on
    one cell; [None] when it raises [ValueError]. *)
Record LabelEncoder : Type := {
  transform : cell -> option Z
}.

Record Preprocessing : Type := {
  label_encoders : dict LabelEncoder;
  feature_columns : list string
}.

Record Metadata : Type := {
  problem_type : string
}.

Record ModelComponents : Type := {
  models : dict Model;
  preprocessing : Preprocessing;
  metadata : Metadata
}.

Definition encode_column (df : frame) (ce : string * LabelEncoder) : frame :=
  let (col, encoder) := ce in
  match dict_get col df with
  | None => df
  | Some c =>
      match transform encoder c with
      | Some code => dict_set col (Num (inject_Z code)) df
      | None => dict_set col (Num 0) df
      end
  end.

(** [df[cols]]: the listed columns in the listed order.  pandas looks
    all of them up first and raises one [KeyError] for the absent ones:
    "None of [cols] are in the [columns]" when no requested column
    exists, "[not_found] not in index" otherwise, where [not_found] has
    every absent column once, in the order of [cols]. *)
Definition select_columns (cols : list string) (df : frame) : result frame :=
  let missing := filter (fun c => negb (dict_mem c df)) cols in
  let nmissing := length missing in
  if Nat.eqb nmissing 0 then
    Ok (flat_map (fun c => match dict_get c df with
                           | Some v => [(c, v)]
                           | None => []
                           end) cols)
  else if Nat.eqb nmissing (length cols) then Raise (NoneOfColumns cols)
  else Raise (ColumnsNotInIndex (unique missing)).

Definition base_predictions (n_rows : nat) (processed_data : frame)
           (item : string * Model) : list (list Q) :=
  let (model_name, model) := item in
  if String.eqb model_name "Ensemble" then []
  else match predict model (OfFrame processed_data) with
       | Some pred => [pred]
       | None => [np_zeros n_rows]
       end.

Definition individual_predictions (n_rows : nat) (processed_data : frame)
           (models : dict Model) : list (list Q) :=
  flat_map (base_predictions n_rows processed_data) models.

(** The ensemble stage on a frame of [n_rows] rows. *)
Definition ensemble_predict (n_rows : nat) (models : dict Model)
           (processed_data : frame) : result (list Q * list (list Q)) :=
  let preds := individual_predictions n_rows processed_data models in
  stacked_predictions <-
    (match preds with
     | [] => Raise (ValueError "No individual models available for prediction")
     | _ :: _ => np_array_T preds
     end) ;;
  ensemble_model <- dict_getitem "Ensemble" models ;;
  final_predictions <-
    (match predict ensemble_model (OfMatrix stacked_predictions) with
     | Some p => Ok p
     | None => Raise ModelError
     end) ;;
  let final_probabilities :=
    match predict_proba ensemble_model (OfMatrix stacked_predictions) with
    | Some p => p
    | None => map (fun pred => [1 - pred; pred]) final_predictions
    end in
  Ok (final_predictions, final_probabilities).

Definition predict_with_ensemble (data : dict Q) (mc : ModelComponents)
  : result (list Q * list (list Q)) :=
  let data := DataFrame data in
  let processed_data :=
    fold_left encode_column (label_encoders (preprocessing mc)) data in
  processed_data <-
    select_columns (feature_columns (preprocessing mc)) processed_data ;;
  ensemble_predict 1 (models mc) processed_data.

Record RiskFactors : Type := {
  family_history : bool;
  pcos : bool;
  prediabetes : bool;
  advanced_age : bool;
  high_bp : bool;
  previous_complications : bool;
  sedentary_lifestyle : bool;
  low_hdl : bool;
  anemia : bool;
  multiple_pregnancies : bool
}.

Record Outcome : Type := {
  prediction : string;
  gdm_probability : Q;
  non_gdm_probability : Q;
  risk_category : string;
  confidence : Q;
  risk_factors : RiskFactors
}.

Definition classes : list string := ["Non GDM"; "GDM"].

(** [if k not in d: d[k] = v] *)
Definition setdefault (k : string) (v : Q) (d : dict Q) : dict Q :=
  if dict_mem k d then d else dict_set k v d.

Definition risk_category_of (gdm_probability : Q) : string :=
  if Qltb gdm_probability 0.3 then "Low Risk"
  else if Qltb gdm_probability 0.6 then "Moderate Risk"
       else "High Risk".

Definition risk_factors_of (patient_data : dict Q) : RiskFactors :=
  let get k d := dict_get_default k d patient_data in
  {| family_history := Qeq_bool (get "Family History" 0) 1;
     pcos := Qeq_bool (get "PCOS" 0) 1;
     prediabetes := Qeq_bool (get "Prediabetes" 0) 1;
     advanced_age := Qgtb (get "Age" 0) 35;
     high_bp := Qgtb (get "Sys BP" 0) 140 || Qgtb (get "Dia BP" 0) 90;
     previous_complications :=
       Qeq_bool (get "Large Child or Birth Default" 0) 1
       || Qeq_bool (get "unexplained prenetal loss" 0) 1;
     sedentary_lifestyle := Qeq_bool (get "Sedentary Lifestyle" 0) 1;
     low_hdl := Qltb (get "HDL" 0) 40;
     anemia := Qltb (get "Hemoglobin" 0) 11;
     multiple_pregnancies := Qgtb (get "No of Pregnancy" 0) 2 |}.

(** [predictions[0] if len(predictions) > 0 else 0] *)
Definition first_prediction (predictions : list Q) : Q :=
  match predictions with p :: _ => p | [] => 0 end.

(** [probabilities[0] if len(probabilities) > 0 else [1, 0]] *)
Definition first_row (probabilities : list (list Q)) : list Q :=
  match probabilities with r :: _ => r | [] => [1; 0] end.

(** The probabilities read off the first row [proba]. *)
Definition probabilities_of (prediction : Q) (proba : list Q)
  : result (Q * Q) :=
  if Nat.leb 2 (length proba) then
    non_gdm_probability <- list_getitem proba 0%Z ;;
    gdm_probability <- list_getitem proba 1%Z ;;
    Ok (gdm_probability, non_gdm_probability)
  else
    p0 <- list_getitem proba 0%Z ;;
    let gdm_probability := if Qeq_bool prediction 1 then p0 else 1 - p0 in
    Ok (gdm_probability, 1 - gdm_probability).

(** Label and probabilities, by [problem_type].  The regression branch
    takes the raw prediction as probability; its complement is exact
    here and rounded in the program (see [Binary64]). *)
Definition label_and_probabilities (problem_type : string)
           (prediction : Q) (proba : list Q) : result (string * Q * Q) :=
  if String.eqb problem_type "classification" then
    prediction_label <- list_getitem classes (py_int prediction) ;;
    gn <- probabilities_of prediction proba ;;
    Ok (prediction_label, fst gn, snd gn)
  else
    let threshold := 0.5 in
    let prediction_label :=
      if Qgtb prediction threshold then "GDM" else "Non GDM" in
    let gdm_probability := prediction in
    Ok (prediction_label, gdm_probability, 1 - gdm_probability).

(** The body of the [try] block of [predict_gdm]. *)
Definition predict_gdm_body (mc : ModelComponents) (patient_data : dict Q)
  : result Outcome :=
  let patient_data := setdefault "Case Number" 0 patient_data in
  let patient_data := setdefault "BMI" 22.0 patient_data in
  let patient_data := setdefault "OGTT" 120.0 patient_data in
  pp <- predict_with_ensemble patient_data mc ;;
  let (predictions, probabilities) := pp in
  let prediction := first_prediction predictions in
  let proba := first_row probabilities in
  lgn <- label_and_probabilities (problem_type (metadata mc))
                                 prediction proba ;;
  let '(prediction_label, gdm_probability, non_gdm_probability) := lgn in
  Ok {| prediction := prediction_label;
        gdm_probability := gdm_probability;
        non_gdm_probability := non_gdm_probability;
        risk_category := risk_category_of gdm_probability;
        confidence := py_max gdm_probability non_gdm_probability;
        risk_factors := risk_factors_of patient_data |}.

Definition predict_gdm (model_components : option ModelComponents)
           (patient_data : dict Q) : result Outcome :=
  match model_components with
  | None => Raise (ValueError "Model not loaded")
  | Some mc =>
      match predict_gdm_body mc patient_data with
      | Ok out => Ok out
      | Raise e => Raise (PredictionFailed e)
      end
  end.

(** *** Request schema *)

(** [class PatientData(BaseModel)] of the legacy file: no BMI, no OGTT. *)
Record PatientData : Type := {
  Age : Q;
  No_of_Pregnancy : Z;
  Gestation_in_previous_Pregnancy : Q;
  HDL : Q;
  Family_History : Z;
  unexplained_prenetal_loss : Z;
  Large_Child_or_Birth_Default : Z;
  PCOS : Z;
  Sys_BP : Q;
  Dia_BP : Q;
  Hemoglobin : Q;
  Sedentary_Lifestyle : Z;
  Prediabetes : Z
}.

(** [patient_data.model_dump(by_alias=True)] *)
Definition model_dump (p : PatientData) : dict Q :=
  [("Age", Age p);
   ("No of Pregnancy", inject_Z (No_of_Pregnancy p));
   ("Gestation in previous Pregnancy", Gestation_in_previous_Pregnancy p);
   ("HDL", HDL p);
   ("Family History", inject_Z (Family_History p));
   ("unexplained prenetal loss", inject_Z (unexplained_prenetal_loss p));
   ("Large Child or Birth Default",
    inject_Z (Large_Child_or_Birth_Default p));
   ("PCOS", inject_Z (PCOS p));
   ("Sys BP", Sys_BP p);
   ("Dia BP", Dia_BP p);
   ("Hemoglobin", Hemoglobin p);
   ("Sedentary Lifestyle", inject_Z (Sedentary_Lifestyle p));
   ("Prediabetes", inject_Z (Prediabetes p))].

(** The record after the three "add missing features" assignments at the
    head of [predict_gdm]. *)
Definition with_defaults (patient_data : dict Q) : dict Q :=
  let patient_data := setdefault "Case Number" 0 patient_data in
  let patient_data := setdefault "BMI" 22.0 patient_data in
  setdefault "OGTT" 120.0 patient_data.

End FastapiBackendModified.

(** ** Auxiliary definitions for the statements *)

(** Columns of an engineered frame that hold something else than a
    finite number; the feature engineer never reads them back. *)
Definition symbolic_columns : list string :=
  ["BMI_Category"; "OGTT_Category"; "BP_Ratio"; "BMI_log"; "OGTT_log"].

Definition numeric_outside (df : frame) : Prop :=
  forall k c, dict_get k df = Some c ->
              In k symbolic_columns \/ exists q, c = Num q.

(** A block that writes the columns [W] under the invariant. *)
Definition block_ok (W : list string) (f : frame -> result frame)
  (df : frame) : Prop :=
  exists df', f df = Ok df' /\ numeric_outside df' /\
              forall k, ~ In k W -> dict_get k df' = dict_get k df.

(** The columns written after the BMI and OGTT blocks. *)
Definition later_columns : list string :=
  ["BMI_OGTT_Risk"; "Age_BMI_Interaction"; "BP_Ratio"; "Pulse_Pressure";
   "Mean_Arterial_Pressure"; "Hypertensive"; "Comprehensive_Risk_Score";
   "High_Risk_BMI"; "High_Risk_OGTT"; "Advanced_Age"; "BMI_log"; "OGTT_log"].

(** The default-fill policy in the words of the specification. *)
Definition spec_default (col : string) : Q :=
  if (str_contains "Risk" col || str_contains "Score" col)%bool then 0
  else if String.eqb col "Age" then 28
  else if String.eqb col "BMI" then 23
  else if String.eqb col "OGTT" then 120
  else if String.eqb col "Hemoglobin" then 12
  else if String.eqb col "HDL" then 50
  else 0.

(** The aligned value of a column: its own cell, or the default. *)
Definition cell_or_default (df : frame) (col : string) : cell :=
  match dict_get col df with
  | Some c => c
  | None => Num (spec_default col)
  end.

(** A field of the patient record with a given value. *)
Definition has_field (patient_data : dict Q) (k : string) (v : Q) : Prop :=
  exists x, dict_get k patient_data = Some x /\ x == v.

(** A marker of the specification, evaluated on the raw record: the
    field is there and satisfies the test. *)
Definition field_holds (patient_data : dict Q) (k : string)
  (test : Q -> bool) : bool :=
  match dict_get k patient_data with
  | Some v => test v
  | None => false
  end.

(** count(high-risk markers) in the words of the specification:
    BMI >= 30, OGTT >= 140, Age >= 35, Family History = 1, PCOS = 1. *)
Definition spec_marker_count (patient_data : dict Q) : nat :=
  count_true
    [ field_holds patient_data "BMI" (fun v => Qle_bool 30 v);
      field_holds patient_data "OGTT" (fun v => Qle_bool 140 v);
      field_holds patient_data "Age" (fun v => Qle_bool 35 v);
      field_holds patient_data "Family History" (fun v => Qeq_bool v 1);
      field_holds patient_data "PCOS" (fun v => Qeq_bool v 1) ].

(** Scenario A of the specification. *)
Definition scenario_A (patient_data : dict Q) : Prop :=
  has_field patient_data "Age" 38 /\
  has_field patient_data "No of Pregnancy" 3 /\
  has_field patient_data "BMI" 32.5 /\
  has_field patient_data "OGTT" 180 /\
  has_field patient_data "HDL" 35 /\
  has_field patient_data "Family History" 1 /\
  has_field patient_data "unexplained prenetal loss" 1 /\
  has_field patient_data "Large Child or Birth Default" 1 /\
  has_field patient_data "PCOS" 1 /\
  has_field patient_data "Sys BP" 145 /\
  has_field patient_data "Dia BP" 95 /\
  has_field patient_data "Hemoglobin" 10.5 /\
  has_field patient_data "Sedentary Lifestyle" 1 /\
  has_field patient_data "Prediabetes" 1.




(** The two assignments of the regression branch of the legacy
    [predict_gdm], on binary64 numbers as the program computes them. *)
Module Binary64.
Import PrimFloat.

Definition regression_probabilities (prediction : float) : float * float :=
  let gdm_probability := prediction in
  let non_gdm_probability := (1 - gdm_probability)%float in
  (gdm_probability, non_gdm_probability).

Definition sum_of (gn : float * float) : float := (fst gn + snd gn)%float.

End Binary64.

(** The models other than the meta-model. *)
Definition base_models (models : dict Model) : dict Model :=
  filter (fun item => negb (String.eqb (fst item) "Ensemble")) models.

(** Each base model answers with one prediction per input row. *)
Definition one_prediction_per_row (n_rows : nat) (df : frame)
  (models : dict Model) : Prop :=
  forall name m pred,
    In (name, m) models -> predict m (OfFrame df) = Some pred ->
    length pred = n_rows.

(** The two fatal conditions of the ensemble stage, as the code raises
    them. *)
Definition NoBaseModels : exn :=
  ValueError "No individual models available for prediction".
Definition NoEnsembleModel : exn := KeyError "Ensemble".

(** What both files do with the collected base predictions: stack them,
    look the meta-model up, ask it for labels and probabilities. *)
Definition ensemble_tail (preds : list (list Q)) (models : dict Model)
  : result (list Q * list (list Q)) :=
  stacked_predictions <-
    (match preds with
     | [] => Raise (ValueError "No individual models available for prediction")
     | _ :: _ => np_array_T preds
     end) ;;
  ensemble_model <- dict_getitem "Ensemble" models ;;
  final_predictions <-
    (match predict ensemble_model (OfMatrix stacked_predictions) with
     | Some p => Ok p
     | None => Raise ModelError
     end) ;;
  let final_probabilities :=
    match predict_proba ensemble_model (OfMatrix stacked_predictions) with
    | Some p => p
    | None => map (fun pred => [1 - pred; pred]) final_predictions
    end in
  Ok (final_predictions, final_probabilities).

(** The columns the feature engineer can write. *)
Definition derived_columns : list string :=
  ["BMI_Category"; "BMI_Risk_Score"; "OGTT_Category"; "OGTT_Risk_Score";
   "BMI_OGTT_Risk"; "Age_BMI_Interaction"; "BP_Ratio"; "Pulse_Pressure";
   "Mean_Arterial_Pressure"; "Hypertensive"; "Comprehensive_Risk_Score";
   "High_Risk_BMI"; "High_Risk_OGTT"; "Advanced_Age"; "BMI_log"; "OGTT_log"].

(** The score that goes with a bin label. *)
Definition bmi_score_of_label (label : string) : Q :=
  if String.eqb label "Underweight" then 1
  else if String.eqb label "Normal" then 0
  else if String.eqb label "Overweight" then 2
  else 4.

Definition ogtt_score_of_label (label : string) : Q :=
  if String.eqb label "Normal" then 0
  else if String.eqb label "Impaired" then 3
  else 5.

(** What the constructor of [PatientData] demands of its arguments. *)
Definition within_bounds (p : GdmBackend.PatientData) : Prop :=
  (15 <= GdmBackend.Age p <= 60) /\
  (0 <= GdmBackend.No_of_Pregnancy p <= 20)%Z /\
  (0 <= GdmBackend.Gestation_in_previous_Pregnancy p <= 45) /\
  (15 <= GdmBackend.BMI p <= 50) /\
  (50 <= GdmBackend.OGTT p <= 400) /\
  (10 <= GdmBackend.HDL p <= 150) /\
  (0 <= GdmBackend.Family_History p <= 1)%Z /\
  (0 <= GdmBackend.unexplained_prenetal_loss p <= 1)%Z /\
  (0 <= GdmBackend.Large_Child_or_Birth_Default p <= 1)%Z /\
  (0 <= GdmBackend.PCOS p <= 1)%Z /\
  (70 <= GdmBackend.Sys_BP p <= 200) /\
  (40 <= GdmBackend.Dia_BP p <= 130) /\
  (5 <= GdmBackend.Hemoglobin p <= 20) /\
  (0 <= GdmBackend.Sedentary_Lifestyle p <= 1)%Z /\
  (0 <= GdmBackend.Prediabetes p <= 1)%Z /\
  GdmBackend.Dia_BP p < GdmBackend.Sys_BP p.

(** The frame the feature engineer builds from a request of the
    endpoint: the fifteen fields, then the derived columns in the order
    they are assigned. *)
Definition engineered_frame (p : GdmBackend.PatientData) : frame :=
  let age := GdmBackend.Age p in
  let pregnancies := inject_Z (GdmBackend.No_of_Pregnancy p) in
  let bmi := GdmBackend.BMI p in
  let ogtt := GdmBackend.OGTT p in
  let sys := GdmBackend.Sys_BP p in
  let dia := GdmBackend.Dia_BP p in
  (DataFrame (GdmBackend.model_dump p)
   ++ [("BMI_Category", GdmBackend.BMI_Category bmi);
       ("BMI_Risk_Score", Num (GdmBackend.BMI_Risk_Score bmi));
       ("OGTT_Category", GdmBackend.OGTT_Category ogtt);
       ("OGTT_Risk_Score", Num (GdmBackend.OGTT_Risk_Score ogtt));
       ("BMI_OGTT_Risk",
        Num (GdmBackend.BMI_Risk_Score bmi + GdmBackend.OGTT_Risk_Score ogtt));
       ("Age_BMI_Interaction", Num (age * bmi / 100));
       ("BP_Ratio", truediv sys dia);
       ("Pulse_Pressure", Num (sys - dia));
       ("Mean_Arterial_Pressure", Num ((sys + 2 * dia) / 3));
       ("Hypertensive", Num (GdmBackend.Hypertensive sys dia));
       ("Comprehensive_Risk_Score",
        Num (0 + GdmBackend.OGTT_Risk_Score ogtt * 2
             + GdmBackend.BMI_Risk_Score bmi * 1.5
             + b2q (Qgtb age 35) * 2
             + inject_Z (GdmBackend.Family_History p) * 2
             + inject_Z (GdmBackend.PCOS p) * 2.5
             + b2q (Qgtb pregnancies 2) * 1
             + GdmBackend.Hypertensive sys dia * 1.5));
       ("High_Risk_BMI", Num (b2q (Qgeb bmi 30)));
       ("High_Risk_OGTT", Num (b2q (Qgeb ogtt 140)));
       ("Advanced_Age", Num (b2q (Qgeb age 35)));
       ("BMI_log", Log1p bmi);
       ("OGTT_log", Log1p ogtt)])%list.

(** The three recommendation templates of the extended variant. *)
Definition urgent_care : GdmBackend.Recommendations :=
  GdmBackend.recommendations_of "GDM" "High Risk".
Definition follow_up_care : GdmBackend.Recommendations :=
  GdmBackend.recommendations_of "Non GDM" "Moderate Risk".
Definition routine_care : GdmBackend.Recommendations :=
  GdmBackend.recommendations_of "Non GDM" "Low Risk".

(** The exceptions the extended [predict_with_ensemble] can let out. *)
Definition ensemble_failure (e : exn) : Prop :=
  e = NoBaseModels \/ e = NoEnsembleModel \/
  e = ValueError "inhomogeneous shape" \/ e = ModelError.

(** The meta-feature column of a base model: its prediction, or the
    zero vector when its [predict] raises. *)
Definition base_column (n_rows : nat) (df : frame) (item : string * Model)
  : list Q :=
  match predict (snd item) (OfFrame df) with
  | Some pred => pred
  | None => np_zeros n_rows
  end.

(** ** Sample inputs *)

Definition record_bmi_25 : dict Q :=
  [("Age", 30); ("No of Pregnancy", 1); ("BMI", 25.0); ("OGTT", 100)].

Definition record_at_thresholds : dict Q :=
  [("Age", 30); ("No of Pregnancy", 1); ("BMI", 18.5); ("OGTT", 140);
   ("Sys BP", 140); ("Dia BP", 90)].

Definition record_without_age : dict Q :=
  [("No of Pregnancy", 1); ("BMI", 32); ("OGTT", 150);
   ("Sys BP", 120); ("Dia BP", 80)].

(** The profile of [test_high_risk]. *)
Definition high_risk_data : dict Q :=
  [("Age", 38); ("No of Pregnancy", 3);
   ("Gestation in previous Pregnancy", 1);
   ("BMI", 32.5); ("OGTT", 180); ("HDL", 35);
   ("Family History", 1); ("unexplained prenetal loss", 1);
   ("Large Child or Birth Default", 1); ("PCOS", 1);
   ("Sys BP", 145); ("Dia BP", 95); ("Hemoglobin", 10.5);
   ("Sedentary Lifestyle", 1); ("Prediabetes", 1)].

(** The profile of [test_low_risk]. *)
Definition low_risk_data : dict Q :=
  [("Age", 25); ("No of Pregnancy", 1);
   ("Gestation in previous Pregnancy", 0);
   ("BMI", 22.5); ("OGTT", 115); ("HDL", 60);
   ("Family History", 0); ("unexplained prenetal loss", 0);
   ("Large Child or Birth Default", 0); ("PCOS", 0);
   ("Sys BP", 110); ("Dia BP", 70); ("Hemoglobin", 12.5);
   ("Sedentary Lifestyle", 0); ("Prediabetes", 0)].

(** A base model that always answers class [c] for the one row. *)
Definition constant_model (c : Q) : Model :=
  {| predict := fun _ => Some [c];
     predict_proba := fun _ => None |}.

(** A base model whose [predict] raises. *)
Definition failing_model : Model :=
  {| predict := fun _ => None;
     predict_proba := fun _ => None |}.

(** A meta-model with class [c] and probability row [row]. *)
Definition meta_model (c : Q) (row : list Q) : Model :=
  {| predict := fun _ => Some [c];
     predict_proba := fun _ => Some [row] |}.

(** A meta-model without [predict_proba]: class = majority vote of the
    stacked row. *)
Definition voting_model : Model :=
  {| predict := fun X =>
       match X with
       | OfMatrix [row] =>
           Some [b2q (Nat.ltb (length row)
                        (2 * count_true (map (fun v => Qeq_bool v 1) row)))]
       | _ => None
       end;
     predict_proba := fun _ => None |}.

Definition index_of (s : string) (classes_ : list string) : option Z :=
  (fix go (l : list string) (i : Z) : option Z :=
     match l with
     | [] => None
     | c :: rest => if String.eqb s c then Some i else go rest (i + 1)%Z
     end) classes_ 0%Z.

(** A label encoder fitted on the vocabulary [classes_]. *)
Definition encoder_of_classes (classes_ : list string)
  : GdmBackend.LabelEncoder :=
  {| GdmBackend.transform := fun c =>
       match c with
       | Cat (Some s) => index_of s classes_
       | Cat None => index_of "nan" classes_
       | _ => None
       end |}.

Definition sample_preprocessing : GdmBackend.Preprocessing :=
  {| GdmBackend.label_encoders :=
       [("BMI_Category",
          encoder_of_classes ["Normal"; "Obese"; "Overweight"; "Underweight"]);
        ("OGTT_Category",
          encoder_of_classes ["Diabetic"; "Impaired"; "Normal"])];
     GdmBackend.feature_columns :=
       ["Age"; "BMI"; "OGTT"; "BMI_Category"; "OGTT_Category";
        "Comprehensive_Risk_Score"; "HDL"; "Hemoglobin"];
     GdmBackend.scaler := fun _ => None;
     GdmBackend.optimal_threshold := None |}.

(** A bundle whose meta-model predicts class 0 with P(GDM) = 0.5. *)
Definition sample_components : GdmBackend.ModelComponents :=
  {| GdmBackend.models :=
       [("RandomForest", constant_model 1);
        ("XGBoost", failing_model);
        ("Ensemble", meta_model 0 [0.5; 0.5])];
     GdmBackend.preprocessing := sample_preprocessing |}.


(** A bundle whose meta-model has no [predict_proba]. *)
Definition voting_components : GdmBackend.ModelComponents :=
  {| GdmBackend.models :=
       [("RandomForest", constant_model 1);
        ("XGBoost", constant_model 0);
        ("LogReg", constant_model 0);
        ("Ensemble", voting_model)];
     GdmBackend.preprocessing := sample_preprocessing |}.

Definition legacy_components (problem_type : string) (ensemble : Model)
  : FastapiBackendModified.ModelComponents :=
  {| FastapiBackendModified.models :=
       [("RandomForest", constant_model 1);
        ("XGBoost", failing_model);
        ("Ensemble", ensemble)];
     FastapiBackendModified.preprocessing :=
       {| FastapiBackendModified.label_encoders := [];
          FastapiBackendModified.feature_columns :=
            ["Age"; "BMI"; "OGTT"; "Sys BP"; "Dia BP"] |};
     FastapiBackendModified.metadata :=
       {| FastapiBackendModified.problem_type := problem_type |} |}.

(** A model set with a failing base model and no meta-model. *)
Definition models_without_ensemble : dict Model :=
  [("RandomForest", constant_model 1); ("XGBoost", failing_model)].

(** A scaler that centres every column to 0. *)
Definition centring_preprocessing : GdmBackend.Preprocessing :=
  {| GdmBackend.label_encoders :=
       GdmBackend.label_encoders sample_preprocessing;
     GdmBackend.feature_columns :=
       GdmBackend.feature_columns sample_preprocessing;
     GdmBackend.scaler := fun df => Some (repeat 0 (length df));
     GdmBackend.optimal_threshold := Some 0.35 |}.

(** A disk with one bundle under [./latest]. *)
Definition sample_metadata : GdmBackend.Metadata :=
  {| GdmBackend.version := Some "v2";
     GdmBackend.metadata_timestamp := Some "2025-01-01T00:00:00";
     GdmBackend.problem_type := Some "classification";
     GdmBackend.saved_models :=
       [("RandomForest", "rf.pkl"); ("Ensemble", "ensemble.pkl")] |}.

Definition sample_disk : GdmBackend.FileSystem :=
  {| GdmBackend.path_exists := fun path => String.eqb path "./latest";
     GdmBackend.json_load := fun path =>
       if String.eqb path "./latest/model_metadata.json"
       then Some sample_metadata else None;
     GdmBackend.joblib_load_preprocessing := fun path =>
       if String.eqb path "./latest/preprocessing.pkl"
       then Some sample_preprocessing else None;
     GdmBackend.joblib_load_model := fun path =>
       if String.eqb path "./latest/rf.pkl" then Some (constant_model 1)
       else if String.eqb path "./latest/ensemble.pkl"
            then Some (meta_model 1 [0.2; 0.8])
            else None |}.

(** The same bundle with a descriptor that has no 'version' entry. *)
Definition unversioned_disk : GdmBackend.FileSystem :=
  {| GdmBackend.path_exists := GdmBackend.path_exists sample_disk;
     GdmBackend.json_load := fun path =>
       if String.eqb path "./latest/model_metadata.json"
       then Some {| GdmBackend.version := None;
                    GdmBackend.metadata_timestamp := None;
                    GdmBackend.problem_type := Some "classification";
                    GdmBackend.saved_models :=
                      GdmBackend.saved_models sample_metadata |}
       else None;
     GdmBackend.joblib_load_preprocessing :=
       GdmBackend.joblib_load_preprocessing sample_disk;
     GdmBackend.joblib_load_model := GdmBackend.joblib_load_model sample_disk |}.

(** A disk without any bundle. *)
Definition empty_disk : GdmBackend.FileSystem :=
  {| GdmBackend.path_exists := fun _ => false;
     GdmBackend.json_load := fun _ => None;
     GdmBackend.joblib_load_preprocessing := fun _ => None;
     GdmBackend.joblib_load_model := fun _ => None |}.

(** * Properties *)

(** ** Comparisons *)

Lemma Qltb_spec (x y : Q) : reflect (x < y) (Qltb x y).
Proof.
  unfold Qltb. destruct (Qle_bool y x) eqn:E; constructor.
  - apply Qle_bool_iff in E. lra.
  - destruct (Qlt_le_dec x y) as [H|H]; [exact H|].
    apply Qle_bool_iff in H. congruence.
Qed.

Lemma Qgeb_spec (x y : Q) : reflect (y <= x) (Qgeb x y).
Proof.
  unfold Qgeb. destruct (Qle_bool y x) eqn:E; constructor.
  - now apply Qle_bool_iff.
  - intro H. apply Qle_bool_iff in H. congruence.
Qed.

Lemma Qgtb_spec (x y : Q) : reflect (y < x) (Qgtb x y).
Proof.
  unfold Qgtb. destruct (Qle_bool x y) eqn:E; constructor.
  - apply Qle_bool_iff in E. lra.
  - destruct (Qlt_le_dec y x) as [H|H]; [exact H|].
    apply Qle_bool_iff in H. congruence.
Qed.

Lemma Qle_bool_spec (x y : Q) : reflect (x <= y) (Qle_bool x y).
Proof. exact (Qgeb_spec y x). Qed.

Lemma Qeq_bool_spec (x y : Q) : reflect (x == y) (Qeq_bool x y).
Proof.
  destruct (Qeq_bool x y) eqn:E; constructor.
  - now apply Qeq_bool_iff.
  - intro H. apply Qeq_bool_iff in H. congruence.
Qed.

(** Splits on every comparison of the goal and lets [lra] close the
    branches that the hypotheses exclude. *)
Ltac qcases :=
  repeat match goal with
    | |- context [Qltb ?a ?b] => destruct (Qltb_spec a b)
    | |- context [Qgeb ?a ?b] => destruct (Qgeb_spec a b)
    | |- context [Qgtb ?a ?b] => destruct (Qgtb_spec a b)
    | |- context [Qle_bool ?a ?b] => destruct (Qle_bool_spec a b)
    | |- context [Qeq_bool ?a ?b] => destruct (Qeq_bool_spec a b)
    end;
  simpl; try reflexivity; try discriminate; try (exfalso; lra).

(** ** Dicts *)

Section DictFacts.
Context {V : Type}.
Implicit Types (d : dict V) (k : string) (v : V).

Lemma dict_get_set k k' v d :
  dict_get k (dict_set k' v d) =
  if String.eqb k k' then Some v else dict_get k d.
Proof.
  induction d as [|[k0 v0] d IH]; simpl.
  - reflexivity.
  - destruct (String.eqb_spec k' k0) as [->|Hne]; simpl.
    + destruct (String.eqb k k0); reflexivity.
    + destruct (String.eqb_spec k k0) as [->|Hne'].
      * destruct (String.eqb_spec k0 k'); congruence.
      * exact IH.
Qed.

Lemma dict_mem_set k k' v d :
  dict_mem k (dict_set k' v d) = (String.eqb k k' || dict_mem k d)%bool.
Proof.
  unfold dict_mem. rewrite dict_get_set.
  destruct (String.eqb k k'); reflexivity.
Qed.

Lemma dict_get_default_set k k' v dflt d :
  dict_get_default k dflt (dict_set k' v d) =
  if String.eqb k k' then v else dict_get_default k dflt d.
Proof.
  unfold dict_get_default. rewrite dict_get_set.
  destruct (String.eqb k k'); reflexivity.
Qed.

Lemma dict_mem_true k d :
  dict_mem k d = true <-> exists v, dict_get k d = Some v.
Proof.
  unfold dict_mem. destruct (dict_get k d); split; eauto; try discriminate.
  intros [v H]; discriminate.
Qed.

Lemma dict_mem_false k d : dict_mem k d = false <-> dict_get k d = None.
Proof. unfold dict_mem. destruct (dict_get k d); split; congruence. Qed.
End DictFacts.

Lemma dict_get_DataFrame (k : string) (data : dict Q) :
  dict_get k (DataFrame data) = option_map Num (dict_get k data).
Proof.
  induction data as [|[k0 v0] data IH]; simpl; [reflexivity|].
  destruct (String.eqb k k0); [reflexivity | exact IH].
Qed.

Lemma dict_mem_DataFrame (k : string) (data : dict Q) :
  dict_mem k (DataFrame data) = dict_mem k data.
Proof.
  unfold dict_mem. rewrite dict_get_DataFrame.
  destruct (dict_get k data); reflexivity.
Qed.

(** ** The feature engineer *)

Lemma numeric_outside_DataFrame (data : dict Q) :
  numeric_outside (DataFrame data).
Proof.
  intros k c H. rewrite dict_get_DataFrame in H.
  destruct (dict_get k data); simpl in H; [|discriminate].
  right. injection H as <-. eauto.
Qed.

Lemma numeric_outside_set_num (k : string) (q : Q) (df : frame) :
  numeric_outside df -> numeric_outside (dict_set k (Num q) df).
Proof.
  intros Hdf k' c H. rewrite dict_get_set in H.
  destruct (String.eqb k' k); [|eauto].
  right. injection H as <-. eauto.
Qed.

Lemma numeric_outside_set_sym (k : string) (c : cell) (df : frame) :
  In k symbolic_columns ->
  numeric_outside df -> numeric_outside (dict_set k c df).
Proof.
  intros Hk Hdf k' c' H. rewrite dict_get_set in H.
  destruct (String.eqb_spec k' k) as [->|_]; [left; exact Hk | eauto].
Qed.

Lemma column_get (k : string) (q : Q) (df : frame) :
  dict_get k df = Some (Num q) -> GdmBackend.column k df = Ok q.
Proof.
  intro H. unfold GdmBackend.column, dict_getitem. rewrite H. reflexivity.
Qed.

Lemma column_absent (k : string) (df : frame) :
  dict_get k df = None -> GdmBackend.column k df = Raise (KeyError k).
Proof.
  intro H. unfold GdmBackend.column, dict_getitem. rewrite H. reflexivity.
Qed.

Lemma numeric_read (k : string) (df : frame) :
  numeric_outside df -> ~ In k symbolic_columns -> dict_mem k df = true ->
  exists q, dict_get k df = Some (Num q).
Proof.
  intros Hdf Hk Hm. apply dict_mem_true in Hm as [c Hc].
  destruct (Hdf k c Hc) as [Hin|[q ->]]; [contradiction | eauto].
Qed.

Lemma column_or_ok (k : string) (dflt : Q) (df : frame) :
  numeric_outside df -> ~ In k symbolic_columns ->
  exists q, GdmBackend.column_or k dflt df = Ok q.
Proof.
  intros Hdf Hk. unfold GdmBackend.column_or.
  destruct (dict_get k df) as [c|] eqn:E; [|eauto].
  destruct (Hdf k c E) as [Hin|[q ->]]; [contradiction | simpl; eauto].
Qed.

(** [k] is none of the listed literal columns. *)
Ltac not_symbolic :=
  let H := fresh in
  intro H; simpl in H;
  repeat (destruct H as [H|H]; [discriminate H|]); exact H.

(** Columns other than the written ones are left alone. *)
Ltac frame_tac :=
  let k := fresh "k" in
  let Hk := fresh "Hk" in
  intros k Hk; repeat rewrite dict_get_set;
  repeat match goal with
    | |- context [String.eqb k ?w] =>
        destruct (String.eqb_spec k w) as [->|?];
        [exfalso; apply Hk; simpl; tauto|]
    end;
  reflexivity.

(** The invariant after a run of column assignments. *)
Ltac inv_tac :=
  repeat first
    [ assumption
    | apply numeric_outside_set_num
    | apply numeric_outside_set_sym; [simpl; tauto|] ].

(** Reads the literal column [k], present in [df], as a number [q]. *)
Ltac read_column Hdf k df q :=
  let E := fresh "E" in
  let Hm := fresh "Hm" in
  assert (Hm : dict_mem k df = true)
    by (first [assumption
              | match goal with
                | H : (_ && _)%bool = true |- _ =>
                    apply andb_prop in H; tauto
                end]);
  destruct (numeric_read k df Hdf ltac:(not_symbolic) Hm) as [q E];
  rewrite (column_get k q df E).

Lemma block_ok_skip (W : list string) (df : frame) :
  numeric_outside df ->
  exists df', Ok df = Ok df' /\ numeric_outside df' /\
              forall k, ~ In k W -> dict_get k df' = dict_get k df.
Proof. intro Hdf. exists df. auto. Qed.

Lemma bmi_features_ok (df : frame) :
  numeric_outside df ->
  block_ok ["BMI_Category"; "BMI_Risk_Score"] GdmBackend.bmi_features df.
Proof.
  intro Hdf. unfold block_ok, GdmBackend.bmi_features.
  destruct (dict_mem "BMI" df) eqn:Hm; [|now apply block_ok_skip].
  read_column Hdf "BMI" df bmi. simpl.
  eexists; split; [reflexivity|]. split; [inv_tac | frame_tac].
Qed.

Lemma ogtt_features_ok (df : frame) :
  numeric_outside df ->
  block_ok ["OGTT_Category"; "OGTT_Risk_Score"] GdmBackend.ogtt_features df.
Proof.
  intro Hdf. unfold block_ok, GdmBackend.ogtt_features.
  destruct (dict_mem "OGTT" df) eqn:Hm; [|now apply block_ok_skip].
  read_column Hdf "OGTT" df ogtt. simpl.
  eexists; split; [reflexivity|]. split; [inv_tac | frame_tac].
Qed.

Lemma combined_risk_ok (df : frame) :
  numeric_outside df ->
  block_ok ["BMI_OGTT_Risk"] GdmBackend.combined_risk df.
Proof.
  intro Hdf. unfold block_ok, GdmBackend.combined_risk.
  destruct (dict_mem "BMI_Risk_Score" df && dict_mem "OGTT_Risk_Score" df)%bool
    eqn:Hm; [|now apply block_ok_skip].
  read_column Hdf "BMI_Risk_Score" df b.
  read_column Hdf "OGTT_Risk_Score" df o. simpl.
  eexists; split; [reflexivity|]. split; [inv_tac | frame_tac].
Qed.

Lemma age_bmi_interaction_ok (df : frame) :
  numeric_outside df ->
  block_ok ["Age_BMI_Interaction"] GdmBackend.age_bmi_interaction df.
Proof.
  intro Hdf. unfold block_ok, GdmBackend.age_bmi_interaction.
  destruct (dict_mem "Age" df && dict_mem "BMI" df)%bool
    eqn:Hm; [|now apply block_ok_skip].
  read_column Hdf "Age" df age.
  read_column Hdf "BMI" df bmi. simpl.
  eexists; split; [reflexivity|]. split; [inv_tac | frame_tac].
Qed.

Lemma blood_pressure_features_ok (df : frame) :
  numeric_outside df ->
  block_ok ["BP_Ratio"; "Pulse_Pressure"; "Mean_Arterial_Pressure";
            "Hypertensive"]
           GdmBackend.blood_pressure_features df.
Proof.
  intro Hdf. unfold block_ok, GdmBackend.blood_pressure_features.
  destruct (dict_mem "Sys BP" df && dict_mem "Dia BP" df)%bool
    eqn:Hm; [|now apply block_ok_skip].
  read_column Hdf "Sys BP" df sys.
  read_column Hdf "Dia BP" df dia. simpl.
  eexists; split; [reflexivity|]. split; [inv_tac | frame_tac].
Qed.

Lemma log_transform_ok (col : string) (df : frame) :
  In (col ++ "_log") symbolic_columns -> ~ In col symbolic_columns ->
  numeric_outside df ->
  block_ok [col ++ "_log"] (GdmBackend.log_transform col) df.
Proof.
  intros Hlog Hcol Hdf. unfold block_ok, GdmBackend.log_transform.
  destruct (dict_mem col df) eqn:Hm; [|now apply block_ok_skip].
  destruct (numeric_read col df Hdf Hcol Hm) as [x E].
  rewrite (column_get col x df E). simpl.
  eexists; split; [reflexivity|]. split.
  - now apply numeric_outside_set_sym.
  - frame_tac.
Qed.

Lemma optional_term_ok (k : string) (f : Q -> Q) (rs : Q) (df : frame) :
  numeric_outside df -> ~ In k symbolic_columns ->
  exists q,
    (if dict_mem k df then s <- GdmBackend.column k df ;; Ok (f s)
     else Ok rs) = Ok q.
Proof.
  intros Hdf Hk. destruct (dict_mem k df) eqn:Hm; [|eauto].
  destruct (numeric_read k df Hdf Hk Hm) as [q E].
  rewrite (column_get k q df E). simpl. eauto.
Qed.

(** [risk_score] raises exactly on a frame without [Age] or without
    [No of Pregnancy]. *)
Lemma risk_score_cases (df : frame) :
  numeric_outside df ->
  match dict_get "Age" df, dict_get "No of Pregnancy" df with
  | None, _ => GdmBackend.risk_score df = Raise (KeyError "Age")
  | Some _, None =>
      GdmBackend.risk_score df = Raise (KeyError "No of Pregnancy")
  | Some _, Some _ => exists q, GdmBackend.risk_score df = Ok q
  end.
Proof.
  intro Hdf. unfold GdmBackend.risk_score.
  destruct (optional_term_ok "OGTT_Risk_Score" (fun s => 0 + s * 2) 0 df Hdf
              ltac:(not_symbolic)) as [rs1 ->].
  cbn [bind].
  destruct (optional_term_ok "BMI_Risk_Score" (fun s => rs1 + s * 1.5) rs1 df
              Hdf ltac:(not_symbolic)) as [rs2 ->].
  cbn [bind].
  destruct (dict_get "Age" df) as [a|] eqn:Ea.
  2:{ rewrite (column_absent _ _ Ea). reflexivity. }
  destruct (Hdf _ _ Ea) as [Hin|[age ->]]; [exfalso; revert Hin; not_symbolic|].
  rewrite (column_get _ _ _ Ea). cbn [bind].
  destruct (column_or_ok "Family History" 0 df Hdf ltac:(not_symbolic))
    as [fh ->].
  cbn [bind].
  destruct (column_or_ok "PCOS" 0 df Hdf ltac:(not_symbolic)) as [pcos ->].
  cbn [bind].
  destruct (dict_get "No of Pregnancy" df) as [n|] eqn:En.
  2:{ rewrite (column_absent _ _ En). reflexivity. }
  destruct (Hdf _ _ En) as [Hin|[np ->]]; [exfalso; revert Hin; not_symbolic|].
  rewrite (column_get _ _ _ En). cbn [bind].
  apply optional_term_ok; [exact Hdf | not_symbolic].
Qed.

Lemma comprehensive_risk_score_ok (df : frame) :
  numeric_outside df ->
  dict_mem "Age" df = true -> dict_mem "No of Pregnancy" df = true ->
  block_ok ["Comprehensive_Risk_Score"]
           GdmBackend.comprehensive_risk_score df.
Proof.
  intros Hdf Ha Hn. unfold block_ok, GdmBackend.comprehensive_risk_score.
  pose proof (risk_score_cases df Hdf) as H.
  apply dict_mem_true in Ha as [a Ha]. apply dict_mem_true in Hn as [n Hn].
  rewrite Ha, Hn in H. destruct H as [q ->]. simpl.
  eexists; split; [reflexivity|]. split; [inv_tac | frame_tac].
Qed.

Lemma high_risk_bmi_ok (df : frame) :
  numeric_outside df -> block_ok ["High_Risk_BMI"] GdmBackend.high_risk_bmi df.
Proof.
  intro Hdf. unfold block_ok, GdmBackend.high_risk_bmi.
  destruct (dict_mem "BMI" df) eqn:Hm; [|now apply block_ok_skip].
  read_column Hdf "BMI" df bmi. simpl.
  eexists; split; [reflexivity|]. split; [inv_tac | frame_tac].
Qed.

Lemma high_risk_ogtt_ok (df : frame) :
  numeric_outside df ->
  block_ok ["High_Risk_OGTT"] GdmBackend.high_risk_ogtt df.
Proof.
  intro Hdf. unfold block_ok, GdmBackend.high_risk_ogtt.
  destruct (dict_mem "OGTT" df) eqn:Hm; [|now apply block_ok_skip].
  read_column Hdf "OGTT" df ogtt. simpl.
  eexists; split; [reflexivity|]. split; [inv_tac | frame_tac].
Qed.

Lemma advanced_age_indicator_ok (df : frame) :
  numeric_outside df -> dict_mem "Age" df = true ->
  block_ok ["Advanced_Age"] GdmBackend.advanced_age_indicator df.
Proof.
  intros Hdf Ha. unfold block_ok, GdmBackend.advanced_age_indicator.
  read_column Hdf "Age" df age. simpl.
  eexists; split; [reflexivity|]. split; [inv_tac | frame_tac].
Qed.

Lemma frame_mem (W : list string) (df df' : frame) (k : string) :
  (forall k, ~ In k W -> dict_get k df' = dict_get k df) ->
  ~ In k W -> dict_mem k df' = dict_mem k df.
Proof. intros F Hk. unfold dict_mem. now rewrite F. Qed.

(** Runs the next block with its [block_ok] lemma. *)
Ltac run_block L df' E Hdf' F :=
  destruct L as (df' & E & Hdf' & F); rewrite E; cbn [bind].

Ltac side_in Hk := let H := fresh in intro H; apply Hk; simpl in *; tauto.

(** The first five blocks never fail on a numeric record. *)
Lemma first_blocks_ok (df : frame) :
  numeric_outside df ->
  exists df1 df2 df5,
    GdmBackend.bmi_features df = Ok df1 /\
    GdmBackend.ogtt_features df1 = Ok df2 /\
    (df3 <- GdmBackend.combined_risk df2 ;;
     df4 <- GdmBackend.age_bmi_interaction df3 ;;
     GdmBackend.blood_pressure_features df4) = Ok df5 /\
    numeric_outside df5 /\
    (forall k, ~ In k ["BMI_Category"; "BMI_Risk_Score"] ->
               dict_get k df1 = dict_get k df) /\
    (forall k, ~ In k ["OGTT_Category"; "OGTT_Risk_Score"] ->
               dict_get k df2 = dict_get k df1) /\
    (forall k, ~ In k later_columns -> dict_get k df5 = dict_get k df2).
Proof.
  intro Hdf.
  destruct (bmi_features_ok df Hdf) as (df1 & E1 & Hdf1 & F1).
  destruct (ogtt_features_ok df1 Hdf1) as (df2 & E2 & Hdf2 & F2).
  exists df1, df2.
  run_block (combined_risk_ok df2 Hdf2) df3 E3 Hdf3 F3.
  run_block (age_bmi_interaction_ok df3 Hdf3) df4 E4 Hdf4 F4.
  run_block (blood_pressure_features_ok df4 Hdf4) df5 E5 Hdf5 F5.
  exists df5. repeat split; try assumption.
  intros k Hk. rewrite F5, F4, F3; [reflexivity | | |]; side_in Hk.
Qed.

(** On a numeric frame that has [Age] and [No of Pregnancy] the feature
    engineer returns, and what the BMI and OGTT blocks wrote is still
    there at the end. *)
Lemma advanced_feature_engineering_ok (df : frame) :
  numeric_outside df ->
  dict_mem "Age" df = true -> dict_mem "No of Pregnancy" df = true ->
  exists df1 df2 df',
    GdmBackend.bmi_features df = Ok df1 /\
    GdmBackend.ogtt_features df1 = Ok df2 /\
    GdmBackend.advanced_feature_engineering df = Ok df' /\
    (forall k, ~ In k ["BMI_Category"; "BMI_Risk_Score"] ->
               dict_get k df1 = dict_get k df) /\
    (forall k, ~ In k ["OGTT_Category"; "OGTT_Risk_Score"] ->
               dict_get k df2 = dict_get k df1) /\
    (forall k, ~ In k later_columns -> dict_get k df' = dict_get k df2).
Proof.
  intros Hdf Ha Hn.
  destruct (first_blocks_ok df Hdf)
    as (df1 & df2 & df5 & E1 & E2 & E5 & Hdf5 & F1 & F2 & F5).
  exists df1, df2.
  assert (Ha5 : dict_mem "Age" df5 = true).
  { rewrite (frame_mem _ _ _ _ F5), (frame_mem _ _ _ _ F2),
      (frame_mem _ _ _ _ F1); [exact Ha | | |]; not_symbolic. }
  assert (Hn5 : dict_mem "No of Pregnancy" df5 = true).
  { rewrite (frame_mem _ _ _ _ F5), (frame_mem _ _ _ _ F2),
      (frame_mem _ _ _ _ F1); [exact Hn | | |]; not_symbolic. }
  unfold GdmBackend.advanced_feature_engineering.
  rewrite E1; cbn [bind]. rewrite E2; cbn [bind].
  destruct (GdmBackend.combined_risk df2) as [df3|] eqn:E3;
    cbn [bind] in E5 |- *; [|discriminate].
  destruct (GdmBackend.age_bmi_interaction df3) as [df4|] eqn:E4;
    cbn [bind] in E5 |- *; [|discriminate].
  rewrite E5; cbn [bind].
  run_block (comprehensive_risk_score_ok df5 Hdf5 Ha5 Hn5) df6 E6 Hdf6 F6.
  run_block (high_risk_bmi_ok df6 Hdf6) df7 E7 Hdf7 F7.
  run_block (high_risk_ogtt_ok df7 Hdf7) df8 E8 Hdf8 F8.
  assert (Ha8 : dict_mem "Age" df8 = true).
  { rewrite (frame_mem _ _ _ _ F8), (frame_mem _ _ _ _ F7),
      (frame_mem _ _ _ _ F6); [exact Ha5 | | |]; not_symbolic. }
  run_block (advanced_age_indicator_ok df8 Hdf8 Ha8) df9 E9 Hdf9 F9.
  run_block (log_transform_ok "BMI" df9 ltac:(simpl; tauto)
               ltac:(not_symbolic) Hdf9) df10 E10 Hdf10 F10.
  destruct (log_transform_ok "OGTT" df10 ltac:(simpl; tauto)
              ltac:(not_symbolic) Hdf10) as (df' & E' & Hdf' & F').
  exists df'. repeat split; try assumption.
  intros k Hk.
  rewrite F', F10, F9, F8, F7, F6, F5; [reflexivity | ..]; side_in Hk.
Qed.

(** Without [Age] the accumulation of the risk score raises. *)
Lemma advanced_feature_engineering_no_age (df : frame) :
  numeric_outside df -> dict_get "Age" df = None ->
  GdmBackend.advanced_feature_engineering df = Raise (KeyError "Age").
Proof.
  intros Hdf Ha.
  destruct (first_blocks_ok df Hdf)
    as (df1 & df2 & df5 & E1 & E2 & E5 & Hdf5 & F1 & F2 & F5).
  assert (Ha5 : dict_get "Age" df5 = None).
  { rewrite F5, F2, F1; [exact Ha | | |]; not_symbolic. }
  unfold GdmBackend.advanced_feature_engineering.
  rewrite E1; cbn [bind]. rewrite E2; cbn [bind].
  destruct (GdmBackend.combined_risk df2) as [df3|] eqn:E3;
    cbn [bind] in E5 |- *; [|discriminate].
  destruct (GdmBackend.age_bmi_interaction df3) as [df4|] eqn:E4;
    cbn [bind] in E5 |- *; [|discriminate].
  rewrite E5; cbn [bind].
  unfold GdmBackend.comprehensive_risk_score.
  pose proof (risk_score_cases df5 Hdf5) as H. rewrite Ha5 in H.
  rewrite H. reflexivity.
Qed.

(** With [Age] but without [No of Pregnancy] it raises as well. *)
Lemma advanced_feature_engineering_no_pregnancies (df : frame) :
  numeric_outside df -> dict_mem "Age" df = true ->
  dict_get "No of Pregnancy" df = None ->
  GdmBackend.advanced_feature_engineering df =
  Raise (KeyError "No of Pregnancy").
Proof.
  intros Hdf Ha Hn.
  destruct (first_blocks_ok df Hdf)
    as (df1 & df2 & df5 & E1 & E2 & E5 & Hdf5 & F1 & F2 & F5).
  assert (Hn5 : dict_get "No of Pregnancy" df5 = None).
  { rewrite F5, F2, F1; [exact Hn | | |]; not_symbolic. }
  assert (Ha5 : dict_mem "Age" df5 = true).
  { rewrite (frame_mem _ _ _ _ F5), (frame_mem _ _ _ _ F2),
      (frame_mem _ _ _ _ F1); [exact Ha | | |]; not_symbolic. }
  unfold GdmBackend.advanced_feature_engineering.
  rewrite E1; cbn [bind]. rewrite E2; cbn [bind].
  destruct (GdmBackend.combined_risk df2) as [df3|] eqn:E3;
    cbn [bind] in E5 |- *; [|discriminate].
  destruct (GdmBackend.age_bmi_interaction df3) as [df4|] eqn:E4;
    cbn [bind] in E5 |- *; [|discriminate].
  rewrite E5; cbn [bind].
  unfold GdmBackend.comprehensive_risk_score.
  pose proof (risk_score_cases df5 Hdf5) as H.
  apply dict_mem_true in Ha5 as [a Ha5]. rewrite Ha5, Hn5 in H.
  rewrite H. reflexivity.
Qed.

(** ** Bins and scores *)

(** [pd.cut] closes every BMI bin on the right. *)
Lemma BMI_Category_bins (x : Q) :
  (x <= 0 -> GdmBackend.BMI_Category x = Cat None) /\
  (0 < x <= 18.5 -> GdmBackend.BMI_Category x = Cat (Some "Underweight")) /\
  (18.5 < x <= 25 -> GdmBackend.BMI_Category x = Cat (Some "Normal")) /\
  (25 < x <= 30 -> GdmBackend.BMI_Category x = Cat (Some "Overweight")) /\
  (30 < x <= 50 -> GdmBackend.BMI_Category x = Cat (Some "Obese")) /\
  (50 < x -> GdmBackend.BMI_Category x = Cat None).
Proof.
  unfold GdmBackend.BMI_Category, pd_cut, GdmBackend.bmi_bins.
  cbn [searchsorted_left].
  repeat split; intros; qcases.
Qed.

(** The score cuts strictly below each edge. *)
Lemma BMI_Risk_Score_cutoffs (x : Q) :
  (x < 18.5 -> GdmBackend.BMI_Risk_Score x = 1) /\
  (18.5 <= x < 25 -> GdmBackend.BMI_Risk_Score x = 0) /\
  (25 <= x < 30 -> GdmBackend.BMI_Risk_Score x = 2) /\
  (30 <= x -> GdmBackend.BMI_Risk_Score x = 4).
Proof.
  unfold GdmBackend.BMI_Risk_Score, np_where.
  repeat split; intros; qcases.
Qed.

Lemma OGTT_Category_bins (x : Q) :
  (x <= 0 -> GdmBackend.OGTT_Category x = Cat None) /\
  (0 < x <= 140 -> GdmBackend.OGTT_Category x = Cat (Some "Normal")) /\
  (140 < x <= 200 -> GdmBackend.OGTT_Category x = Cat (Some "Impaired")) /\
  (200 < x <= 1000 -> GdmBackend.OGTT_Category x = Cat (Some "Diabetic")) /\
  (1000 < x -> GdmBackend.OGTT_Category x = Cat None).
Proof.
  unfold GdmBackend.OGTT_Category, pd_cut, GdmBackend.ogtt_bins.
  cbn [searchsorted_left].
  repeat split; intros; qcases.
Qed.

Lemma OGTT_Risk_Score_cutoffs (x : Q) :
  (x < 140 -> GdmBackend.OGTT_Risk_Score x = 0) /\
  (140 <= x < 200 -> GdmBackend.OGTT_Risk_Score x = 3) /\
  (200 <= x -> GdmBackend.OGTT_Risk_Score x = 5).
Proof.
  unfold GdmBackend.OGTT_Risk_Score, np_where.
  repeat split; intros; qcases.
Qed.

Lemma bmi_features_values (df df1 : frame) (b : Q) :
  dict_get "BMI" df = Some (Num b) ->
  GdmBackend.bmi_features df = Ok df1 ->
  dict_get "BMI_Category" df1 = Some (GdmBackend.BMI_Category b) /\
  dict_get "BMI_Risk_Score" df1 = Some (Num (GdmBackend.BMI_Risk_Score b)).
Proof.
  intros Hb. unfold GdmBackend.bmi_features, dict_mem.
  rewrite Hb, (column_get _ _ _ Hb). cbn [bind].
  intros [= <-]. rewrite !dict_get_set. simpl. auto.
Qed.

Lemma ogtt_features_values (df df2 : frame) (g : Q) :
  dict_get "OGTT" df = Some (Num g) ->
  GdmBackend.ogtt_features df = Ok df2 ->
  dict_get "OGTT_Category" df2 = Some (GdmBackend.OGTT_Category g) /\
  dict_get "OGTT_Risk_Score" df2 = Some (Num (GdmBackend.OGTT_Risk_Score g)).
Proof.
  intros Hg. unfold GdmBackend.ogtt_features, dict_mem.
  rewrite Hg, (column_get _ _ _ Hg). cbn [bind].
  intros [= <-]. rewrite !dict_get_set. simpl. auto.
Qed.

(** What the engineered frame holds for a record that has [Age] and
    [No of Pregnancy]: the BMI and OGTT bins and scores of its values. *)
Lemma engineered_bins_and_scores (r : dict Q) :
  dict_mem "Age" r = true -> dict_mem "No of Pregnancy" r = true ->
  exists df',
    GdmBackend.advanced_feature_engineering (DataFrame r) = Ok df' /\
    (forall b, dict_get "BMI" r = Some b ->
       dict_get "BMI_Category" df' = Some (GdmBackend.BMI_Category b) /\
       dict_get "BMI_Risk_Score" df'
       = Some (Num (GdmBackend.BMI_Risk_Score b))) /\
    (forall g, dict_get "OGTT" r = Some g ->
       dict_get "OGTT_Category" df' = Some (GdmBackend.OGTT_Category g) /\
       dict_get "OGTT_Risk_Score" df'
       = Some (Num (GdmBackend.OGTT_Risk_Score g))).
Proof.
  intros Ha Hn.
  destruct (advanced_feature_engineering_ok (DataFrame r)
              (numeric_outside_DataFrame r))
    as (df1 & df2 & df' & E1 & E2 & E & F1 & F2 & F).
  1,2: now rewrite dict_mem_DataFrame.
  exists df'. split; [exact E|]. split.
  - intros b Hb.
    assert (Hb' : dict_get "BMI" (DataFrame r) = Some (Num b))
      by (rewrite dict_get_DataFrame, Hb; reflexivity).
    destruct (bmi_features_values _ _ _ Hb' E1) as [Hc Hs].
    rewrite !F, !F2 by not_symbolic. auto.
  - intros g Hg.
    assert (Hg' : dict_get "OGTT" df1 = Some (Num g)).
    { rewrite F1 by not_symbolic.
      rewrite dict_get_DataFrame, Hg. reflexivity. }
    destruct (ogtt_features_values _ _ _ Hg' E2) as [Hc Hs].
    rewrite !F by not_symbolic. auto.
Qed.

(** C1 (the code departs from the claim).  A record with BMI exactly 25 is
    binned as "Normal", not "Overweight": [pd.cut] closes the bin
    (18.5, 25] on the right.  The risk score of the same record is 2, the
    overweight score, since the score cuts with [BMI < 25]. *)
Theorem bmi_25_is_binned_normal (r : dict Q) (b : Q) :
  dict_get "BMI" r = Some b -> b == 25 ->
  dict_mem "Age" r = true -> dict_mem "No of Pregnancy" r = true ->
  exists df',
    GdmBackend.advanced_feature_engineering (DataFrame r) = Ok df' /\
    dict_get "BMI_Category" df' = Some (Cat (Some "Normal")) /\
    dict_get "BMI_Risk_Score" df' = Some (Num 2).
Proof.
  intros Hb Hq Ha Hn.
  destruct (engineered_bins_and_scores r Ha Hn) as (df' & E & HB & _).
  exists df'. split; [exact E|].
  destruct (HB b Hb) as [Hc Hs]. rewrite Hc, Hs.
  destruct (BMI_Category_bins b) as (_ & _ & Hcut & _). rewrite Hcut by lra. clear Hcut.
  destruct (BMI_Risk_Score_cutoffs b) as (_ & _ & Hcut & _). rewrite Hcut by lra. clear Hcut.
  auto.
Qed.

Lemma bmi_25_is_binned_normal_witness :
  exists df',
    GdmBackend.advanced_feature_engineering (DataFrame record_bmi_25)
    = Ok df' /\
    dict_get "BMI_Category" df' = Some (Cat (Some "Normal")) /\
    dict_get "BMI_Risk_Score" df' = Some (Num 2).
Proof.
  apply (bmi_25_is_binned_normal record_bmi_25 25.0); reflexivity.
Defined.

(** C10.  At the shared thresholds the bin and the score disagree: BMI
    exactly 18.5 is binned "Underweight" with score 0 (the normal score),
    and OGTT exactly 140 is binned "Normal" with score 3 (the impaired
    score); the bins are closed on the right, the scores cut strictly
    below. *)
Theorem category_and_score_disagree_at_thresholds (r : dict Q) :
  dict_mem "Age" r = true -> dict_mem "No of Pregnancy" r = true ->
  exists df',
    GdmBackend.advanced_feature_engineering (DataFrame r) = Ok df' /\
    (forall b, dict_get "BMI" r = Some b -> b == 18.5 ->
       dict_get "BMI_Category" df' = Some (Cat (Some "Underweight")) /\
       dict_get "BMI_Risk_Score" df' = Some (Num 0)) /\
    (forall g, dict_get "OGTT" r = Some g -> g == 140 ->
       dict_get "OGTT_Category" df' = Some (Cat (Some "Normal")) /\
       dict_get "OGTT_Risk_Score" df' = Some (Num 3)).
Proof.
  intros Ha Hn.
  destruct (engineered_bins_and_scores r Ha Hn) as (df' & E & HB & HG).
  exists df'. split; [exact E|]. split.
  - intros b Hb Hq. destruct (HB b Hb) as [-> ->].
    destruct (BMI_Category_bins b) as (_ & Hcut & _). rewrite Hcut by lra. clear Hcut.
    destruct (BMI_Risk_Score_cutoffs b) as (_ & Hcut & _). rewrite Hcut by lra. clear Hcut.
    auto.
  - intros g Hg Hq. destruct (HG g Hg) as [-> ->].
    destruct (OGTT_Category_bins g) as (_ & Hcut & _). rewrite Hcut by lra. clear Hcut.
    destruct (OGTT_Risk_Score_cutoffs g) as (_ & Hcut & _). rewrite Hcut by lra. clear Hcut.
    auto.
Qed.

Lemma category_and_score_disagree_at_thresholds_witness :
  exists df',
    GdmBackend.advanced_feature_engineering (DataFrame record_at_thresholds)
    = Ok df' /\
    dict_get "BMI_Category" df' = Some (Cat (Some "Underweight")) /\
    dict_get "BMI_Risk_Score" df' = Some (Num 0) /\
    dict_get "OGTT_Category" df' = Some (Cat (Some "Normal")) /\
    dict_get "OGTT_Risk_Score" df' = Some (Num 3).
Proof.
  destruct (category_and_score_disagree_at_thresholds record_at_thresholds
              eq_refl eq_refl) as (df' & E & HB & HG).
  exists df'. split; [exact E|].
  destruct (HB 18.5 eq_refl ltac:(reflexivity)) as [Hc Hs].
  destruct (HG 140 eq_refl ltac:(reflexivity)) as [Hc' Hs'].
  auto.
Defined.

(** C2 (the code departs from the claim).  On a record without [Age] the
    feature engineer raises [KeyError] at the unguarded [df_enhanced['Age']],
    and the caller goes on with the record as it came in: none of the
    derived columns is produced, also those whose sources are present. *)
Theorem feature_engineering_raises_without_age (r : dict Q) :
  dict_get "Age" r = None ->
  GdmBackend.advanced_feature_engineering (DataFrame r)
  = Raise (KeyError "Age") /\
  GdmBackend.enhanced_data (DataFrame r) = DataFrame r.
Proof.
  intro Ha.
  assert (E : GdmBackend.advanced_feature_engineering (DataFrame r)
              = Raise (KeyError "Age")).
  { apply advanced_feature_engineering_no_age.
    - apply numeric_outside_DataFrame.
    - rewrite dict_get_DataFrame, Ha. reflexivity. }
  split; [exact E|]. unfold GdmBackend.enhanced_data. now rewrite E.
Qed.

Lemma feature_engineering_raises_without_age_witness :
  GdmBackend.advanced_feature_engineering (DataFrame record_without_age)
  = Raise (KeyError "Age") /\
  GdmBackend.enhanced_data (DataFrame record_without_age)
  = DataFrame record_without_age.
Proof.
  apply (feature_engineering_raises_without_age record_without_age).
  reflexivity.
Defined.

(** ** Alignment to the training schema *)

Lemma prefix_app (sub s : string) :
  String.prefix sub s = true <-> exists rest, s = sub ++ rest.
Proof.
  revert s. induction sub as [|a sub IH]; intro s.
  - split; [intros _; exists s; reflexivity | intros _; now destruct s].
  - destruct s as [|b s]; simpl.
    + split; [discriminate | intros [rest H]; discriminate].
    + destruct (Ascii.ascii_dec a b) as [->|Hne].
      * rewrite IH. split; intros [rest H]; exists rest.
        -- now rewrite H.
        -- now injection H.
      * split; [discriminate | intros [rest H]; injection H; congruence].
Qed.

(** [str_contains] is the substring test of Python's [in]. *)
Lemma str_contains_spec (sub s : string) :
  str_contains sub s = true <-> exists pre post, s = pre ++ sub ++ post.
Proof.
  induction s as [|a s IH].
  - cbn [str_contains]. destruct (String.prefix sub "") eqn:E.
    + split; [intros _|reflexivity].
      apply prefix_app in E as [rest E]. exists "", rest. exact E.
    + split; [discriminate|]. intros (pre & post & H).
      destruct pre; [|discriminate].
      assert (String.prefix sub "" = true)
        by (apply prefix_app; exists post; exact H).
      congruence.
  - cbn [str_contains]. destruct (String.prefix sub (String a s)) eqn:E.
    + split; [intros _|reflexivity].
      apply prefix_app in E as [rest E]. exists "", rest. exact E.
    + rewrite IH. split.
      * intros (pre & post & ->). exists (String a pre), post. reflexivity.
      * intros (pre & post & H). destruct pre as [|b pre].
        -- assert (String.prefix sub (String a s) = true)
             by (apply prefix_app; exists post; exact H).
           congruence.
        -- injection H as _ ->. eauto.
Qed.

(** The code's table lookup and the policy of the specification agree. *)
Lemma default_value_spec (col : string) :
  GdmBackend.default_value col = spec_default col.
Proof.
  unfold GdmBackend.default_value, spec_default.
  destruct (str_contains "Risk" col || str_contains "Score" col)%bool;
    [reflexivity|].
  unfold dict_get_default, GdmBackend.defaults. cbn [existsb dict_get].
  destruct (String.eqb col "Age"); [reflexivity|].
  destruct (String.eqb col "BMI"); [reflexivity|].
  destruct (String.eqb col "OGTT"); [reflexivity|].
  destruct (String.eqb col "Hemoglobin"); [reflexivity|].
  destruct (String.eqb col "HDL"); reflexivity.
Qed.

Lemma dict_get_fill_missing (fc : list string) (df : frame) (k : string) :
  dict_get k (GdmBackend.fill_missing fc df) =
  match dict_get k df with
  | Some c => Some c
  | None => if existsb (String.eqb k) fc
            then Some (Num (GdmBackend.default_value k))
            else None
  end.
Proof.
  unfold GdmBackend.fill_missing. revert df.
  induction fc as [|c fc IH]; intro df; cbn [fold_left existsb].
  - destruct (dict_get k df); reflexivity.
  - rewrite IH. destruct (dict_mem c df) eqn:Hm.
    + destruct (dict_get k df) eqn:E; [reflexivity|].
      destruct (String.eqb_spec k c) as [->|_]; [|reflexivity].
      apply dict_mem_true in Hm as [v Hv]. congruence.
    + rewrite dict_get_set. apply dict_mem_false in Hm.
      destruct (String.eqb_spec k c) as [->|_].
      * rewrite Hm. reflexivity.
      * destruct (dict_get k df); reflexivity.
Qed.

Lemma select_columns_present (f : string -> cell) (cols : list string)
      (df : frame) :
  (forall c, In c cols -> dict_get c df = Some (f c)) ->
  GdmBackend.select_columns cols df = Ok (map (fun c => (c, f c)) cols).
Proof.
  induction cols as [|c cols IH]; intro H; cbn [GdmBackend.select_columns map].
  - reflexivity.
  - unfold dict_getitem. rewrite (H c (or_introl eq_refl)). cbn [bind].
    rewrite IH by (intros c' Hc'; apply H; now right). reflexivity.
Qed.

(** C7.  Alignment returns exactly the columns of [feature_columns], in
    their declared order; a column the record has keeps its cell, an
    absent one takes the default of the policy: 0 when its name contains
    "Risk" or "Score", else 28 / 23 / 120 / 12 / 50 for Age / BMI / OGTT /
    Hemoglobin / HDL, else 0.  The preprocessor applies it to the enhanced,
    encoded record before scaling. *)
Theorem select_features_fills_defaults
        (pp : GdmBackend.Preprocessing) (data : dict Q) (fc : list string)
        (df : frame) :
  GdmBackend.select_features fc df
  = map (fun col => (col, cell_or_default df col)) fc /\
  keys (GdmBackend.select_features fc df) = fc /\
  GdmBackend.preprocess pp data
  = GdmBackend.apply_scaling (GdmBackend.scaler pp)
      (map (fun col =>
              (col, cell_or_default
                      (GdmBackend.apply_label_encoders
                         (GdmBackend.label_encoders pp)
                         (GdmBackend.enhanced_data (DataFrame data)))
                      col))
           (GdmBackend.feature_columns pp)).
Proof.
  assert (E : forall fc df,
             GdmBackend.select_features fc df
             = map (fun col => (col, cell_or_default df col)) fc).
  { clear. intros fc df. unfold GdmBackend.select_features. cbv zeta.
    rewrite (select_columns_present (cell_or_default df)); [reflexivity|].
    intros c Hc. rewrite dict_get_fill_missing. unfold cell_or_default.
    destruct (dict_get c df); [reflexivity|].
    assert (existsb (String.eqb c) fc = true) as ->.
    { apply existsb_exists. exists c. split; [exact Hc|].
      apply String.eqb_refl. }
    now rewrite default_value_spec. }
  split; [apply E|]. split.
  - rewrite E. unfold keys. rewrite map_map. simpl. apply map_id.
  - unfold GdmBackend.preprocess. now rewrite E.
Qed.

(** ** The risk interpreter of the extended variant *)

Lemma list_getitem_nth {A} (l : list A) (i : nat) (a : A) :
  nth_error l i = Some a -> list_getitem l (Z.of_nat i) = Ok a.
Proof.
  intro H. unfold list_getitem.
  assert (Hi : (i < length l)%nat)
    by (apply nth_error_Some; congruence).
  destruct (Z.ltb_spec (Z.of_nat i) 0); [lia|].
  destruct (Z.leb_spec 0 (Z.of_nat i)); [|lia].
  destruct (Z.ltb_spec (Z.of_nat i) (Z.of_nat (length l))); [|lia].
  cbn [andb]. now rewrite Nat2Z.id, H.
Qed.

Lemma probabilities_of_cases (prediction : Q) (proba : list Q) (g n : Q) :
  GdmBackend.probabilities_of prediction proba = Ok (g, n) ->
  (exists p0 p1 rest, proba = p0 :: p1 :: rest /\ g = p1 /\ n = p0) \/
  (exists p0, proba = [p0] /\ n = 1 - g).
Proof.
  unfold GdmBackend.probabilities_of.
  change 0%Z with (Z.of_nat 0). change 1%Z with (Z.of_nat 1).
  destruct proba as [|p0 [|p1 rest]]; cbn [length Nat.leb].
  - discriminate.
  - rewrite (list_getitem_nth [p0] 0 p0 eq_refl). cbn [bind].
    intros H. injection H as Hg Hn. subst g n. right. eauto.
  - rewrite (list_getitem_nth (p0 :: p1 :: rest) 0 p0 eq_refl),
      (list_getitem_nth (p0 :: p1 :: rest) 1 p1 eq_refl). cbn [bind].
    intros H. injection H as Hg Hn. subst g n.
    left. exists p0, p1, rest. auto.
Qed.

(** What a returned outcome is made of. *)
Lemma predict_gdm_inv (mc : GdmBackend.ModelComponents)
      (patient_data : dict Q) (out : GdmBackend.Outcome) :
  GdmBackend.predict_gdm (Some mc) patient_data = Ok out ->
  exists predictions probabilities g n,
    GdmBackend.predict_with_ensemble patient_data mc
    = Ok (predictions, probabilities) /\
    GdmBackend.probabilities_of (GdmBackend.first_prediction predictions)
                                (GdmBackend.first_row probabilities)
    = Ok (g, n) /\
    GdmBackend.prediction out
    = (if Qgeb g (GdmBackend.threshold_of (GdmBackend.preprocessing mc))
       then "GDM" else "Non GDM") /\
    GdmBackend.gdm_probability out = g /\
    GdmBackend.non_gdm_probability out = n /\
    GdmBackend.risk_category out
    = GdmBackend.risk_category_of g
        (count_true (GdmBackend.high_risk_markers patient_data)) /\
    GdmBackend.confidence out = py_max g n /\
    GdmBackend.risk_factors out = GdmBackend.risk_factors_of patient_data.
Proof.
  unfold GdmBackend.predict_gdm, GdmBackend.predict_gdm_body.
  destruct (GdmBackend.predict_with_ensemble patient_data mc)
    as [[predictions probabilities]|]; cbn [bind]; [|discriminate].
  destruct (list_getitem GdmBackend.classes _); cbn [bind]; [|discriminate].
  destruct (GdmBackend.probabilities_of _ _) as [[g n]|] eqn:E;
    cbn [bind]; [|discriminate].
  intros [= <-]. exists predictions, probabilities, g, n. cbn.
  repeat split; auto.
Qed.

(** The code's markers, with their [get] defaults, count what the
    specification counts. *)
Lemma high_risk_markers_spec (patient_data : dict Q) :
  count_true (GdmBackend.high_risk_markers patient_data)
  = spec_marker_count patient_data.
Proof.
  unfold GdmBackend.high_risk_markers, spec_marker_count, field_holds,
    dict_get_default, Qgeb.
  destruct (dict_get "BMI" patient_data), (dict_get "OGTT" patient_data),
    (dict_get "Age" patient_data), (dict_get "Family History" patient_data),
    (dict_get "PCOS" patient_data); reflexivity.
Qed.

(** C3.  The returned label is decided by the threshold alone, with [>=]:
    a probability equal to the threshold (that of the preprocessing state,
    0.5 when it has none) is labelled "GDM", one below it "Non GDM",
    whatever class the meta-model predicted. *)
Theorem label_follows_threshold
        (mc : GdmBackend.ModelComponents) (patient_data : dict Q)
        (out : GdmBackend.Outcome) (t : Q) :
  GdmBackend.predict_gdm (Some mc) patient_data = Ok out ->
  GdmBackend.optimal_threshold (GdmBackend.preprocessing mc) = Some t \/
  (GdmBackend.optimal_threshold (GdmBackend.preprocessing mc) = None /\
   t = 0.5) ->
  (t <= GdmBackend.gdm_probability out ->
   GdmBackend.prediction out = "GDM") /\
  (GdmBackend.gdm_probability out == t ->
   GdmBackend.prediction out = "GDM") /\
  (GdmBackend.gdm_probability out < t ->
   GdmBackend.prediction out = "Non GDM").
Proof.
  intros H Ht.
  destruct (predict_gdm_inv _ _ _ H)
    as (ps & pr & g & n & _ & _ & Hl & Hg & _).
  rewrite Hl, Hg. clear Hl Hg H.
  assert (GdmBackend.threshold_of (GdmBackend.preprocessing mc) = t) as ->.
  { unfold GdmBackend.threshold_of.
    destruct Ht as [->|[-> ->]]; reflexivity. }
  repeat split; intro; qcases.
Qed.

Lemma label_follows_threshold_witness :
  exists out,
    GdmBackend.predict_gdm (Some sample_components) high_risk_data = Ok out /\
    GdmBackend.gdm_probability out == 0.5 /\
    GdmBackend.prediction out = "GDM".
Proof.
  destruct (GdmBackend.predict_gdm (Some sample_components) high_risk_data)
    as [out|e] eqn:E; [|vm_compute in E; discriminate E].
  exists out. split; [reflexivity|].
  assert (Hp : GdmBackend.gdm_probability out == 0.5).
  { pose proof E as E'. vm_compute in E'. injection E' as <-. reflexivity. }
  split; [exact Hp|].
  exact (proj1 (proj2 (label_follows_threshold sample_components
                         high_risk_data out 0.5 E
                         (or_intror (conj eq_refl eq_refl)))) Hp).
Defined.

(** C4.  The risk category of a returned outcome: "High Risk" when the
    probability is at least 0.7 or at least three markers hold, else
    "Moderate Risk" when it is at least 0.4 or at least two hold, else
    "Low Risk"; the markers are counted on the raw record. *)
Theorem risk_category_by_probability_and_markers
        (mc : GdmBackend.ModelComponents) (patient_data : dict Q)
        (out : GdmBackend.Outcome) :
  GdmBackend.predict_gdm (Some mc) patient_data = Ok out ->
  let p := GdmBackend.gdm_probability out in
  let k := spec_marker_count patient_data in
  (0.7 <= p \/ (3 <= k)%nat -> GdmBackend.risk_category out = "High Risk") /\
  (p < 0.7 -> (k < 3)%nat -> 0.4 <= p \/ (2 <= k)%nat ->
   GdmBackend.risk_category out = "Moderate Risk") /\
  (p < 0.4 -> (k < 2)%nat -> GdmBackend.risk_category out = "Low Risk").
Proof.
  intros H p k.
  destruct (predict_gdm_inv _ _ _ H)
    as (ps & pr & g & n & _ & _ & _ & Hg & _ & Hc & _).
  subst p k. rewrite Hc, Hg, high_risk_markers_spec. clear.
  unfold GdmBackend.risk_category_of.
  set (k := spec_marker_count patient_data).
  repeat split.
  - intros [Hp|Hk].
    + destruct (Qgeb_spec g 0.7); [reflexivity | contradiction].
    + apply Nat.leb_le in Hk. rewrite Hk, orb_true_r. reflexivity.
  - intros Hp Hk Hm.
    destruct (Qgeb_spec g 0.7); [exfalso; lra|].
    destruct (Nat.leb_spec 3 k); [lia|]. cbn [orb].
    destruct Hm as [Hm|Hm].
    + destruct (Qgeb_spec g 0.4); [reflexivity | contradiction].
    + apply Nat.leb_le in Hm. rewrite Hm, orb_true_r. reflexivity.
  - intros Hp Hk.
    destruct (Qgeb_spec g 0.7); [exfalso; lra|].
    destruct (Nat.leb_spec 3 k); [lia|]. cbn [orb].
    destruct (Qgeb_spec g 0.4); [exfalso; lra|].
    destruct (Nat.leb_spec 2 k); [lia|]. reflexivity.
Qed.

Lemma risk_category_by_probability_and_markers_witness :
  exists out,
    GdmBackend.predict_gdm (Some voting_components) low_risk_data = Ok out /\
    GdmBackend.risk_category out = "Low Risk".
Proof.
  destruct (GdmBackend.predict_gdm (Some voting_components) low_risk_data)
    as [out|e] eqn:E; [|vm_compute in E; discriminate E].
  exists out. split; [reflexivity|].
  apply (risk_category_by_probability_and_markers
           voting_components low_risk_data out E).
  - pose proof E as E'. vm_compute in E'. injection E' as <-. reflexivity.
  - vm_compute. lia.
Defined.

Lemma has_field_default (patient_data : dict Q) (k : string) (v dflt : Q) :
  has_field patient_data k v -> dict_get_default k dflt patient_data == v.
Proof.
  intros (x & Hx & Hv). unfold dict_get_default. now rewrite Hx.
Qed.

(** C6.  On scenario A every returned outcome is "High Risk" with the
    obesity and high-glucose flags set, whatever the models answer: all
    five markers hold on the record. *)
Theorem scenario_A_is_high_risk
        (mc : GdmBackend.ModelComponents) (patient_data : dict Q)
        (out : GdmBackend.Outcome) :
  scenario_A patient_data ->
  GdmBackend.predict_gdm (Some mc) patient_data = Ok out ->
  GdmBackend.risk_category out = "High Risk" /\
  GdmBackend.obesity (GdmBackend.risk_factors out) = true /\
  GdmBackend.high_glucose (GdmBackend.risk_factors out) = true.
Proof.
  intros (Hage & _ & Hbmi & Hogtt & _ & Hfh & _ & _ & Hpcos & _) H.
  destruct (predict_gdm_inv _ _ _ H)
    as (ps & pr & g & n & _ & _ & _ & _ & _ & Hc & _ & Hf).
  rewrite Hc, Hf. clear Hc Hf H.
  pose proof (has_field_default _ _ _ 20 Hage) as Ha.
  pose proof (has_field_default _ _ _ 20 Hbmi) as Hb.
  pose proof (has_field_default _ _ _ 100 Hogtt) as Ho.
  pose proof (has_field_default _ _ _ 0 Hfh) as Hh.
  pose proof (has_field_default _ _ _ 0 Hpcos) as Hp.
  assert (Eb : Qgeb (dict_get_default "BMI" 20 patient_data) 30 = true)
    by (destruct (Qgeb_spec (dict_get_default "BMI" 20 patient_data) 30);
        [reflexivity | exfalso; lra]).
  assert (Eo : Qgeb (dict_get_default "OGTT" 100 patient_data) 140 = true)
    by (destruct (Qgeb_spec (dict_get_default "OGTT" 100 patient_data) 140);
        [reflexivity | exfalso; lra]).
  assert (Ea : Qgeb (dict_get_default "Age" 20 patient_data) 35 = true)
    by (destruct (Qgeb_spec (dict_get_default "Age" 20 patient_data) 35);
        [reflexivity | exfalso; lra]).
  apply Qeq_bool_iff in Hh, Hp.
  unfold GdmBackend.risk_category_of, GdmBackend.high_risk_markers.
  cbn [GdmBackend.obesity GdmBackend.high_glucose GdmBackend.risk_factors_of].
  rewrite Eb, Eo, Ea, Hh, Hp. cbn [count_true filter id length Nat.leb].
  rewrite orb_true_r. auto.
Qed.

Lemma scenario_A_high_risk_data : scenario_A high_risk_data.
Proof.
  unfold scenario_A, has_field.
  repeat split; eexists; (split; [reflexivity|reflexivity]).
Defined.

Lemma scenario_A_is_high_risk_witness :
  exists out,
    GdmBackend.predict_gdm (Some voting_components) high_risk_data = Ok out /\
    GdmBackend.gdm_probability out == 0 /\
    GdmBackend.risk_category out = "High Risk" /\
    GdmBackend.obesity (GdmBackend.risk_factors out) = true /\
    GdmBackend.high_glucose (GdmBackend.risk_factors out) = true.
Proof.
  destruct (GdmBackend.predict_gdm (Some voting_components) high_risk_data)
    as [out|e] eqn:E; [|vm_compute in E; discriminate E].
  exists out. split; [reflexivity|]. split.
  - pose proof E as E'. vm_compute in E'. injection E' as <-. reflexivity.
  - exact (scenario_A_is_high_risk voting_components high_risk_data out
             scenario_A_high_risk_data E).
Defined.

(** ** The legacy variant *)

Lemma dict_get_setdefault (k k' : string) (v : Q) (d : dict Q) :
  k <> k' ->
  dict_get k (FastapiBackendModified.setdefault k' v d) = dict_get k d.
Proof.
  intro Hne. unfold FastapiBackendModified.setdefault.
  destruct (dict_mem k' d); [reflexivity|].
  rewrite dict_get_set.
  destruct (String.eqb_spec k k'); [contradiction | reflexivity].
Qed.

(** The three defaults added by the legacy [predict_gdm] leave the other
    fields of the record as they are. *)
Lemma legacy_defaults_keep (k : string) (d : dict Q) :
  k <> "Case Number" -> k <> "BMI" -> k <> "OGTT" ->
  dict_get k
    (FastapiBackendModified.setdefault "OGTT" 120.0
       (FastapiBackendModified.setdefault "BMI" 22.0
          (FastapiBackendModified.setdefault "Case Number" 0 d)))
  = dict_get k d.
Proof. intros. now rewrite !dict_get_setdefault. Qed.


(** What a returned outcome of the legacy variant is made of. *)
Lemma legacy_predict_gdm_inv (mc : FastapiBackendModified.ModelComponents)
      (patient_data : dict Q) (out : FastapiBackendModified.Outcome) :
  FastapiBackendModified.predict_gdm (Some mc) patient_data = Ok out ->
  let patient_data' :=
    FastapiBackendModified.setdefault "OGTT" 120.0
      (FastapiBackendModified.setdefault "BMI" 22.0
         (FastapiBackendModified.setdefault "Case Number" 0 patient_data)) in
  exists predictions probabilities label g n,
    FastapiBackendModified.predict_with_ensemble patient_data' mc
    = Ok (predictions, probabilities) /\
    FastapiBackendModified.label_and_probabilities
      (FastapiBackendModified.problem_type
         (FastapiBackendModified.metadata mc))
      (FastapiBackendModified.first_prediction predictions)
      (FastapiBackendModified.first_row probabilities)
    = Ok (label, g, n) /\
    FastapiBackendModified.prediction out = label /\
    FastapiBackendModified.gdm_probability out = g /\
    FastapiBackendModified.non_gdm_probability out = n /\
    FastapiBackendModified.risk_category out
    = FastapiBackendModified.risk_category_of g /\
    FastapiBackendModified.confidence out = py_max g n /\
    FastapiBackendModified.risk_factors out
    = FastapiBackendModified.risk_factors_of patient_data'.
Proof.
  intros H patient_data'.
  unfold FastapiBackendModified.predict_gdm,
    FastapiBackendModified.predict_gdm_body in H.
  fold patient_data' in H.
  destruct (FastapiBackendModified.predict_with_ensemble patient_data' mc)
    as [[predictions probabilities]|]; cbn [bind] in H; [|discriminate].
  destruct (FastapiBackendModified.label_and_probabilities _ _ _)
    as [[[label g] n]|] eqn:E; cbn [bind] in H; [|discriminate].
  injection H as <-. exists predictions, probabilities, label, g, n. cbn.
  repeat split; auto.
Qed.

(** C9.  The legacy [high_bp] flag compares strictly: it is set exactly
    when Sys BP > 140 or Dia BP > 90.  At Sys BP = 140 and Dia BP = 90 it
    is off, while the flag of the extended variant and the [Hypertensive]
    feature, which compare with [>=], are on. *)
Theorem legacy_high_bp_is_strict
        (mc : FastapiBackendModified.ModelComponents) (patient_data : dict Q)
        (out : FastapiBackendModified.Outcome) :
  FastapiBackendModified.predict_gdm (Some mc) patient_data = Ok out ->
  let sys := dict_get_default "Sys BP" 0 patient_data in
  let dia := dict_get_default "Dia BP" 0 patient_data in
  let high_bp :=
    FastapiBackendModified.high_bp (FastapiBackendModified.risk_factors out) in
  (high_bp = true <-> 140 < sys \/ 90 < dia) /\
  (sys == 140 -> dia == 90 ->
   high_bp = false /\
   GdmBackend.Hypertensive sys dia = 1 /\
   forall emc eout,
     GdmBackend.predict_gdm (Some emc) patient_data = Ok eout ->
     GdmBackend.high_bp (GdmBackend.risk_factors eout) = true).
Proof.
  intros H sys dia high_bp.
  destruct (legacy_predict_gdm_inv _ _ _ H)
    as (ps & pr & l & g & n & _ & _ & _ & _ & _ & _ & _ & Hf).
  assert (E : high_bp = (Qgtb sys 140 || Qgtb dia 90)%bool).
  { subst high_bp sys dia. rewrite Hf.
    cbn [FastapiBackendModified.high_bp
           FastapiBackendModified.risk_factors_of].
    unfold dict_get_default.
    rewrite !legacy_defaults_keep by discriminate. reflexivity. }
  rewrite E. clear E Hf H. split.
  - rewrite orb_true_iff.
    split; (intros [Hs|Hd]; [left|right]);
      first [ now apply (reflect_iff _ _ (Qgtb_spec _ _))
            | now apply (reflect_iff _ _ (Qgtb_spec _ _)) in Hs
            | now apply (reflect_iff _ _ (Qgtb_spec _ _)) in Hd ].
  - intros Hs Hd. split; [|split].
    + destruct (Qgtb_spec sys 140); [exfalso; lra|].
      destruct (Qgtb_spec dia 90); [exfalso; lra|]. reflexivity.
    + unfold GdmBackend.Hypertensive.
      destruct (Qgeb_spec sys 140); [reflexivity | exfalso; lra].
    + intros emc eout He.
      destruct (predict_gdm_inv _ _ _ He)
        as (ps' & pr' & g' & n' & _ & _ & _ & _ & _ & _ & _ & Hf').
      rewrite Hf'.
      cbn [GdmBackend.high_bp GdmBackend.risk_factors_of].
      fold sys.
      destruct (Qgeb_spec sys 140); [reflexivity | exfalso; lra].
Qed.

Lemma legacy_high_bp_is_strict_witness :
  exists out,
    FastapiBackendModified.predict_gdm
      (Some (legacy_components "classification" (meta_model 1 [0.25; 0.75])))
      record_at_thresholds = Ok out /\
    FastapiBackendModified.high_bp (FastapiBackendModified.risk_factors out)
    = false /\
    GdmBackend.Hypertensive 140 90 = 1.
Proof.
  destruct (FastapiBackendModified.predict_gdm
              (Some (legacy_components "classification"
                       (meta_model 1 [0.25; 0.75])))
              record_at_thresholds)
    as [out|e] eqn:E; [|vm_compute in E; discriminate E].
  exists out. split; [reflexivity|].
  destruct (proj2 (legacy_high_bp_is_strict _ _ out E)
              ltac:(reflexivity) ltac:(reflexivity)) as (H1 & H2 & _).
  split; [exact H1 | exact H2].
Defined.

(** ** Probabilities *)






(** The complement is exact on rationals only: on binary64 numbers the
    regression branch of the legacy variant, given the raw prediction
    1e17, returns two numbers whose sum is 0. *)
Module Binary64Facts.
Import PrimFloat.

Example regression_complement_is_rounded :
  Binary64.sum_of (Binary64.regression_probabilities 1e17%float) = 0%float.
Proof. vm_compute. reflexivity. Qed.

End Binary64Facts.



(** ** The ensemble stage *)

Lemma base_predictions_nil (n_rows : nat) (df : frame)
      (item : string * Model) :
  GdmBackend.base_predictions n_rows df item = [] <->
  String.eqb (fst item) "Ensemble" = true.
Proof.
  destruct item as [name m]. cbn [GdmBackend.base_predictions fst].
  destruct (String.eqb name "Ensemble"); [tauto|].
  destruct (predict m (OfFrame df)) as [[|x pred]|];
    split; discriminate.
Qed.

Lemma legacy_base_predictions_nil (n_rows : nat) (df : frame)
      (item : string * Model) :
  FastapiBackendModified.base_predictions n_rows df item = [] <->
  String.eqb (fst item) "Ensemble" = true.
Proof.
  destruct item as [name m].
  cbn [FastapiBackendModified.base_predictions fst].
  destruct (String.eqb name "Ensemble"); [tauto|].
  destruct (predict m (OfFrame df)); split; discriminate.
Qed.

(** No prediction is collected exactly when there is no base model. *)
Lemma flat_map_nil_base_models (f : string * Model -> list (list Q))
      (models : dict Model) :
  (forall item, f item = [] <-> String.eqb (fst item) "Ensemble" = true) ->
  flat_map f models = [] <-> base_models models = [].
Proof.
  intro Hf. induction models as [|item models IH]; cbn [flat_map base_models filter].
  - tauto.
  - destruct (String.eqb (fst item) "Ensemble") eqn:E; cbn [negb].
    + rewrite (proj2 (Hf item) E). exact IH.
    + split; [|discriminate]. intro H.
      apply app_eq_nil in H as [H _]. apply Hf in H. congruence.
Qed.

Lemma np_array_T_not_NoBaseModels (rows : list (list Q)) :
  np_array_T rows <> Raise NoBaseModels.
Proof.
  unfold np_array_T. destruct rows as [|r rows]; [discriminate|].
  destruct (forallb _ _); discriminate.
Qed.

Lemma np_array_T_rectangular (n : nat) (rows : list (list Q)) :
  Forall (fun r => length r = n) rows ->
  exists stacked, np_array_T rows = Ok stacked.
Proof.
  intro H. unfold np_array_T. destruct rows as [|r rows]; [eauto|].
  assert (E : forallb (fun r' => Nat.eqb (length r') (length r)) (r :: rows)
              = true).
  { apply forallb_forall. intros r' Hr'. apply Nat.eqb_eq.
    rewrite Forall_forall in H.
    rewrite (H r' Hr'), (H r (or_introl eq_refl)). reflexivity. }
  rewrite E. eauto.
Qed.

Lemma ensemble_predict_tail (n_rows : nat) (models : dict Model)
      (df : frame) :
  GdmBackend.ensemble_predict n_rows models df
  = ensemble_tail (GdmBackend.individual_predictions n_rows df models) models.
Proof. reflexivity. Qed.

Lemma legacy_ensemble_predict_tail (n_rows : nat) (models : dict Model)
      (df : frame) :
  FastapiBackendModified.ensemble_predict n_rows models df
  = ensemble_tail
      (FastapiBackendModified.individual_predictions n_rows df models) models.
Proof. reflexivity. Qed.

Lemma ensemble_tail_NoBaseModels (preds : list (list Q))
      (models : dict Model) :
  ensemble_tail preds models = Raise NoBaseModels <-> preds = [].
Proof.
  unfold ensemble_tail. split.
  - destruct preds as [|r preds]; [reflexivity|]. intro H. exfalso.
    pose proof (np_array_T_not_NoBaseModels (r :: preds)) as Hn.
    destruct (np_array_T (r :: preds)) as [stacked|e]; cbn [bind] in H.
    + unfold dict_getitem in H.
      destruct (dict_get "Ensemble" models) as [ens|]; cbn [bind] in H;
        [|discriminate].
      destruct (predict ens (OfMatrix stacked)); cbn [bind] in H;
        discriminate.
    + congruence.
  - intros ->. reflexivity.
Qed.

Lemma ensemble_tail_without_ensemble (preds : list (list Q))
      (models : dict Model) :
  dict_get "Ensemble" models = None ->
  (exists e, ensemble_tail preds models = Raise e) /\
  forall n, preds <> [] -> Forall (fun r => length r = n) preds ->
            ensemble_tail preds models = Raise NoEnsembleModel.
Proof.
  intro He. unfold ensemble_tail, dict_getitem. rewrite He. split.
  - destruct (match preds with [] => _ | _ :: _ => _ end);
      cbn [bind]; eauto.
  - intros n Hne Hlen. destruct preds as [|r preds]; [contradiction|].
    destruct (np_array_T_rectangular n _ Hlen) as [stacked ->].
    reflexivity.
Qed.

Lemma individual_predictions_lengths (n_rows : nat) (df : frame)
      (models : dict Model) :
  one_prediction_per_row n_rows df models ->
  Forall (fun r => length r = n_rows)
         (GdmBackend.individual_predictions n_rows df models).
Proof.
  intro H. unfold GdmBackend.individual_predictions.
  apply Forall_flat_map. apply Forall_forall. intros [name m] Hin.
  cbn [GdmBackend.base_predictions].
  destruct (String.eqb name "Ensemble"); [constructor|].
  assert (Hz : length (np_zeros n_rows) = n_rows)
    by apply repeat_length.
  destruct (predict m (OfFrame df)) as [pred|] eqn:E.
  - pose proof (H name m pred Hin E) as Hl.
    destruct pred; repeat constructor; auto.
  - repeat constructor; auto.
Qed.

Lemma legacy_individual_predictions_lengths (n_rows : nat) (df : frame)
      (models : dict Model) :
  one_prediction_per_row n_rows df models ->
  Forall (fun r => length r = n_rows)
         (FastapiBackendModified.individual_predictions n_rows df models).
Proof.
  intro H. unfold FastapiBackendModified.individual_predictions.
  apply Forall_flat_map. apply Forall_forall. intros [name m] Hin.
  cbn [FastapiBackendModified.base_predictions].
  destruct (String.eqb name "Ensemble"); [constructor|].
  destruct (predict m (OfFrame df)) as [pred|] eqn:E.
  - repeat constructor. exact (H name m pred Hin E).
  - repeat constructor. apply repeat_length.
Qed.

(** C8 as stated fails on the empty model set: "Ensemble" is missing,
    and the stage fails with the no-base-models error, not with the
    missing-key error, in both files. *)
Lemma missing_ensemble_and_no_base_model :
  dict_get "Ensemble" (@nil (string * Model)) = None /\
  GdmBackend.ensemble_predict 1 [] [] = Raise NoBaseModels /\
  GdmBackend.ensemble_predict 1 [] [] <> Raise NoEnsembleModel /\
  FastapiBackendModified.ensemble_predict 1 [] [] = Raise NoBaseModels /\
  FastapiBackendModified.ensemble_predict 1 [] [] <> Raise NoEnsembleModel.
Proof. repeat split; discriminate. Qed.

(** C8, amended.  In the ensemble stage of both files: a base model whose
    [predict] raises contributes the zero vector of the row count at its
    place and the other models are still run; the stage fails with the
    no-base-models error exactly when there is no model other than
    "Ensemble"; and when "Ensemble" is missing the stage always fails,
    with the missing-key error as soon as there is a base model (each base
    model answering one prediction per row). *)
Theorem ensemble_stage_failures (n_rows : nat) (df : frame)
        (models : dict Model) :
  (forall (ms1 : dict Model) name m ms2,
     models = (ms1 ++ (name, m) :: ms2)%list ->
     name <> "Ensemble" -> predict m (OfFrame df) = None ->
     GdmBackend.individual_predictions n_rows df models
     = (GdmBackend.individual_predictions n_rows df ms1
        ++ np_zeros n_rows
        :: GdmBackend.individual_predictions n_rows df ms2)%list /\
     FastapiBackendModified.individual_predictions n_rows df models
     = (FastapiBackendModified.individual_predictions n_rows df ms1
        ++ np_zeros n_rows
        :: FastapiBackendModified.individual_predictions n_rows df ms2)%list)
  /\
  (GdmBackend.ensemble_predict n_rows models df = Raise NoBaseModels
   <-> base_models models = []) /\
  (FastapiBackendModified.ensemble_predict n_rows models df
   = Raise NoBaseModels <-> base_models models = []) /\
  (dict_get "Ensemble" models = None ->
   (exists e, GdmBackend.ensemble_predict n_rows models df = Raise e) /\
   (exists e,
      FastapiBackendModified.ensemble_predict n_rows models df = Raise e) /\
   (base_models models <> [] ->
    one_prediction_per_row n_rows df models ->
    GdmBackend.ensemble_predict n_rows models df = Raise NoEnsembleModel /\
    FastapiBackendModified.ensemble_predict n_rows models df
    = Raise NoEnsembleModel)).
Proof.
  pose proof (flat_map_nil_base_models
                (GdmBackend.base_predictions n_rows df) models
                (base_predictions_nil n_rows df)) as Hnil.
  pose proof (flat_map_nil_base_models
                (FastapiBackendModified.base_predictions n_rows df) models
                (legacy_base_predictions_nil n_rows df)) as Hnil'.
  fold (GdmBackend.individual_predictions n_rows df models) in Hnil.
  fold (FastapiBackendModified.individual_predictions n_rows df models)
    in Hnil'.
  split; [|split; [|split]].
  - intros ms1 name m ms2 -> Hname Hfail.
    apply String.eqb_neq in Hname.
    unfold GdmBackend.individual_predictions,
      FastapiBackendModified.individual_predictions.
    rewrite !flat_map_app. cbn [flat_map].
    cbn [GdmBackend.base_predictions FastapiBackendModified.base_predictions].
    rewrite Hname, Hfail. auto.
  - rewrite ensemble_predict_tail, ensemble_tail_NoBaseModels. exact Hnil.
  - rewrite legacy_ensemble_predict_tail, ensemble_tail_NoBaseModels.
    exact Hnil'.
  - intro He.
    rewrite ensemble_predict_tail, legacy_ensemble_predict_tail.
    destruct (ensemble_tail_without_ensemble
                (GdmBackend.individual_predictions n_rows df models)
                models He) as [H1 H2].
    destruct (ensemble_tail_without_ensemble
                (FastapiBackendModified.individual_predictions
                   n_rows df models)
                models He) as [H1' H2'].
    split; [exact H1|]. split; [exact H1'|].
    intros Hbase Hrows. split.
    + apply (H2 n_rows); [tauto|].
      now apply individual_predictions_lengths.
    + apply (H2' n_rows); [tauto|].
      now apply legacy_individual_predictions_lengths.
Qed.

Lemma ensemble_stage_failures_witness :
  GdmBackend.individual_predictions 1 [] models_without_ensemble
  = [[1]; [0]] /\
  GdmBackend.ensemble_predict 1 models_without_ensemble []
  = Raise NoEnsembleModel /\
  FastapiBackendModified.ensemble_predict 1 models_without_ensemble []
  = Raise NoEnsembleModel.
Proof.
  destruct (ensemble_stage_failures 1 [] models_without_ensemble)
    as (Hzero & _ & _ & Hmiss).
  split.
  - exact (proj1 (Hzero [("RandomForest", constant_model 1)]
                        "XGBoost" failing_model []
                        eq_refl ltac:(discriminate) eq_refl)).
  - apply (Hmiss eq_refl).
    + discriminate.
    + intros name m pred Hin Hp.
      destruct Hin as [Hin|[Hin|[]]]; injection Hin as <- <-.
      * injection Hp as <-. reflexivity.
      * discriminate Hp.
Defined.

(** ** Evaluation checks *)

Example BMI_Category_at_the_edges :
  map GdmBackend.BMI_Category [0; 15; 18.5; 24.999; 25; 25.001; 30; 50; 50.5]
  = map Cat [None; Some "Underweight"; Some "Underweight"; Some "Normal";
             Some "Normal"; Some "Overweight"; Some "Overweight";
             Some "Obese"; None].
Proof. reflexivity. Qed.

Example OGTT_Category_at_the_edges :
  map GdmBackend.OGTT_Category [50; 139.9; 140; 200; 200.5; 400]
  = map Cat [Some "Normal"; Some "Normal"; Some "Normal"; Some "Impaired";
             Some "Diabetic"; Some "Diabetic"].
Proof. reflexivity. Qed.

Example default_value_examples :
  map GdmBackend.default_value
      ["BMI_Risk_Score"; "High_Risk_BMI"; "Age"; "BMI"; "OGTT"; "Hemoglobin";
       "HDL"; "Sys BP"; "BMI_Category"]
  = [0; 0; 28; 23; 120; 12; 50; 0; 0].
Proof. reflexivity. Qed.

Example select_features_example :
  GdmBackend.select_features ["HDL"; "Age"; "OGTT_Risk_Score"; "PCOS"]
                             [("PCOS", Num 1); ("Extra", Num 7)]
  = [("HDL", Num 50); ("Age", Num 28); ("OGTT_Risk_Score", Num 0);
     ("PCOS", Num 1)].
Proof. reflexivity. Qed.

Example list_getitem_negative_index :
  list_getitem GdmBackend.classes (-1) = Ok "GDM" /\
  list_getitem GdmBackend.classes 2 = Raise IndexError /\
  list_getitem GdmBackend.classes (py_int 1.9) = Ok "GDM".
Proof. repeat split. Qed.

Example np_array_T_example :
  np_array_T [[1; 2]; [3; 4]; [5; 6]] = Ok [[1; 3; 5]; [2; 4; 6]] /\
  np_array_T [[1]; []] = Raise (ValueError "inhomogeneous shape").
Proof. split; reflexivity. Qed.

(** The record without [Age] still goes through the whole pipeline: the
    raw columns are aligned and the missing ones filled. *)
Example preprocess_without_age :
  GdmBackend.preprocess sample_preprocessing record_without_age
  = [("Age", Num 28); ("BMI", Num 32); ("OGTT", Num 150);
     ("BMI_Category", Num 0); ("OGTT_Category", Num 0);
     ("Comprehensive_Risk_Score", Num 0); ("HDL", Num 50);
     ("Hemoglobin", Num 12)].
Proof. reflexivity. Qed.

(** Scenario B of the specification on a bundle without [predict_proba]. *)
Example low_risk_profile :
  exists out,
    GdmBackend.predict_gdm (Some voting_components) low_risk_data = Ok out /\
    GdmBackend.risk_category out = "Low Risk" /\
    GdmBackend.obesity (GdmBackend.risk_factors out) = false.
Proof. eexists. split; [vm_compute; reflexivity|]. split; reflexivity. Qed.

Example prediction_without_model :
  GdmBackend.predict_gdm None low_risk_data
  = Raise (ValueError "Model not loaded") /\
  FastapiBackendModified.predict_gdm None low_risk_data
  = Raise (ValueError "Model not loaded").
Proof. split; reflexivity. Qed.

(** The legacy variant fails on a record without a training column. *)
Example legacy_missing_column :
  FastapiBackendModified.predict_gdm
    (Some (legacy_components "classification" voting_model))
    record_without_age
  = Raise (PredictionFailed (ColumnsNotInIndex ["Age"])).
Proof. reflexivity. Qed.


(** * Beyond the claims *)

(** Evaluates the pipeline on a request whose field values are unknown:
    the column names are literals, the arithmetic is left alone. *)
Ltac eval_request :=
  cbv -[Qplus Qmult Qminus Qdiv Qle_bool Qeq_bool inject_Z Qopp Qinv
        GdmBackend.Age GdmBackend.No_of_Pregnancy GdmBackend.BMI
        GdmBackend.OGTT GdmBackend.Family_History GdmBackend.PCOS
        GdmBackend.Sys_BP GdmBackend.Dia_BP GdmBackend.HDL
        GdmBackend.Hemoglobin GdmBackend.Gestation_in_previous_Pregnancy
        GdmBackend.unexplained_prenetal_loss
        GdmBackend.Large_Child_or_Birth_Default
        GdmBackend.Sedentary_Lifestyle GdmBackend.Prediabetes
        GdmBackend.BMI_Category GdmBackend.BMI_Risk_Score
        GdmBackend.OGTT_Category GdmBackend.OGTT_Risk_Score
        GdmBackend.Hypertensive truediv b2q Qgeb Qgtb Qltb].

(** ** Requests of the endpoint *)

(** X1.  For every request of the endpoint the feature engineer returns:
    the fifteen fields stay in place and the sixteen derived columns
    follow in the order of their assignments. *)
Theorem engineered_request (p : GdmBackend.PatientData) :
  GdmBackend.advanced_feature_engineering (DataFrame (GdmBackend.model_dump p))
  = Ok (engineered_frame p) /\
  keys (engineered_frame p)
  = (keys (GdmBackend.model_dump p) ++ derived_columns)%list.
Proof. split; eval_request; reflexivity. Qed.

Lemma ge_le_iff (lo hi x : Q) :
  GdmBackend.ge_le lo hi x = true <-> lo <= x <= hi.
Proof.
  unfold GdmBackend.ge_le. rewrite andb_true_iff, !Qle_bool_iff. tauto.
Qed.

Lemma ge_le_int_iff (lo hi x : Z) :
  GdmBackend.ge_le_int lo hi x = true <-> (lo <= x <= hi)%Z.
Proof.
  unfold GdmBackend.ge_le_int. rewrite andb_true_iff, !Z.leb_le. tauto.
Qed.

Lemma field_errors_nil {A} (alias : string) (b : bool) (v : result A) :
  GdmBackend.field_errors alias b v = [] <->
  b = true /\ exists a, v = Ok a.
Proof.
  unfold GdmBackend.field_errors. destruct b, v; split;
    try discriminate; eauto.
  - intros [_ [a H]]. discriminate.
  - intros [H _]. discriminate.
  - intros [H _]. discriminate.
Qed.

Lemma app_nil_iff {A} (l l' : list A) :
  (l ++ l')%list = [] <-> l = [] /\ l' = [].
Proof.
  split; [apply app_eq_nil|]. intros [-> ->]. reflexivity.
Qed.

Lemma validators_pass_within_bounds (x : Q) :
  (15 <= x <= 50 -> GdmBackend.validate_bmi x = Ok x) /\
  (50 <= x <= 400 -> GdmBackend.validate_ogtt x = Ok x).
Proof.
  split; intro H;
    unfold GdmBackend.validate_bmi, GdmBackend.validate_ogtt; qcases.
Qed.

(** X2.  The two field validators of BMI and OGTT never reject a value
    that passed the bounds of its [Field]. *)
Theorem field_validators_are_redundant (x : Q) :
  (GdmBackend.ge_le 15 50 x = true -> GdmBackend.validate_bmi x = Ok x) /\
  (GdmBackend.ge_le 50 400 x = true -> GdmBackend.validate_ogtt x = Ok x).
Proof.
  split; intro H; apply ge_le_iff in H;
    now apply validators_pass_within_bounds.
Qed.

Lemma field_validators_are_redundant_witness :
  GdmBackend.validate_bmi 32.5 = Ok 32.5 /\
  GdmBackend.validate_ogtt 180 = Ok 180.
Proof.
  split.
  - exact (proj1 (field_validators_are_redundant 32.5) eq_refl).
  - exact (proj2 (field_validators_are_redundant 180) eq_refl).
Defined.

Lemma validate_blood_pressure_ok (sys_ok : bool) (sys dia : Q) :
  (exists a,
     GdmBackend.validate_blood_pressure
       (if sys_ok then Some sys else None) dia = Ok a) <->
  (sys_ok = true -> dia < sys).
Proof.
  unfold GdmBackend.validate_blood_pressure. destruct sys_ok.
  - destruct (Qgeb_spec dia sys); split.
    + intros [a H]. discriminate.
    + intro H. specialize (H eq_refl). lra.
    + intros _ _. lra.
    + eauto.
  - split; [discriminate | eauto].
Qed.

Lemma is_valid_within_bounds (p : GdmBackend.PatientData) :
  GdmBackend.is_valid p = true <-> within_bounds p.
Proof.
  assert (E : GdmBackend.is_valid p = true
              <-> GdmBackend.validation_errors p = []).
  { unfold GdmBackend.is_valid.
    destruct (GdmBackend.validation_errors p); split;
      congruence. }
  rewrite E. unfold GdmBackend.validation_errors, within_bounds.
  rewrite !app_nil_iff, !field_errors_nil, !ge_le_iff, !ge_le_int_iff.
  rewrite validate_blood_pressure_ok.
  pose proof (validators_pass_within_bounds (GdmBackend.BMI p)) as [Hb _].
  pose proof (validators_pass_within_bounds (GdmBackend.OGTT p)) as [_ Ho].
  split.
  - intros (Ha & Hn & Hg & Hbmi & Hogtt & Hh & Hf & Hu & Hl & Hp & Hs & Hd
            & Hhe & Hse & Hpr).
    destruct Ha as [Ha _], Hn as [Hn _], Hg as [Hg _], Hbmi as [Hbmi _],
      Hogtt as [Hogtt _], Hh as [Hh _], Hf as [Hf _], Hu as [Hu _],
      Hl as [Hl _], Hp as [Hp _], Hs as [Hs _], Hd as [Hd Hv],
      Hhe as [Hhe _], Hse as [Hse _], Hpr as [Hpr _].
    repeat split; try tauto; try lia.
    apply Hv. apply ge_le_iff. exact Hs.
  - intros (Ha & Hn & Hg & Hbmi & Hogtt & Hh & Hf & Hu & Hl & Hp & Hs & Hd
            & Hhe & Hse & Hpr & Hlt).
    repeat split; eauto; try tauto; try lia.
Qed.

(** X3.  The constructor of [PatientData] accepts its arguments exactly
    when every field is within the bounds of its [Field] and the
    diastolic pressure is below the systolic one. *)
Theorem is_valid_iff (p : GdmBackend.PatientData) :
  GdmBackend.is_valid p = true <-> within_bounds p.
Proof. exact (is_valid_within_bounds p). Qed.

Lemma in_field_errors_false {A} (alias : string) (v : result A) :
  In alias (GdmBackend.field_errors alias false v).
Proof. left. reflexivity. Qed.

(** X4.  A request whose diastolic pressure is not below the systolic
    one is always rejected, also when the validator of the diastolic
    field is skipped because the systolic field is itself out of range:
    one of the two fields is reported. *)
Theorem diastolic_not_below_systolic_is_rejected
        (p : GdmBackend.PatientData) :
  GdmBackend.Sys_BP p <= GdmBackend.Dia_BP p ->
  GdmBackend.is_valid p = false /\
  (In "Sys BP" (GdmBackend.validation_errors p) \/
   In "Dia BP" (GdmBackend.validation_errors p)).
Proof.
  intro H. split.
  - destruct (GdmBackend.is_valid p) eqn:E; [|reflexivity].
    apply is_valid_within_bounds in E. unfold within_bounds in E.
    exfalso. lra.
  - unfold GdmBackend.validation_errors.
    destruct (GdmBackend.ge_le 70 200 (GdmBackend.Sys_BP p)) eqn:Es.
    + right. rewrite !in_app_iff.
      do 11 right. left.
      unfold GdmBackend.field_errors, GdmBackend.validate_blood_pressure.
      destruct (GdmBackend.ge_le 40 130 (GdmBackend.Dia_BP p));
        [|left; reflexivity].
      destruct (Qgeb_spec (GdmBackend.Dia_BP p) (GdmBackend.Sys_BP p));
        [left; reflexivity | exfalso; lra].
    + left. rewrite !in_app_iff.
      do 10 right. left. apply in_field_errors_false.
Qed.

Lemma diastolic_not_below_systolic_is_rejected_witness :
  GdmBackend.is_valid
    {| GdmBackend.Age := 30; GdmBackend.No_of_Pregnancy := 1;
       GdmBackend.Gestation_in_previous_Pregnancy := 0;
       GdmBackend.BMI := 22; GdmBackend.OGTT := 100; GdmBackend.HDL := 50;
       GdmBackend.Family_History := 0;
       GdmBackend.unexplained_prenetal_loss := 0;
       GdmBackend.Large_Child_or_Birth_Default := 0; GdmBackend.PCOS := 0;
       GdmBackend.Sys_BP := 60; GdmBackend.Dia_BP := 60;
       GdmBackend.Hemoglobin := 12; GdmBackend.Sedentary_Lifestyle := 0;
       GdmBackend.Prediabetes := 0 |} = false.
Proof.
  refine (proj1 (diastolic_not_below_systolic_is_rejected _ _)).
  cbn. lra.
Defined.

Lemma engineered_frame_eq (p : GdmBackend.PatientData) :
  GdmBackend.advanced_feature_engineering (DataFrame (GdmBackend.model_dump p))
  = Ok (engineered_frame p).
Proof. eval_request. reflexivity. Qed.

Lemma BMI_Category_defined (x : Q) :
  0 < x <= 50 -> exists label, GdmBackend.BMI_Category x = Cat (Some label).
Proof.
  intro H. destruct (BMI_Category_bins x) as (_ & H1 & H2 & H3 & H4 & _).
  destruct (Qlt_le_dec 18.5 x); [|eexists; apply H1; lra].
  destruct (Qlt_le_dec 25 x); [|eexists; apply H2; lra].
  destruct (Qlt_le_dec 30 x); [|eexists; apply H3; lra].
  eexists; apply H4; lra.
Qed.

Lemma OGTT_Category_defined (x : Q) :
  0 < x <= 1000 -> exists label, GdmBackend.OGTT_Category x = Cat (Some label).
Proof.
  intro H. destruct (OGTT_Category_bins x) as (_ & H1 & H2 & H3 & _).
  destruct (Qlt_le_dec 140 x); [|eexists; apply H1; lra].
  destruct (Qlt_le_dec 200 x); [|eexists; apply H2; lra].
  eexists; apply H3; lra.
Qed.

Lemma truediv_nonzero (a b : Q) : ~ b == 0 -> truediv a b = Num (a / b).
Proof.
  intro H. unfold truediv.
  destruct (Qeq_bool_spec b 0); [contradiction | reflexivity].
Qed.

(** X5.  For a request that passed validation no engineered value is
    undefined: both bins have a label (BMI is within (0, 50], OGTT within
    (0, 1000]), the pressure ratio is a finite number above 1 and the
    pulse pressure is positive. *)
Theorem valid_request_has_defined_features (p : GdmBackend.PatientData) :
  GdmBackend.is_valid p = true ->
  exists df bmi_label ogtt_label,
    GdmBackend.advanced_feature_engineering
      (DataFrame (GdmBackend.model_dump p)) = Ok df /\
    dict_get "BMI_Category" df = Some (Cat (Some bmi_label)) /\
    dict_get "OGTT_Category" df = Some (Cat (Some ogtt_label)) /\
    dict_get "BP_Ratio" df
    = Some (Num (GdmBackend.Sys_BP p / GdmBackend.Dia_BP p)) /\
    1 < GdmBackend.Sys_BP p / GdmBackend.Dia_BP p /\
    dict_get "Pulse_Pressure" df
    = Some (Num (GdmBackend.Sys_BP p - GdmBackend.Dia_BP p)) /\
    0 < GdmBackend.Sys_BP p - GdmBackend.Dia_BP p.
Proof.
  intro Hv. apply is_valid_within_bounds in Hv.
  destruct Hv as (_ & _ & _ & Hb & Ho & _ & _ & _ & _ & _ & Hs & Hd & _ & _
                  & _ & Hlt).
  destruct (BMI_Category_defined (GdmBackend.BMI p)) as [bl Hbl]; [lra|].
  destruct (OGTT_Category_defined (GdmBackend.OGTT p)) as [ol Hol]; [lra|].
  exists (engineered_frame p), bl, ol.
  split; [apply engineered_frame_eq|].
  split; [rewrite <- Hbl; eval_request; reflexivity|].
  split; [rewrite <- Hol; eval_request; reflexivity|].
  split.
  { rewrite <- (truediv_nonzero (GdmBackend.Sys_BP p) (GdmBackend.Dia_BP p))
      by lra.
    eval_request. reflexivity. }
  split; [apply Qlt_shift_div_l; lra|].
  split; [eval_request; reflexivity | lra].
Qed.

Lemma high_risk_profile_is_valid :
  GdmBackend.is_valid GdmBackend.high_risk_profile = true.
Proof. reflexivity. Defined.

Lemma valid_request_has_defined_features_witness :
  exists df bmi_label ogtt_label,
    GdmBackend.advanced_feature_engineering
      (DataFrame (GdmBackend.model_dump GdmBackend.high_risk_profile))
    = Ok df /\
    dict_get "BMI_Category" df = Some (Cat (Some bmi_label)) /\
    dict_get "OGTT_Category" df = Some (Cat (Some ogtt_label)) /\
    dict_get "BP_Ratio" df = Some (Num (145 / 95)) /\
    1 < 145 / 95 /\
    dict_get "Pulse_Pressure" df = Some (Num (145 - 95)) /\
    0 < 145 - 95.
Proof.
  exact (valid_request_has_defined_features GdmBackend.high_risk_profile
           eq_refl).
Defined.

Lemma BMI_Risk_Score_range (x : Q) : 0 <= GdmBackend.BMI_Risk_Score x <= 4.
Proof. unfold GdmBackend.BMI_Risk_Score, np_where. qcases; lra. Qed.

Lemma OGTT_Risk_Score_range (x : Q) : 0 <= GdmBackend.OGTT_Risk_Score x <= 5.
Proof. unfold GdmBackend.OGTT_Risk_Score, np_where. qcases; lra. Qed.

Lemma b2q_range (b : bool) : 0 <= b2q b <= 1.
Proof. destruct b; cbn; lra. Qed.

Lemma flag_range (z : Z) : (0 <= z <= 1)%Z -> 0 <= inject_Z z <= 1.
Proof.
  intro H. assert (z = 0 \/ z = 1)%Z as [->| ->] by lia;
    split; unfold Qle; simpl; lia.
Qed.

(** X6.  For a request that passed validation the comprehensive risk
    score is 2 x OGTT score + 1.5 x BMI score + 2 x [Age > 35]
    + 2 x family history + 2.5 x PCOS + [pregnancies > 2]
    + 1.5 x hypertensive, and lies between 0 and 25. *)
Theorem comprehensive_risk_score_of_valid_request
        (p : GdmBackend.PatientData) :
  GdmBackend.is_valid p = true ->
  exists df score,
    GdmBackend.advanced_feature_engineering
      (DataFrame (GdmBackend.model_dump p)) = Ok df /\
    dict_get "Comprehensive_Risk_Score" df = Some (Num score) /\
    score ==
      2 * GdmBackend.OGTT_Risk_Score (GdmBackend.OGTT p)
      + 1.5 * GdmBackend.BMI_Risk_Score (GdmBackend.BMI p)
      + 2 * b2q (Qgtb (GdmBackend.Age p) 35)
      + 2 * inject_Z (GdmBackend.Family_History p)
      + 2.5 * inject_Z (GdmBackend.PCOS p)
      + b2q (Qgtb (inject_Z (GdmBackend.No_of_Pregnancy p)) 2)
      + 1.5 * GdmBackend.Hypertensive (GdmBackend.Sys_BP p)
                                      (GdmBackend.Dia_BP p) /\
    0 <= score <= 25.
Proof.
  intro Hv. apply is_valid_within_bounds in Hv.
  destruct Hv as (_ & _ & _ & _ & _ & _ & Hf & _ & _ & Hp & _).
  eexists (engineered_frame p), _.
  split; [apply engineered_frame_eq|].
  split; [eval_request; reflexivity|].
  pose proof (OGTT_Risk_Score_range (GdmBackend.OGTT p)).
  pose proof (BMI_Risk_Score_range (GdmBackend.BMI p)).
  pose proof (b2q_range (Qgtb (GdmBackend.Age p) 35)).
  pose proof (b2q_range
                (Qgtb (inject_Z (GdmBackend.No_of_Pregnancy p)) 2)).
  pose proof (flag_range _ Hf). pose proof (flag_range _ Hp).
  assert (0 <= GdmBackend.Hypertensive (GdmBackend.Sys_BP p)
                                       (GdmBackend.Dia_BP p) <= 1)
    by apply b2q_range.
  split; [|split]; lra.
Qed.

Lemma comprehensive_risk_score_of_valid_request_witness :
  exists df score,
    GdmBackend.advanced_feature_engineering
      (DataFrame (GdmBackend.model_dump GdmBackend.high_risk_profile))
    = Ok df /\
    dict_get "Comprehensive_Risk_Score" df = Some (Num score) /\
    score == 21.
Proof.
  destruct (comprehensive_risk_score_of_valid_request
              GdmBackend.high_risk_profile eq_refl)
    as (df & score & E & Hs & Hq & _).
  exists df, score. split; [exact E|]. split; [exact Hs|].
  rewrite Hq. reflexivity.
Defined.

(** ** The feature engineer on any record *)

(** X7.  The feature engineer returns exactly on the records that have
    both [Age] and [No of Pregnancy], whatever else is missing. *)
Theorem feature_engineering_returns_iff (r : dict Q) :
  (exists df,
     GdmBackend.advanced_feature_engineering (DataFrame r) = Ok df) <->
  dict_mem "Age" r = true /\ dict_mem "No of Pregnancy" r = true.
Proof.
  split.
  - intros [df E].
    destruct (dict_mem "Age" r) eqn:Ha.
    + destruct (dict_mem "No of Pregnancy" r) eqn:Hn; [auto|].
      rewrite advanced_feature_engineering_no_pregnancies in E.
      * discriminate.
      * apply numeric_outside_DataFrame.
      * now rewrite dict_mem_DataFrame.
      * apply dict_mem_false. now rewrite dict_mem_DataFrame.
    + rewrite advanced_feature_engineering_no_age in E.
      * discriminate.
      * apply numeric_outside_DataFrame.
      * apply dict_mem_false. now rewrite dict_mem_DataFrame.
  - intros [Ha Hn].
    destruct (advanced_feature_engineering_ok (DataFrame r)
                (numeric_outside_DataFrame r))
      as (_ & _ & df & _ & _ & E & _).
    1,2: now rewrite dict_mem_DataFrame.
    eauto.
Qed.

Lemma feature_engineering_present_fields (r : dict Q) (df : frame) :
  GdmBackend.advanced_feature_engineering (DataFrame r) = Ok df ->
  dict_mem "Age" r = true /\ dict_mem "No of Pregnancy" r = true.
Proof.
  intro E.
  destruct (dict_mem "Age" r) eqn:Ha.
  - destruct (dict_mem "No of Pregnancy" r) eqn:Hn; [auto|].
    rewrite advanced_feature_engineering_no_pregnancies in E.
    + discriminate.
    + apply numeric_outside_DataFrame.
    + now rewrite dict_mem_DataFrame.
    + apply dict_mem_false. now rewrite dict_mem_DataFrame.
  - rewrite advanced_feature_engineering_no_age in E.
    + discriminate.
    + apply numeric_outside_DataFrame.
    + apply dict_mem_false. now rewrite dict_mem_DataFrame.
Qed.

(** X8.  The feature engineer never touches a column of the record whose
    name is not one of the sixteen derived names: it is still there, with
    its value, in the engineered frame, and no other column appears. *)
Theorem feature_engineering_keeps_input_columns
        (r : dict Q) (df : frame) (k : string) :
  GdmBackend.advanced_feature_engineering (DataFrame r) = Ok df ->
  ~ In k derived_columns ->
  dict_get k df = option_map Num (dict_get k r).
Proof.
  intros E Hk.
  destruct (feature_engineering_present_fields r df E) as [Ha Hn].
  destruct (advanced_feature_engineering_ok (DataFrame r)
              (numeric_outside_DataFrame r))
    as (df1 & df2 & df' & _ & _ & E' & F1 & F2 & F).
  1,2: now rewrite dict_mem_DataFrame.
  rewrite E in E'. injection E' as <-.
  rewrite F, F2, F1, dict_get_DataFrame; [reflexivity | ..];
    intro Hin; apply Hk; unfold derived_columns; simpl in *; tauto.
Qed.

Lemma feature_engineering_keeps_input_columns_witness :
  exists df,
    GdmBackend.advanced_feature_engineering (DataFrame record_bmi_25)
    = Ok df /\
    dict_get "BMI" df = Some (Num 25.0) /\
    dict_get "HDL" df = None.
Proof.
  destruct (GdmBackend.advanced_feature_engineering
              (DataFrame record_bmi_25)) as [df|e] eqn:E;
    [|vm_compute in E; discriminate E].
  exists df. split; [reflexivity|]. split.
  - exact (feature_engineering_keeps_input_columns record_bmi_25 df "BMI" E
             ltac:(not_symbolic)).
  - exact (feature_engineering_keeps_input_columns record_bmi_25 df "HDL" E
             ltac:(not_symbolic)).
Defined.

(** X9.  Away from the edges the bin and the score of a BMI within
    (0, 50] agree (Underweight 1, Normal 0, Overweight 2, Obese 4); they
    disagree exactly at 18.5, 25 and 30.  Likewise for an OGTT within
    (0, 1000] (Normal 0, Impaired 3, Diabetic 5), with the edges 140 and
    200. *)
Theorem bin_and_score_agree_off_the_edges (x : Q) :
  (0 < x <= 50 ->
   exists label,
     GdmBackend.BMI_Category x = Cat (Some label) /\
     (bmi_score_of_label label = GdmBackend.BMI_Risk_Score x <->
      ~ (x == 18.5 \/ x == 25 \/ x == 30))) /\
  (0 < x <= 1000 ->
   exists label,
     GdmBackend.OGTT_Category x = Cat (Some label) /\
     (ogtt_score_of_label label = GdmBackend.OGTT_Risk_Score x <->
      ~ (x == 140 \/ x == 200))).
Proof.
  split; intro H.
  - destruct (BMI_Category_bins x) as (_ & H1 & H2 & H3 & H4 & _).
    destruct (BMI_Risk_Score_cutoffs x) as (S1 & S2 & S3 & S4).
    destruct (Qlt_le_dec x 18.5) as [L1|L1].
    { eexists; split; [apply H1; lra|]. rewrite S1 by lra.
      cbn. split; [lra | reflexivity]. }
    destruct (Qeq_dec x 18.5) as [E1|E1].
    { eexists; split; [apply H1; lra|]. rewrite S2 by lra.
      cbn. split; [discriminate | tauto]. }
    destruct (Qlt_le_dec x 25) as [L2|L2].
    { eexists; split; [apply H2; lra|]. rewrite S2 by lra.
      cbn. split; [lra | reflexivity]. }
    destruct (Qeq_dec x 25) as [E2|E2].
    { eexists; split; [apply H2; lra|]. rewrite S3 by lra.
      cbn. split; [discriminate | tauto]. }
    destruct (Qlt_le_dec x 30) as [L3|L3].
    { eexists; split; [apply H3; lra|]. rewrite S3 by lra.
      cbn. split; [lra | reflexivity]. }
    destruct (Qeq_dec x 30) as [E3|E3].
    { eexists; split; [apply H3; lra|]. rewrite S4 by lra.
      cbn. split; [discriminate | tauto]. }
    eexists; split; [apply H4; lra|]. rewrite S4 by lra.
    cbn. split; [lra | reflexivity].
  - destruct (OGTT_Category_bins x) as (_ & H1 & H2 & H3 & _).
    destruct (OGTT_Risk_Score_cutoffs x) as (S1 & S2 & S3).
    destruct (Qlt_le_dec x 140) as [L1|L1].
    { eexists; split; [apply H1; lra|]. rewrite S1 by lra.
      cbn. split; [lra | reflexivity]. }
    destruct (Qeq_dec x 140) as [E1|E1].
    { eexists; split; [apply H1; lra|]. rewrite S2 by lra.
      cbn. split; [discriminate | tauto]. }
    destruct (Qlt_le_dec x 200) as [L2|L2].
    { eexists; split; [apply H2; lra|]. rewrite S2 by lra.
      cbn. split; [lra | reflexivity]. }
    destruct (Qeq_dec x 200) as [E2|E2].
    { eexists; split; [apply H2; lra|]. rewrite S3 by lra.
      cbn. split; [discriminate | tauto]. }
    eexists; split; [apply H3; lra|]. rewrite S3 by lra.
    cbn. split; [lra | reflexivity].
Qed.

Lemma bin_and_score_agree_off_the_edges_witness :
  (exists label,
     GdmBackend.BMI_Category 22.5 = Cat (Some label) /\
     bmi_score_of_label label = GdmBackend.BMI_Risk_Score 22.5) /\
  (exists label,
     GdmBackend.OGTT_Category 180 = Cat (Some label) /\
     ogtt_score_of_label label = GdmBackend.OGTT_Risk_Score 180).
Proof.
  split.
  - destruct (proj1 (bin_and_score_agree_off_the_edges 22.5)
                ltac:(lra)) as (label & Hc & Hs).
    exists label. split; [exact Hc|]. apply Hs. lra.
  - destruct (proj2 (bin_and_score_agree_off_the_edges 180)
                ltac:(lra)) as (label & Hc & Hs).
    exists label. split; [exact Hc|]. apply Hs. lra.
Defined.

(** X10.  The engineered indicator columns of a request and the
    risk-factor flags of its outcome are the same tests: High_Risk_BMI is
    the obesity flag, High_Risk_OGTT the high-glucose flag, Advanced_Age
    the advanced-age flag and Hypertensive the high-pressure flag. *)
Theorem indicators_agree_with_flags (p : GdmBackend.PatientData) :
  let flags := GdmBackend.risk_factors_of (GdmBackend.model_dump p) in
  exists df,
    GdmBackend.advanced_feature_engineering
      (DataFrame (GdmBackend.model_dump p)) = Ok df /\
    dict_get "High_Risk_BMI" df
    = Some (Num (b2q (GdmBackend.obesity flags))) /\
    dict_get "High_Risk_OGTT" df
    = Some (Num (b2q (GdmBackend.high_glucose flags))) /\
    dict_get "Advanced_Age" df
    = Some (Num (b2q (GdmBackend.advanced_age flags))) /\
    dict_get "Hypertensive" df
    = Some (Num (b2q (GdmBackend.high_bp flags))).
Proof.
  intro flags. exists (engineered_frame p).
  split; [apply engineered_frame_eq|].
  subst flags. repeat split; eval_request; reflexivity.
Qed.

(** X11.  Age exactly 35 is treated in three ways: the Advanced_Age
    column and the advanced-age flag of the extended variant are on
    ([>= 35]), while the age term of the comprehensive risk score and the
    advanced-age flag of the legacy variant are off ([> 35]). *)
Theorem age_35_is_advanced_only_with_ge (p : GdmBackend.PatientData) :
  GdmBackend.Age p == 35 ->
  exists df score,
    GdmBackend.advanced_feature_engineering
      (DataFrame (GdmBackend.model_dump p)) = Ok df /\
    dict_get "Advanced_Age" df = Some (Num 1) /\
    dict_get "Comprehensive_Risk_Score" df = Some (Num score) /\
    score ==
      2 * GdmBackend.OGTT_Risk_Score (GdmBackend.OGTT p)
      + 1.5 * GdmBackend.BMI_Risk_Score (GdmBackend.BMI p)
      + 2 * inject_Z (GdmBackend.Family_History p)
      + 2.5 * inject_Z (GdmBackend.PCOS p)
      + b2q (Qgtb (inject_Z (GdmBackend.No_of_Pregnancy p)) 2)
      + 1.5 * GdmBackend.Hypertensive (GdmBackend.Sys_BP p)
                                      (GdmBackend.Dia_BP p) /\
    GdmBackend.advanced_age
      (GdmBackend.risk_factors_of (GdmBackend.model_dump p)) = true /\
    FastapiBackendModified.advanced_age
      (FastapiBackendModified.risk_factors_of (GdmBackend.model_dump p))
    = false.
Proof.
  intro Ha.
  assert (Hge : Qgeb (GdmBackend.Age p) 35 = true)
    by (destruct (Qgeb_spec (GdmBackend.Age p) 35);
        [reflexivity | exfalso; lra]).
  assert (Hgt : Qgtb (GdmBackend.Age p) 35 = false)
    by (destruct (Qgtb_spec (GdmBackend.Age p) 35);
        [exfalso; lra | reflexivity]).
  eexists (engineered_frame p), _.
  split; [apply engineered_frame_eq|].
  split; [eval_request; rewrite Hge; reflexivity|].
  split; [eval_request; reflexivity|].
  split; [rewrite Hgt; cbn [b2q]; lra|].
  split; eval_request; [exact Hge | exact Hgt].
Qed.

Lemma age_35_is_advanced_only_with_ge_witness :
  let p :=
    {| GdmBackend.Age := 35; GdmBackend.No_of_Pregnancy := 1;
       GdmBackend.Gestation_in_previous_Pregnancy := 0;
       GdmBackend.BMI := 22; GdmBackend.OGTT := 100; GdmBackend.HDL := 50;
       GdmBackend.Family_History := 0;
       GdmBackend.unexplained_prenetal_loss := 0;
       GdmBackend.Large_Child_or_Birth_Default := 0; GdmBackend.PCOS := 0;
       GdmBackend.Sys_BP := 110; GdmBackend.Dia_BP := 70;
       GdmBackend.Hemoglobin := 12; GdmBackend.Sedentary_Lifestyle := 0;
       GdmBackend.Prediabetes := 0 |} in
  exists df score,
    GdmBackend.advanced_feature_engineering
      (DataFrame (GdmBackend.model_dump p)) = Ok df /\
    dict_get "Advanced_Age" df = Some (Num 1) /\
    dict_get "Comprehensive_Risk_Score" df = Some (Num score) /\
    score == 0.
Proof.
  intro p.
  destruct (age_35_is_advanced_only_with_ge p ltac:(reflexivity))
    as (df & score & E & Ha & Hs & Hq & _).
  exists df, score. split; [exact E|]. split; [exact Ha|].
  split; [exact Hs|]. rewrite Hq. reflexivity.
Defined.

(** ** The preprocessor *)

Lemma keys_dict_set_present {V} (k : string) (v : V) (d : dict V) :
  dict_mem k d = true -> keys (dict_set k v d) = keys d.
Proof.
  unfold dict_mem, keys.
  induction d as [|[k0 v0] d IH]; cbn [dict_get dict_set map fst].
  - discriminate.
  - destruct (String.eqb_spec k k0) as [->|Hne]; [reflexivity|].
    intro H. cbn [map fst]. now rewrite IH.
Qed.

Lemma keys_encode_column (df : frame)
      (ce : string * GdmBackend.LabelEncoder) :
  keys (GdmBackend.encode_column df ce) = keys df.
Proof.
  destruct ce as [col enc]. cbn [GdmBackend.encode_column].
  destruct (dict_get col df) as [c|] eqn:E; [|reflexivity].
  assert (Hm : dict_mem col df = true) by (unfold dict_mem; now rewrite E).
  destruct (_ || _)%bool; [|reflexivity].
  destruct (GdmBackend.transform enc c); now apply keys_dict_set_present.
Qed.

Lemma encode_column_other (df : frame) (col k : string)
      (enc : GdmBackend.LabelEncoder) :
  k <> col -> dict_get k (GdmBackend.encode_column df (col, enc))
              = dict_get k df.
Proof.
  intro Hne. cbn [GdmBackend.encode_column].
  destruct (dict_get col df) as [c|]; [|reflexivity].
  destruct (_ || _)%bool; [|reflexivity].
  destruct (GdmBackend.transform enc c); rewrite dict_get_set;
    destruct (String.eqb_spec k col); congruence.
Qed.

Lemma apply_label_encoders_other (encoders : dict GdmBackend.LabelEncoder)
      (df : frame) (k : string) :
  ~ In k (keys encoders) ->
  dict_get k (GdmBackend.apply_label_encoders encoders df) = dict_get k df.
Proof.
  unfold GdmBackend.apply_label_encoders. revert df.
  induction encoders as [|[col enc] encoders IH]; intros df Hk;
    cbn [fold_left]; [reflexivity|].
  rewrite IH by (intro H; apply Hk; right; exact H).
  apply encode_column_other. intros ->. apply Hk. left. reflexivity.
Qed.

(** The cell an encoder leaves in its column. *)
Lemma encode_column_same (df : frame) (col : string)
      (enc : GdmBackend.LabelEncoder) (c : cell) :
  dict_get col df = Some c ->
  dict_get col (GdmBackend.encode_column df (col, enc))
  = Some (if (GdmBackend.is_categorical c
              || existsb (String.eqb col)
                         ["BMI_Category"; "OGTT_Category"])%bool
          then Num (match GdmBackend.transform enc c with
                    | Some code => inject_Z code
                    | None => 0
                    end)
          else c).
Proof.
  intro E. cbn [GdmBackend.encode_column]. rewrite E.
  destruct (_ || _)%bool; [|exact E].
  destruct (GdmBackend.transform enc c); rewrite dict_get_set,
    String.eqb_refl; reflexivity.
Qed.

(** X12.  Label encoding never adds, drops or reorders a column and
    leaves every column without a registered encoder as it is; a
    categorical column with an encoder holds the code of its label
    afterwards, and 0 when the encoder does not know the label (no
    exception gets out). *)
Theorem label_encoding_is_local
        (encoders : dict GdmBackend.LabelEncoder) (df : frame) :
  keys (GdmBackend.apply_label_encoders encoders df) = keys df /\
  (forall k, ~ In k (keys encoders) ->
     dict_get k (GdmBackend.apply_label_encoders encoders df)
     = dict_get k df) /\
  (forall col enc label,
     NoDup (keys encoders) -> In (col, enc) encoders ->
     dict_get col df = Some (Cat label) ->
     dict_get col (GdmBackend.apply_label_encoders encoders df)
     = Some (Num (match GdmBackend.transform enc (Cat label) with
                  | Some code => inject_Z code
                  | None => 0
                  end))).
Proof.
  split; [|split].
  - unfold GdmBackend.apply_label_encoders. revert df.
    induction encoders as [|ce encoders IH]; intro df; cbn [fold_left];
      [reflexivity|].
    now rewrite IH, keys_encode_column.
  - intros k Hk. now apply apply_label_encoders_other.
  - intros col enc label. revert df.
    induction encoders as [|[col' enc'] encoders IH]; intros df Hnd Hin Hc;
      [contradiction|].
    cbn [keys map fst] in Hnd. inversion Hnd as [|? ? Hnotin Hnd']; subst.
    unfold GdmBackend.apply_label_encoders. cbn [fold_left].
    fold (GdmBackend.apply_label_encoders encoders
            (GdmBackend.encode_column df (col', enc'))).
    destruct Hin as [Heq|Hin].
    + injection Heq as -> ->.
      rewrite apply_label_encoders_other by exact Hnotin.
      rewrite (encode_column_same df col enc (Cat label) Hc). reflexivity.
    + assert (Hne : col <> col').
      { intros ->. apply Hnotin. unfold keys.
        change col' with (fst (col', enc)). now apply in_map. }
      apply IH; [exact Hnd' | exact Hin|].
      rewrite encode_column_other by exact Hne. exact Hc.
Qed.

Lemma label_encoding_is_local_witness :
  let encoders := GdmBackend.label_encoders sample_preprocessing in
  let df := [("BMI", Num 60); ("BMI_Category", Cat None);
             ("OGTT_Category", Cat (Some "Impaired"))] in
  dict_get "BMI_Category" (GdmBackend.apply_label_encoders encoders df)
  = Some (Num 0) /\
  dict_get "OGTT_Category" (GdmBackend.apply_label_encoders encoders df)
  = Some (Num 1) /\
  dict_get "BMI" (GdmBackend.apply_label_encoders encoders df)
  = Some (Num 60).
Proof.
  intros encoders df.
  destruct (label_encoding_is_local encoders df) as (_ & Hother & Hcol).
  assert (Hnd : NoDup (keys encoders)).
  { repeat constructor; cbn; intuition discriminate. }
  split; [|split].
  - exact (Hcol "BMI_Category" _ None Hnd (or_introl eq_refl) eq_refl).
  - exact (Hcol "OGTT_Category" _ (Some "Impaired") Hnd
             (or_intror (or_introl eq_refl)) eq_refl).
  - apply Hother. cbn. intuition discriminate.
Defined.

Lemma keys_combine {A B} (ks : list A) (vs : list B) :
  length vs = length ks -> map fst (combine ks vs) = ks.
Proof.
  revert vs. induction ks as [|k ks IH]; intros [|v vs] H;
    try discriminate; cbn; [reflexivity|].
  f_equal. apply IH. now injection H.
Qed.

Lemma keys_apply_scaling (scaler : frame -> option (list Q)) (df : frame) :
  keys (GdmBackend.apply_scaling scaler df) = keys df.
Proof.
  unfold GdmBackend.apply_scaling.
  destruct (scaler df) as [row|]; [|reflexivity].
  destruct (Nat.eqb_spec (length row) (length df)) as [E|_]; [|reflexivity].
  unfold keys at 1. apply keys_combine.
  unfold keys. now rewrite !length_map.
Qed.

Lemma select_features_eq (fc : list string) (df : frame) :
  GdmBackend.select_features fc df
  = map (fun col => (col, cell_or_default df col)) fc.
Proof.
  unfold GdmBackend.select_features. cbv zeta.
  rewrite (select_columns_present (cell_or_default df)); [reflexivity|].
  intros c Hc. rewrite dict_get_fill_missing. unfold cell_or_default.
  destruct (dict_get c df); [reflexivity|].
  assert (existsb (String.eqb c) fc = true) as ->.
  { apply existsb_exists. exists c. split; [exact Hc|].
    apply String.eqb_refl. }
  now rewrite default_value_spec.
Qed.

(** X13.  Whatever the record lacks and whether the feature engineer,
    the encoders or the scaler fail, the frame handed to the base models
    has exactly the training columns, in their order; when the scaler
    answers with one value per column every cell of it is that number. *)
Theorem preprocess_yields_training_schema
        (pp : GdmBackend.Preprocessing) (data : dict Q) :
  keys (GdmBackend.preprocess pp data) = GdmBackend.feature_columns pp /\
  (forall unscaled row,
     unscaled
     = GdmBackend.select_features (GdmBackend.feature_columns pp)
         (GdmBackend.apply_label_encoders (GdmBackend.label_encoders pp)
            (GdmBackend.enhanced_data (DataFrame data))) ->
     GdmBackend.scaler pp unscaled = Some row ->
     length row = length (GdmBackend.feature_columns pp) ->
     GdmBackend.preprocess pp data
     = combine (GdmBackend.feature_columns pp) (map Num row)).
Proof.
  split.
  - unfold GdmBackend.preprocess. cbv zeta.
    rewrite keys_apply_scaling, select_features_eq.
    unfold keys. rewrite map_map. cbn [fst]. apply map_id.
  - intros unscaled row -> Hrow Hlen.
    unfold GdmBackend.preprocess. cbv zeta.
    unfold GdmBackend.apply_scaling. rewrite Hrow.
    assert (Hk : keys (GdmBackend.select_features
                         (GdmBackend.feature_columns pp)
                         (GdmBackend.apply_label_encoders
                            (GdmBackend.label_encoders pp)
                            (GdmBackend.enhanced_data (DataFrame data))))
                 = GdmBackend.feature_columns pp).
    { rewrite select_features_eq. unfold keys.
      rewrite map_map. cbn [fst]. apply map_id. }
    assert (Hl : length (GdmBackend.select_features
                           (GdmBackend.feature_columns pp)
                           (GdmBackend.apply_label_encoders
                              (GdmBackend.label_encoders pp)
                              (GdmBackend.enhanced_data (DataFrame data))))
                 = length (GdmBackend.feature_columns pp)).
    { rewrite <- Hk at 2. unfold keys. now rewrite length_map. }
    rewrite Hl, Hlen, Nat.eqb_refl, Hk. reflexivity.
Qed.

Lemma preprocess_yields_training_schema_witness :
  exists row,
    GdmBackend.preprocess centring_preprocessing low_risk_data
    = combine (GdmBackend.feature_columns centring_preprocessing)
              (map Num row).
Proof.
  eexists.
  apply (proj2 (preprocess_yields_training_schema
                  centring_preprocessing low_risk_data) _ _ eq_refl).
  - vm_compute. reflexivity.
  - reflexivity.
Defined.

(** ** The legacy pipeline *)

Lemma legacy_dict_mem_encode_column (df : frame) (k : string)
      (ce : string * FastapiBackendModified.LabelEncoder) :
  dict_mem k (FastapiBackendModified.encode_column df ce) = dict_mem k df.
Proof.
  destruct ce as [col enc]. cbn [FastapiBackendModified.encode_column].
  destruct (dict_get col df) as [c|] eqn:E; [|reflexivity].
  assert (Hm : dict_mem col df = true) by (unfold dict_mem; now rewrite E).
  destruct (FastapiBackendModified.transform enc c);
    rewrite dict_mem_set;
    (destruct (String.eqb_spec k col) as [->|_]; [now rewrite Hm | reflexivity]).
Qed.

Lemma legacy_dict_mem_encoded
      (encoders : dict FastapiBackendModified.LabelEncoder) (df : frame)
      (k : string) :
  dict_mem k (fold_left FastapiBackendModified.encode_column encoders df)
  = dict_mem k df.
Proof.
  revert df. induction encoders as [|ce encoders IH]; intro df;
    cbn [fold_left]; [reflexivity|].
  now rewrite IH, legacy_dict_mem_encode_column.
Qed.

Lemma legacy_select_columns_missing (cols : list string) (df : frame) :
  let missing := filter (fun c => negb (dict_mem c df)) cols in
  missing <> [] ->
  FastapiBackendModified.select_columns cols df
  = Raise (if Nat.eqb (length missing) (length cols)
           then NoneOfColumns cols
           else ColumnsNotInIndex (unique missing)).
Proof.
  intros missing Hne. unfold FastapiBackendModified.select_columns.
  cbv zeta. fold missing.
  destruct missing as [|c rest]; [contradiction|].
  cbn [length Nat.eqb].
  now destruct (match length cols with O => false | S _ => _ end).
Qed.

Lemma In_unique (x : string) (l : list string) : In x (unique l) <-> In x l.
Proof.
  induction l as [|y l IH]; cbn [unique In]; [tauto|].
  rewrite filter_In, IH.
  destruct (String.eqb_spec x y) as [->|Hne]; cbn [negb]; split; intro H.
  - now left.
  - now left.
  - destruct H as [H|[H _]]; [now left | now right].
  - destruct H as [H|H]; [now left|]. right. split; [exact H | reflexivity].
Qed.

Lemma dict_mem_setdefault (k k' : string) (v : Q) (d : dict Q) :
  dict_mem k (FastapiBackendModified.setdefault k' v d)
  = (String.eqb k k' || dict_mem k d)%bool.
Proof.
  unfold FastapiBackendModified.setdefault.
  destruct (dict_mem k' d) eqn:E.
  - destruct (String.eqb_spec k k') as [->|_]; [now rewrite E | reflexivity].
  - apply dict_mem_set.
Qed.

Lemma setdefault_present (k : string) (v : Q) (d : dict Q) :
  dict_mem k d = true -> FastapiBackendModified.setdefault k v d = d.
Proof. unfold FastapiBackendModified.setdefault. now intros ->. Qed.

Lemma with_defaults_idempotent (patient_data : dict Q) :
  FastapiBackendModified.with_defaults
    (FastapiBackendModified.with_defaults patient_data)
  = FastapiBackendModified.with_defaults patient_data.
Proof.
  set (d := FastapiBackendModified.with_defaults patient_data).
  assert (H1 : dict_mem "Case Number" d = true)
    by (unfold d, FastapiBackendModified.with_defaults;
        rewrite !dict_mem_setdefault; cbn; reflexivity).
  assert (H2 : dict_mem "BMI" d = true)
    by (unfold d, FastapiBackendModified.with_defaults;
        rewrite !dict_mem_setdefault; cbn; reflexivity).
  assert (H3 : dict_mem "OGTT" d = true)
    by (unfold d, FastapiBackendModified.with_defaults;
        rewrite !dict_mem_setdefault; cbn; reflexivity).
  unfold FastapiBackendModified.with_defaults at 1. cbv zeta.
  rewrite (setdefault_present "Case Number" 0 d H1).
  rewrite (setdefault_present "BMI" 22.0 d H2).
  now rewrite (setdefault_present "OGTT" 120.0 d H3).
Qed.

Lemma legacy_predict_gdm_unfold
      (mc : FastapiBackendModified.ModelComponents) (patient_data : dict Q) :
  FastapiBackendModified.predict_gdm_body mc patient_data
  = (pp <- FastapiBackendModified.predict_with_ensemble
             (FastapiBackendModified.with_defaults patient_data) mc ;;
     lgn <- FastapiBackendModified.label_and_probabilities
              (FastapiBackendModified.problem_type
                 (FastapiBackendModified.metadata mc))
              (FastapiBackendModified.first_prediction (fst pp))
              (FastapiBackendModified.first_row (snd pp)) ;;
     Ok {| FastapiBackendModified.prediction := fst (fst lgn);
           FastapiBackendModified.gdm_probability := snd (fst lgn);
           FastapiBackendModified.non_gdm_probability := snd lgn;
           FastapiBackendModified.risk_category :=
             FastapiBackendModified.risk_category_of (snd (fst lgn));
           FastapiBackendModified.confidence :=
             py_max (snd (fst lgn)) (snd lgn);
           FastapiBackendModified.risk_factors :=
             FastapiBackendModified.risk_factors_of
               (FastapiBackendModified.with_defaults patient_data) |}).
Proof.
  unfold FastapiBackendModified.predict_gdm_body,
    FastapiBackendModified.with_defaults. cbv zeta.
  destruct (FastapiBackendModified.predict_with_ensemble _ mc)
    as [[ps pr]|]; cbn [bind fst snd]; [|reflexivity].
  destruct (FastapiBackendModified.label_and_probabilities _ _ _)
    as [[[l g] n]|]; reflexivity.
Qed.

(** X14.  The legacy variant does not fill a missing training column:
    when the record (after the three defaults) lacks some column of
    [feature_columns] the prediction fails with the one [KeyError] of
    [df[feature_columns]], which names every absent training column once,
    in training order (or the whole list when none is present).  Case
    Number, BMI and OGTT are never among the names. *)
Theorem legacy_names_every_missing_column
        (mc : FastapiBackendModified.ModelComponents)
        (patient_data : dict Q) :
  let cols :=
    FastapiBackendModified.feature_columns
      (FastapiBackendModified.preprocessing mc) in
  let filled := FastapiBackendModified.with_defaults patient_data in
  let missing := filter (fun c => negb (dict_mem c filled)) cols in
  (missing <> [] ->
   FastapiBackendModified.predict_gdm (Some mc) patient_data
   = Raise (PredictionFailed
              (if Nat.eqb (length missing) (length cols)
               then NoneOfColumns cols
               else ColumnsNotInIndex (unique missing)))) /\
  (forall c, In c (unique missing) <->
             In c cols /\ dict_mem c filled = false) /\
  ~ In "Case Number" missing /\ ~ In "BMI" missing /\ ~ In "OGTT" missing.
Proof.
  intros cols filled missing. split; [|split].
  - intro Hne.
    unfold FastapiBackendModified.predict_gdm.
    rewrite legacy_predict_gdm_unfold.
    unfold FastapiBackendModified.predict_with_ensemble. cbv zeta.
    fold filled. fold cols.
    set (df := fold_left FastapiBackendModified.encode_column _ _).
    assert (E : filter (fun c => negb (dict_mem c df)) cols = missing).
    { unfold missing. apply filter_ext. intro c. unfold df.
      now rewrite legacy_dict_mem_encoded, dict_mem_DataFrame. }
    pose proof (legacy_select_columns_missing cols df) as H.
    cbv zeta in H. rewrite E in H. now rewrite (H Hne).
  - intro c. rewrite In_unique. unfold missing. rewrite filter_In.
    now rewrite negb_true_iff.
  - assert (H : forall k, dict_mem k filled = true -> ~ In k missing).
    { intros k Hk Hin. unfold missing in Hin. apply filter_In in Hin as [_ Hin].
      now rewrite Hk in Hin. }
    repeat split; apply H; unfold filled, FastapiBackendModified.with_defaults;
      rewrite !dict_mem_setdefault; cbn; reflexivity.
Qed.

Lemma legacy_names_every_missing_column_witness :
  FastapiBackendModified.predict_gdm
    (Some (legacy_components "classification" voting_model))
    [("No of Pregnancy", 1); ("Dia BP", 80)]
  = Raise (PredictionFailed (ColumnsNotInIndex ["Age"; "Sys BP"])).
Proof.
  exact (proj1 (legacy_names_every_missing_column
                  (legacy_components "classification" voting_model)
                  [("No of Pregnancy", 1); ("Dia BP", 80)])
               ltac:(discriminate)).
Defined.

(** X15.  The legacy [predict_gdm] fills Case Number, BMI and OGTT with
    0, 22.0 and 120.0 only when the record lacks them, leaves every other
    field alone, and predicts a record exactly as it predicts the record
    with the defaults written in. *)
Theorem legacy_defaults_only_fill_gaps
        (mc : option FastapiBackendModified.ModelComponents)
        (patient_data : dict Q) :
  let filled := FastapiBackendModified.with_defaults patient_data in
  dict_get "Case Number" filled
  = Some (dict_get_default "Case Number" 0 patient_data) /\
  dict_get "BMI" filled = Some (dict_get_default "BMI" 22.0 patient_data) /\
  dict_get "OGTT" filled
  = Some (dict_get_default "OGTT" 120.0 patient_data) /\
  (forall k, k <> "Case Number" -> k <> "BMI" -> k <> "OGTT" ->
             dict_get k filled = dict_get k patient_data) /\
  FastapiBackendModified.predict_gdm mc filled
  = FastapiBackendModified.predict_gdm mc patient_data.
Proof.
  intro filled.
  assert (Hsd : forall k v d,
             dict_get k (FastapiBackendModified.setdefault k v d)
             = Some (dict_get_default k v d)).
  { intros k v d. unfold FastapiBackendModified.setdefault, dict_mem,
      dict_get_default.
    destruct (dict_get k d) eqn:E; [exact E|].
    now rewrite dict_get_set, String.eqb_refl. }
  subst filled. unfold FastapiBackendModified.with_defaults. cbv zeta.
  split; [|split; [|split; [|split]]].
  - rewrite !dict_get_setdefault by discriminate. apply Hsd.
  - rewrite dict_get_setdefault by discriminate. rewrite Hsd.
    unfold dict_get_default.
    now rewrite dict_get_setdefault by discriminate.
  - rewrite Hsd. unfold dict_get_default.
    now rewrite !dict_get_setdefault by discriminate.
  - intros k H1 H2 H3. now rewrite !dict_get_setdefault.
  - fold (FastapiBackendModified.with_defaults patient_data).
    unfold FastapiBackendModified.predict_gdm.
    destruct mc as [mc|]; [|reflexivity].
    now rewrite !legacy_predict_gdm_unfold, with_defaults_idempotent.
Qed.

(** X16.  The legacy request schema has no BMI and no OGTT field, so
    every request of the legacy endpoint is predicted with BMI 22.0 and
    OGTT 120.0. *)
Theorem legacy_requests_use_default_bmi_and_ogtt
        (mc : option FastapiBackendModified.ModelComponents)
        (p : FastapiBackendModified.PatientData) :
  FastapiBackendModified.predict_gdm mc
    (FastapiBackendModified.model_dump p)
  = FastapiBackendModified.predict_gdm mc
      (FastapiBackendModified.model_dump p
       ++ [("Case Number", 0); ("BMI", 22.0); ("OGTT", 120.0)])%list.
Proof.
  assert (E : FastapiBackendModified.with_defaults
                (FastapiBackendModified.model_dump p)
              = (FastapiBackendModified.model_dump p
                 ++ [("Case Number", 0); ("BMI", 22.0); ("OGTT", 120.0)])%list)
    by reflexivity.
  rewrite <- E.
  unfold FastapiBackendModified.predict_gdm.
  destruct mc as [mc|]; [|reflexivity].
  now rewrite !legacy_predict_gdm_unfold, with_defaults_idempotent.
Qed.

(** X17.  In the legacy variant the risk category of a returned outcome
    depends on the probability alone: "Low Risk" below 0.3, "Moderate
    Risk" from 0.3 up to but not including 0.6, "High Risk" from 0.6. *)
Theorem legacy_risk_category_by_probability
        (mc : FastapiBackendModified.ModelComponents) (patient_data : dict Q)
        (out : FastapiBackendModified.Outcome) :
  FastapiBackendModified.predict_gdm (Some mc) patient_data = Ok out ->
  let p := FastapiBackendModified.gdm_probability out in
  (p < 0.3 -> FastapiBackendModified.risk_category out = "Low Risk") /\
  (0.3 <= p < 0.6 ->
   FastapiBackendModified.risk_category out = "Moderate Risk") /\
  (0.6 <= p -> FastapiBackendModified.risk_category out = "High Risk").
Proof.
  intros H p.
  destruct (legacy_predict_gdm_inv _ _ _ H)
    as (ps & pr & l & g & n & _ & _ & _ & Hg & _ & Hc & _).
  subst p. rewrite Hc, Hg. unfold FastapiBackendModified.risk_category_of.
  repeat split; intro; qcases.
Qed.

Lemma legacy_risk_category_by_probability_witness :
  exists out,
    FastapiBackendModified.predict_gdm
      (Some (legacy_components "classification" (meta_model 0 [0.1; 0.9])))
      record_at_thresholds = Ok out /\
    FastapiBackendModified.prediction out = "Non GDM" /\
    FastapiBackendModified.risk_category out = "High Risk".
Proof.
  destruct (FastapiBackendModified.predict_gdm
              (Some (legacy_components "classification"
                       (meta_model 0 [0.1; 0.9])))
              record_at_thresholds)
    as [out|e] eqn:E; [|vm_compute in E; discriminate E].
  exists out. split; [reflexivity|]. split.
  - pose proof E as E'. vm_compute in E'. injection E' as <-. reflexivity.
  - apply (legacy_risk_category_by_probability _ _ out E).
    pose proof E as E'. vm_compute in E'. injection E' as <-.
    cbn. lra.
Defined.

Lemma legacy_defaults_only_fill_gaps_witness :
  dict_get "BMI" (FastapiBackendModified.with_defaults record_at_thresholds)
  = Some 18.5 /\
  dict_get "Sys BP" (FastapiBackendModified.with_defaults record_at_thresholds)
  = Some 140.
Proof.
  destruct (legacy_defaults_only_fill_gaps None record_at_thresholds)
    as (_ & Hb & _ & Hk & _).
  split; [exact Hb|].
  apply Hk; discriminate.
Defined.

(** ** The risk interpreter *)

(** A returned outcome of the extended variant, recommendations
    included. *)
Lemma predict_gdm_outcome (mc : GdmBackend.ModelComponents)
      (patient_data : dict Q) (out : GdmBackend.Outcome) :
  GdmBackend.predict_gdm (Some mc) patient_data = Ok out ->
  exists g n,
    out =
    let label :=
      if Qgeb g (GdmBackend.threshold_of (GdmBackend.preprocessing mc))
      then "GDM" else "Non GDM" in
    let risk :=
      GdmBackend.risk_category_of g
        (count_true (GdmBackend.high_risk_markers patient_data)) in
    {| GdmBackend.prediction := label;
       GdmBackend.gdm_probability := g;
       GdmBackend.non_gdm_probability := n;
       GdmBackend.risk_category := risk;
       GdmBackend.confidence := py_max g n;
       GdmBackend.risk_factors := GdmBackend.risk_factors_of patient_data;
       GdmBackend.clinical_recommendations :=
         GdmBackend.recommendations_of label risk |}.
Proof.
  unfold GdmBackend.predict_gdm, GdmBackend.predict_gdm_body.
  destruct (GdmBackend.predict_with_ensemble patient_data mc)
    as [[predictions probabilities]|]; cbn [bind]; [|discriminate].
  destruct (list_getitem GdmBackend.classes _); cbn [bind]; [|discriminate].
  destruct (GdmBackend.probabilities_of _ _) as [[g n]|];
    cbn [bind]; [|discriminate].
  intros [= <-]. exists g, n. reflexivity.
Qed.

Lemma py_max_spec (a b : Q) :
  a <= py_max a b /\ b <= py_max a b /\ (py_max a b = a \/ py_max a b = b).
Proof.
  unfold py_max. destruct (Qgtb_spec b a); repeat split; auto; lra.
Qed.

(** X18.  In both variants the confidence of a returned outcome is one of
    its two probabilities and not below either; when they sum to one it
    is at least one half. *)
Theorem confidence_is_the_larger_probability
        (emc : GdmBackend.ModelComponents)
        (lmc : FastapiBackendModified.ModelComponents)
        (patient_data : dict Q) :
  (forall out,
     GdmBackend.predict_gdm (Some emc) patient_data = Ok out ->
     let g := GdmBackend.gdm_probability out in
     let n := GdmBackend.non_gdm_probability out in
     let c := GdmBackend.confidence out in
     g <= c /\ n <= c /\ (c = g \/ c = n) /\ (g + n == 1 -> 1 # 2 <= c)) /\
  (forall out,
     FastapiBackendModified.predict_gdm (Some lmc) patient_data = Ok out ->
     let g := FastapiBackendModified.gdm_probability out in
     let n := FastapiBackendModified.non_gdm_probability out in
     let c := FastapiBackendModified.confidence out in
     g <= c /\ n <= c /\ (c = g \/ c = n) /\ (g + n == 1 -> 1 # 2 <= c)).
Proof.
  split; intros out H g n c.
  - destruct (predict_gdm_inv _ _ _ H)
      as (ps & pr & g' & n' & _ & _ & _ & Hg & Hn & _ & Hc & _).
    subst g n c. rewrite Hg, Hn, Hc.
    destruct (py_max_spec g' n') as (H1 & H2 & H3).
    repeat split; auto. intro Hs. lra.
  - destruct (legacy_predict_gdm_inv _ _ _ H)
      as (ps & pr & l & g' & n' & _ & _ & _ & Hg & Hn & _ & Hc & _).
    subst g n c. rewrite Hg, Hn, Hc.
    destruct (py_max_spec g' n') as (H1 & H2 & H3).
    repeat split; auto. intro Hs. lra.
Qed.

Lemma confidence_is_the_larger_probability_witness :
  exists out,
    GdmBackend.predict_gdm (Some sample_components) low_risk_data = Ok out /\
    1 # 2 <= GdmBackend.confidence out.
Proof.
  destruct (GdmBackend.predict_gdm (Some sample_components) low_risk_data)
    as [out|e] eqn:E; [|vm_compute in E; discriminate E].
  exists out. split; [reflexivity|].
  destruct (proj1 (confidence_is_the_larger_probability
                     sample_components
                     (legacy_components "classification" voting_model)
                     low_risk_data) out E) as (_ & _ & _ & H).
  apply H.
  pose proof E as E'. vm_compute in E'. injection E' as <-. reflexivity.
Defined.

Lemma risk_category_of_values (g : Q) (k : nat) :
  GdmBackend.risk_category_of g k = "High Risk" \/
  GdmBackend.risk_category_of g k = "Moderate Risk" \/
  GdmBackend.risk_category_of g k = "Low Risk".
Proof.
  unfold GdmBackend.risk_category_of.
  destruct (_ || _)%bool; [auto|]. destruct (_ || _)%bool; auto.
Qed.

(** X19.  The recommendations of a returned outcome follow its label and
    risk category: the urgent template when the label is "GDM" or the
    category "High Risk", the follow-up template for "Non GDM" with
    "Moderate Risk", the routine template for "Non GDM" with "Low Risk";
    no other label or category occurs, and the three templates differ. *)
Theorem recommendations_follow_label_and_risk
        (mc : GdmBackend.ModelComponents) (patient_data : dict Q)
        (out : GdmBackend.Outcome) :
  GdmBackend.predict_gdm (Some mc) patient_data = Ok out ->
  let label := GdmBackend.prediction out in
  let risk := GdmBackend.risk_category out in
  let given := GdmBackend.clinical_recommendations out in
  (label = "GDM" \/ label = "Non GDM") /\
  (risk = "High Risk" \/ risk = "Moderate Risk" \/ risk = "Low Risk") /\
  (label = "GDM" \/ risk = "High Risk" -> given = urgent_care) /\
  (label = "Non GDM" -> risk = "Moderate Risk" -> given = follow_up_care) /\
  (label = "Non GDM" -> risk = "Low Risk" -> given = routine_care) /\
  urgent_care <> follow_up_care /\ urgent_care <> routine_care /\
  follow_up_care <> routine_care.
Proof.
  intros H label risk given.
  destruct (predict_gdm_outcome _ _ _ H) as (g & n & ->).
  subst label risk given.
  cbn [GdmBackend.prediction GdmBackend.risk_category
         GdmBackend.clinical_recommendations].
  set (l := if Qgeb g _ then "GDM" else "Non GDM").
  set (r := GdmBackend.risk_category_of g _).
  assert (Hl : l = "GDM" \/ l = "Non GDM")
    by (subst l; destruct (Qgeb g _); auto).
  assert (Hr : r = "High Risk" \/ r = "Moderate Risk" \/ r = "Low Risk")
    by apply risk_category_of_values.
  split; [exact Hl|]. split; [exact Hr|].
  split; [|split; [|split]].
  - intros [-> | ->]; [reflexivity|].
    destruct Hl as [-> | ->]; reflexivity.
  - intros -> ->. reflexivity.
  - intros -> ->. reflexivity.
  - repeat split; discriminate.
Qed.

Lemma recommendations_follow_label_and_risk_witness :
  exists out,
    GdmBackend.predict_gdm (Some voting_components) low_risk_data = Ok out /\
    GdmBackend.clinical_recommendations out = routine_care.
Proof.
  destruct (GdmBackend.predict_gdm (Some voting_components) low_risk_data)
    as [out|e] eqn:E; [|vm_compute in E; discriminate E].
  exists out. split; [reflexivity|].
  destruct (recommendations_follow_label_and_risk _ _ out E)
    as (_ & _ & _ & _ & H & _).
  apply H; pose proof E as E'; vm_compute in E'; injection E' as <-;
    reflexivity.
Defined.

(** X20.  With a decision threshold of at least 0.4, the default 0.5
    included, an outcome labelled "GDM" is never "Low Risk". *)
Theorem gdm_label_is_never_low_risk
        (mc : GdmBackend.ModelComponents) (patient_data : dict Q)
        (out : GdmBackend.Outcome) :
  0.4 <= GdmBackend.threshold_of (GdmBackend.preprocessing mc) ->
  GdmBackend.predict_gdm (Some mc) patient_data = Ok out ->
  GdmBackend.prediction out = "GDM" ->
  GdmBackend.risk_category out <> "Low Risk".
Proof.
  intros Ht H.
  destruct (predict_gdm_outcome _ _ _ H) as (g & n & ->).
  cbn [GdmBackend.prediction GdmBackend.risk_category].
  destruct (Qgeb_spec g (GdmBackend.threshold_of
                           (GdmBackend.preprocessing mc)));
    [|discriminate].
  intros _. unfold GdmBackend.risk_category_of.
  destruct (_ || _)%bool; [discriminate|].
  destruct (Qgeb_spec g 0.4); [discriminate | exfalso; lra].
Qed.

Lemma gdm_label_is_never_low_risk_witness :
  exists out,
    GdmBackend.predict_gdm (Some sample_components) low_risk_data = Ok out /\
    GdmBackend.prediction out = "GDM" /\
    GdmBackend.risk_category out <> "Low Risk".
Proof.
  destruct (GdmBackend.predict_gdm (Some sample_components) low_risk_data)
    as [out|e] eqn:E; [|vm_compute in E; discriminate E].
  exists out. split; [reflexivity|].
  assert (Hl : GdmBackend.prediction out = "GDM").
  { pose proof E as E'. vm_compute in E'. injection E' as <-. reflexivity. }
  split; [exact Hl|].
  apply (gdm_label_is_never_low_risk sample_components low_risk_data out);
    [cbn; lra | exact E | exact Hl].
Defined.

(** Below 0.4 the guarantee is lost: a threshold of 0.35 labels a
    probability of 0.38 "GDM" while the category stays "Low Risk". *)
Example gdm_label_with_low_threshold :
  exists out,
    GdmBackend.predict_gdm
      (Some {| GdmBackend.models :=
                 [("RandomForest", constant_model 0);
                  ("Ensemble", meta_model 0 [0.62; 0.38])];
               GdmBackend.preprocessing := centring_preprocessing |})
      low_risk_data = Ok out /\
    GdmBackend.prediction out = "GDM" /\
    GdmBackend.risk_category out = "Low Risk".
Proof. eexists. split; [vm_compute; reflexivity|]. split; reflexivity. Qed.

(** X21.  The flags of the extended variant never mark a record both
    obese and overweight, nor both with high and with impaired glucose;
    one of the first two is set exactly from a BMI of 25, one of the last
    two exactly from an OGTT of 120 (20 and 100 stand in for an absent
    field). *)
Theorem weight_and_glucose_flags_are_exclusive (patient_data : dict Q) :
  let flags := GdmBackend.risk_factors_of patient_data in
  let bmi := dict_get_default "BMI" 20 patient_data in
  let ogtt := dict_get_default "OGTT" 100 patient_data in
  (GdmBackend.obesity flags && GdmBackend.overweight flags = false)%bool /\
  (GdmBackend.high_glucose flags && GdmBackend.impaired_glucose flags
   = false)%bool /\
  ((GdmBackend.obesity flags || GdmBackend.overweight flags)%bool = true
   <-> 25 <= bmi) /\
  ((GdmBackend.high_glucose flags || GdmBackend.impaired_glucose flags)%bool
   = true <-> 120 <= ogtt).
Proof.
  intros flags bmi ogtt. subst flags.
  cbn [GdmBackend.obesity GdmBackend.overweight GdmBackend.high_glucose
         GdmBackend.impaired_glucose GdmBackend.risk_factors_of].
  fold bmi ogtt.
  repeat split.
  - qcases.
  - qcases.
  - destruct (Qgeb_spec bmi 30), (Qle_bool_spec 25 bmi), (Qltb_spec bmi 30);
      cbn; intros; try lra; try discriminate.
  - intro. qcases.
  - destruct (Qgeb_spec ogtt 140), (Qle_bool_spec 120 ogtt),
      (Qltb_spec ogtt 140); cbn; intros; try lra; try discriminate.
  - intro. qcases.
Qed.

Lemma list_getitem_raises {A} (l : list A) (i : Z) (e : exn) :
  list_getitem l i = Raise e -> e = IndexError.
Proof.
  unfold list_getitem. destruct (_ && _)%bool; [|congruence].
  destruct (nth_error l _); congruence.
Qed.

Lemma ensemble_tail_raises (preds : list (list Q)) (models : dict Model)
      (e : exn) :
  ensemble_tail preds models = Raise e -> ensemble_failure e.
Proof.
  unfold ensemble_tail, ensemble_failure. intro H.
  destruct preds as [|r preds]; cbn [bind] in H.
  - injection H as <-. left. reflexivity.
  - unfold np_array_T in H. destruct (forallb _ _); cbn [bind] in H.
    + unfold dict_getitem in H.
      destruct (dict_get "Ensemble" models) as [ens|]; cbn [bind] in H.
      * destruct (predict ens _); cbn [bind] in H; [discriminate|].
        injection H as <-. auto.
      * injection H as <-. right. left. reflexivity.
    + injection H as <-. auto.
Qed.

(** X22.  The extended [predict_gdm] never lets a [KeyError] on a field
    of the patient record or a [TypeError] out: with a loaded bundle every
    failure is the wrapped failure of the ensemble stage (no base model,
    no meta-model, ragged predictions, a raising meta-model) or an index
    error on the class or on an empty probability row. *)
Theorem predict_gdm_failures
        (mc : GdmBackend.ModelComponents) (patient_data : dict Q) (e : exn) :
  GdmBackend.predict_gdm (Some mc) patient_data = Raise e ->
  exists cause,
    e = PredictionFailed cause /\
    (ensemble_failure cause \/ cause = IndexError).
Proof.
  unfold GdmBackend.predict_gdm.
  destruct (GdmBackend.predict_gdm_body mc patient_data) as [out|cause]
    eqn:E; [discriminate|].
  intros [= <-]. exists cause. split; [reflexivity|].
  unfold GdmBackend.predict_gdm_body in E.
  destruct (GdmBackend.predict_with_ensemble patient_data mc)
    as [[ps pr]|e'] eqn:Ee; cbn [bind] in E.
  - right.
    destruct (list_getitem GdmBackend.classes _) eqn:El; cbn [bind] in E.
    + destruct (GdmBackend.probabilities_of _ _) as [[g n]|e'] eqn:Ep;
        cbn [bind] in E; [discriminate|].
      injection E as <-.
      unfold GdmBackend.probabilities_of in Ep.
      destruct (Nat.leb 2 _).
      * destruct (list_getitem (GdmBackend.first_row pr) 0) eqn:E0;
          cbn [bind] in Ep; [|injection Ep as <-;
                               exact (list_getitem_raises _ _ _ E0)].
        destruct (list_getitem (GdmBackend.first_row pr) 1) eqn:E1;
          cbn [bind] in Ep; [discriminate|].
        injection Ep as <-. exact (list_getitem_raises _ _ _ E1).
      * destruct (list_getitem (GdmBackend.first_row pr) 0) eqn:E0;
          cbn [bind] in Ep; [discriminate|].
        injection Ep as <-. exact (list_getitem_raises _ _ _ E0).
    + injection E as <-. exact (list_getitem_raises _ _ _ El).
  - left. injection E as <-.
    unfold GdmBackend.predict_with_ensemble in Ee.
    rewrite ensemble_predict_tail in Ee.
    exact (ensemble_tail_raises _ _ _ Ee).
Qed.

Lemma predict_gdm_failures_witness :
  exists cause,
    GdmBackend.predict_gdm
      (Some {| GdmBackend.models := models_without_ensemble;
               GdmBackend.preprocessing := sample_preprocessing |})
      record_without_age = Raise (PredictionFailed cause) /\
    (ensemble_failure cause \/ cause = IndexError).
Proof.
  destruct (predict_gdm_failures
              {| GdmBackend.models := models_without_ensemble;
                 GdmBackend.preprocessing := sample_preprocessing |}
              record_without_age
              (PredictionFailed NoEnsembleModel) eq_refl)
    as (cause & Hc & H).
  exists cause. split; [|exact H]. now rewrite <- Hc.
Defined.

(** ** The ensemble stage, continued *)

(** What the meta-model was asked and what it answered. *)
Lemma ensemble_tail_returns (preds : list (list Q)) (models : dict Model)
      (final_predictions : list Q) (final_probabilities : list (list Q)) :
  ensemble_tail preds models = Ok (final_predictions, final_probabilities) ->
  exists ensemble_model stacked,
    preds <> [] /\
    np_array_T preds = Ok stacked /\
    dict_get "Ensemble" models = Some ensemble_model /\
    predict ensemble_model (OfMatrix stacked) = Some final_predictions /\
    final_probabilities
    = match predict_proba ensemble_model (OfMatrix stacked) with
      | Some p => p
      | None => map (fun pred => [1 - pred; pred]) final_predictions
      end.
Proof.
  unfold ensemble_tail. intro H.
  destruct preds as [|r preds]; cbn [bind] in H; [discriminate|].
  destruct (np_array_T (r :: preds)) as [stacked|]; cbn [bind] in H;
    [|discriminate].
  unfold dict_getitem in H.
  destruct (dict_get "Ensemble" models) as [ens|]; cbn [bind] in H;
    [|discriminate].
  destruct (predict ens (OfMatrix stacked)) as [p|] eqn:Ep; cbn [bind] in H;
    [|discriminate].
  injection H as <- <-. exists ens, stacked.
  repeat split; auto. discriminate.
Qed.

(** X23.  When the meta-model has no [predict_proba] and predicts the
    classes 0 and 1, the outcome is degenerate and the threshold changes
    nothing: for any threshold in (0, 1] the probability of GDM is the
    class the meta-model predicted for the stacked base predictions (0
    when it predicted nothing), the probability of non-GDM its
    complement, the confidence is 1 and the label is "GDM" exactly for
    class 1. *)
Theorem label_is_the_class_without_predict_proba
        (mc : GdmBackend.ModelComponents) (patient_data : dict Q)
        (out : GdmBackend.Outcome) (ensemble_model : Model) :
  dict_get "Ensemble" (GdmBackend.models mc) = Some ensemble_model ->
  (forall X, predict_proba ensemble_model X = None) ->
  (forall X preds, predict ensemble_model X = Some preds ->
                   Forall (fun c => c == 0 \/ c == 1) preds) ->
  0 < GdmBackend.threshold_of (GdmBackend.preprocessing mc) <= 1 ->
  GdmBackend.predict_gdm (Some mc) patient_data = Ok out ->
  exists stacked final_predictions,
    np_array_T
      (GdmBackend.individual_predictions 1
         (GdmBackend.preprocess (GdmBackend.preprocessing mc) patient_data)
         (GdmBackend.models mc)) = Ok stacked /\
    predict ensemble_model (OfMatrix stacked) = Some final_predictions /\
    let c := GdmBackend.first_prediction final_predictions in
    (c == 0 \/ c == 1) /\
    GdmBackend.gdm_probability out == c /\
    GdmBackend.non_gdm_probability out == 1 - c /\
    GdmBackend.confidence out == 1 /\
    (GdmBackend.prediction out = "GDM" <-> c == 1).
Proof.
  intros Hens Hnone Hbin Ht H.
  destruct (predict_gdm_inv _ _ _ H)
    as (ps & pr & g & n & Hpe & Hp & Hl & Hg & Hn & _ & Hc & _).
  unfold GdmBackend.predict_with_ensemble in Hpe.
  rewrite ensemble_predict_tail in Hpe.
  destruct (ensemble_tail_returns _ _ _ _ Hpe)
    as (ens & stacked & _ & Hstack & Hens' & Hpred & Hprobs).
  rewrite Hens in Hens'. injection Hens' as <-.
  rewrite Hnone in Hprobs.
  pose proof (Hbin _ _ Hpred) as Hall.
  exists stacked, ps. split; [exact Hstack|]. split; [exact Hpred|].
  cbv zeta. set (c := GdmBackend.first_prediction ps).
  assert (Hc01 : c == 0 \/ c == 1).
  { unfold c. destruct ps as [|c0 ps]; cbn [GdmBackend.first_prediction].
    - left. reflexivity.
    - now inversion Hall. }
  assert (Hgn : g == c /\ n == 1 - c).
  { unfold c. destruct ps as [|c0 ps]; subst pr;
      cbn [map GdmBackend.first_row GdmBackend.first_prediction] in Hp |- *.
    - cbn in Hp. injection Hp as <- <-. split; reflexivity.
    - apply probabilities_of_cases in Hp
        as [(p0 & p1 & rest & Hrow & -> & ->)|(p0 & Hrow & _)];
        [|discriminate].
      injection Hrow as <- <-. split; reflexivity. }
  destruct Hgn as (Eg & En).
  rewrite Hg, Hn, Hc, Hl.
  split; [exact Hc01|]. split; [exact Eg|]. split; [exact En|].
  set (t := GdmBackend.threshold_of (GdmBackend.preprocessing mc)) in *.
  split.
  - unfold py_max. destruct (Qgtb_spec n g); destruct Hc01; lra.
  - destruct (Qgeb_spec g t); split; intro; try reflexivity;
      try discriminate; destruct Hc01; lra.
Qed.

Lemma voting_components_have_no_predict_proba :
  dict_get "Ensemble" (GdmBackend.models voting_components)
  = Some voting_model /\
  (forall X, predict_proba voting_model X = None) /\
  (forall X preds, predict voting_model X = Some preds ->
                   Forall (fun c => c == 0 \/ c == 1) preds).
Proof.
  split; [reflexivity|]. split; [reflexivity|].
  intros X preds H. unfold voting_model in H. cbn [predict] in H.
  destruct X as [df|[|row [|row' m]]]; try discriminate.
  injection H as <-. constructor; [|constructor].
  match goal with
  | |- context [b2q ?b] => destruct b
  end; cbn; [right | left]; reflexivity.
Defined.

Lemma label_is_the_class_without_predict_proba_witness :
  exists out final_predictions,
    GdmBackend.predict_gdm (Some voting_components) high_risk_data = Ok out /\
    predict voting_model (OfMatrix [[1; 0; 0]]) = Some final_predictions /\
    GdmBackend.gdm_probability out
    == GdmBackend.first_prediction final_predictions /\
    GdmBackend.confidence out == 1 /\
    GdmBackend.prediction out = "Non GDM".
Proof.
  destruct (GdmBackend.predict_gdm (Some voting_components) high_risk_data)
    as [out|e] eqn:E; [|vm_compute in E; discriminate E].
  destruct voting_components_have_no_predict_proba as (H1 & H2 & H3).
  destruct (label_is_the_class_without_predict_proba
              voting_components high_risk_data out voting_model
              H1 H2 H3 ltac:(cbn; lra) E)
    as (stacked & ps & Hs & Hp & _ & Hg & _ & Hc & Hl).
  vm_compute in Hs. injection Hs as <-.
  exists out, ps. split; [reflexivity|]. split; [exact Hp|].
  split; [exact Hg|]. split; [exact Hc|].
  pose proof E as E'. vm_compute in E'. injection E' as <-. reflexivity.
Defined.

Lemma individual_predictions_columns (n_rows : nat) (df : frame)
      (models : dict Model) :
  (1 <= n_rows)%nat ->
  one_prediction_per_row n_rows df models ->
  GdmBackend.individual_predictions n_rows df models
  = map (base_column n_rows df) (base_models models).
Proof.
  intros Hn Hrow. unfold GdmBackend.individual_predictions.
  unfold one_prediction_per_row in Hrow.
  induction models as [|[name m] models IH]; [reflexivity|].
  cbn [flat_map base_models filter fst GdmBackend.base_predictions].
  rewrite IH
    by (intros n' m' p' Hin Hp; apply (Hrow n' m' p'); [now right | exact Hp]).
  destruct (String.eqb name "Ensemble"); cbn [negb]; [reflexivity|].
  cbn [map]. unfold base_column at 2. cbn [snd].
  destruct (predict m (OfFrame df)) as [pred|] eqn:E; [|reflexivity].
  pose proof (Hrow name m pred (or_introl eq_refl) E) as Hl.
  destruct pred; [cbn in Hl; lia | reflexivity].
Qed.

Lemma legacy_individual_predictions_columns (n_rows : nat) (df : frame)
      (models : dict Model) :
  FastapiBackendModified.individual_predictions n_rows df models
  = map (base_column n_rows df) (base_models models).
Proof.
  unfold FastapiBackendModified.individual_predictions.
  induction models as [|[name m] models IH]; [reflexivity|].
  cbn [flat_map base_models filter fst
         FastapiBackendModified.base_predictions].
  rewrite IH.
  destruct (String.eqb name "Ensemble"); cbn [negb]; [reflexivity|].
  cbn [map]. unfold base_column at 2. cbn [snd].
  destruct (predict m (OfFrame df)); reflexivity.
Qed.

Lemma base_column_length (n_rows : nat) (df : frame) (models : dict Model)
      (item : string * Model) :
  one_prediction_per_row n_rows df models -> In item (base_models models) ->
  length (base_column n_rows df item) = n_rows.
Proof.
  intros Hrow Hin. apply filter_In in Hin as [Hin _].
  destruct item as [name m]. unfold base_column. cbn [snd].
  destruct (predict m (OfFrame df)) as [pred|] eqn:E.
  - exact (Hrow name m pred Hin E).
  - apply repeat_length.
Qed.

Lemma np_array_T_columns (n : nat) (rows : list (list Q)) :
  rows <> [] -> Forall (fun r => length r = n) rows ->
  np_array_T rows
  = Ok (map (fun i => map (fun r => nth i r 0) rows) (seq 0 n)).
Proof.
  intros Hne H. unfold np_array_T. destruct rows as [|r rows];
    [contradiction|].
  assert (Hr : length r = n) by (inversion H; assumption).
  assert (E : forallb (fun r' => Nat.eqb (length r') (length r)) (r :: rows)
              = true).
  { apply forallb_forall. intros r' Hr'. apply Nat.eqb_eq.
    rewrite Forall_forall in H. now rewrite (H r' Hr'), Hr. }
  now rewrite E, Hr.
Qed.

(** X24.  When every base model answers one prediction per row, the
    matrix given to the meta-model has one row per input row and one
    column per base model, in the order of the model dict: entry (i, j) is
    the prediction of base model j for row i, and 0 when that model
    failed.  This holds in both files. *)
Theorem stacked_predictions_layout (n_rows : nat) (df : frame)
        (models : dict Model) :
  (1 <= n_rows)%nat ->
  one_prediction_per_row n_rows df models ->
  base_models models <> [] ->
  let stacked :=
    map (fun i => map (fun item => nth i (base_column n_rows df item) 0)
                      (base_models models))
        (seq 0 n_rows) in
  np_array_T (GdmBackend.individual_predictions n_rows df models)
  = Ok stacked /\
  np_array_T (FastapiBackendModified.individual_predictions n_rows df models)
  = Ok stacked /\
  length stacked = n_rows /\
  Forall (fun row => length row = length (base_models models)) stacked.
Proof.
  intros Hn Hrow Hbase stacked.
  assert (E : np_array_T (map (base_column n_rows df) (base_models models))
              = Ok stacked).
  { rewrite (np_array_T_columns n_rows).
    - subst stacked. f_equal. apply map_ext. intro i. now rewrite map_map.
    - destruct (base_models models); [contradiction | discriminate].
    - apply Forall_forall. intros r Hr.
      apply in_map_iff in Hr as (item & <- & Hin).
      now apply (base_column_length n_rows df models). }
  split; [now rewrite individual_predictions_columns|].
  split; [now rewrite legacy_individual_predictions_columns|].
  subst stacked. split.
  - now rewrite length_map, length_seq.
  - apply Forall_forall. intros row Hr.
    apply in_map_iff in Hr as (i & <- & _). apply length_map.
Qed.

Lemma stacked_predictions_layout_witness :
  np_array_T
    (GdmBackend.individual_predictions 1 []
       (GdmBackend.models sample_components))
  = Ok [[1; 0]].
Proof.
  refine (proj1 (stacked_predictions_layout 1 []
                   (GdmBackend.models sample_components) _ _ _)).
  - lia.
  - intros name m pred Hin Hp.
    destruct Hin as [Hin|[Hin|[Hin|[]]]]; injection Hin as <- <-;
      cbn in Hp; try discriminate Hp; injection Hp as <-; reflexivity.
  - discriminate.
Defined.

(** ** Loading the bundle *)

Lemma not_in_keys_get {V} (k : string) (d : dict V) :
  ~ In k (keys d) <-> dict_get k d = None.
Proof.
  unfold keys. induction d as [|[k0 v0] d IH]; cbn [map fst dict_get In].
  - tauto.
  - destruct (String.eqb_spec k k0) as [->|Hne].
    + split; [intro H; exfalso; apply H; now left | discriminate].
    + rewrite <- IH. split; [tauto|]. intros H [E|E]; [congruence | tauto].
Qed.

Lemma keys_dict_set_absent {V} (k : string) (v : V) (d : dict V) :
  dict_get k d = None -> keys (dict_set k v d) = (keys d ++ [k])%list.
Proof.
  unfold keys. induction d as [|[k0 v0] d IH];
    cbn [dict_get dict_set map fst app]; [reflexivity|].
  destruct (String.eqb_spec k k0) as [->|Hne]; [discriminate|].
  intro H. cbn [map fst]. now rewrite IH.
Qed.

Lemma dict_get_In {V} (k : string) (v : V) (d : dict V) :
  dict_get k d = Some v -> In (k, v) d.
Proof.
  induction d as [|[k0 v0] d IH]; cbn [dict_get]; [discriminate|].
  destruct (String.eqb_spec k k0) as [->|_].
  - intros [= ->]. now left.
  - intro H. right. now apply IH.
Qed.

(** The loop over the saved models, from any accumulator. *)
Lemma load_models_returns (fs : GdmBackend.FileSystem) (dir : string)
      (saved : dict string) (acc loaded : dict Model) :
  GdmBackend.load_models fs dir saved acc = inr loaded ->
  NoDup (keys saved) ->
  (forall k, In k (keys saved) -> dict_get k acc = None) ->
  keys loaded = (keys acc ++ keys saved)%list /\
  forall name,
    dict_get name loaded
    = match dict_get name saved with
      | Some filename =>
          GdmBackend.joblib_load_model fs (GdmBackend.path_join dir filename)
      | None => dict_get name acc
      end.
Proof.
  revert acc. induction saved as [|[name0 file0] saved IH];
    intros acc H Hnd Hacc; cbn [GdmBackend.load_models] in H.
  - injection H as <-. split; [now rewrite app_nil_r | reflexivity].
  - destruct (GdmBackend.joblib_load_model fs _) as [m|] eqn:Em;
      [|discriminate].
    cbn [keys map fst] in Hnd. inversion Hnd as [|? ? Hnotin Hnd']; subst.
    assert (Hacc0 : dict_get name0 acc = None)
      by (apply Hacc; left; reflexivity).
    destruct (IH _ H Hnd') as [Hk Hg].
    { intros k Hin. rewrite dict_get_set.
      destruct (String.eqb_spec k name0) as [->|_]; [contradiction|].
      apply Hacc. right. exact Hin. }
    split.
    + rewrite Hk, (keys_dict_set_absent _ _ _ Hacc0), <- app_assoc.
      reflexivity.
    + intro name. rewrite Hg. cbn [dict_get].
      destruct (String.eqb_spec name name0) as [->|Hne].
      * apply not_in_keys_get in Hnotin. fold (keys saved) in Hnotin.
        rewrite Hnotin, dict_get_set, String.eqb_refl. now rewrite Em.
      * destruct (dict_get name saved); [reflexivity|].
        rewrite dict_get_set.
        destruct (String.eqb_spec name name0); congruence.
Qed.

Lemma load_models_fails (fs : GdmBackend.FileSystem) (dir : string)
      (saved : dict string) (acc : dict Model) :
  (exists loaded, GdmBackend.load_models fs dir saved acc = inr loaded) <->
  (forall name filename,
     In (name, filename) saved ->
     GdmBackend.joblib_load_model fs (GdmBackend.path_join dir filename)
     <> None).
Proof.
  revert acc. induction saved as [|[name0 file0] saved IH]; intro acc;
    cbn [GdmBackend.load_models].
  - split; [intros _ ? ? [] | eauto].
  - destruct (GdmBackend.joblib_load_model fs _) as [m|] eqn:Em.
    + rewrite IH. split.
      * intros H name filename [E|Hin]; [|now apply (H name)].
        injection E as <- <-. congruence.
      * intros H name filename Hin. apply (H name). now right.
    + split; [intros [l Hl]; discriminate|].
      intro H. exfalso.
      exact (H name0 file0 (or_introl eq_refl) Em).
Qed.

(** X25.  A bundle that [load_model_version] returns holds the metadata
    and the preprocessing state read from the version directory, and one
    model per entry of [saved_models], under the entry's name and in the
    entry order, each read from the entry's file in that directory. *)
Theorem load_model_version_returns_the_saved_models
        (fs : GdmBackend.FileSystem) (version_dir : string)
        (bundle : GdmBackend.Bundle) :
  GdmBackend.load_model_version fs version_dir = inr bundle ->
  NoDup (keys (GdmBackend.saved_models (GdmBackend.bundle_metadata bundle)))
  ->
  let metadata := GdmBackend.bundle_metadata bundle in
  let loaded := GdmBackend.models (GdmBackend.components bundle) in
  GdmBackend.json_load fs
    (GdmBackend.path_join version_dir "model_metadata.json")
  = Some metadata /\
  GdmBackend.joblib_load_preprocessing fs
    (GdmBackend.path_join version_dir "preprocessing.pkl")
  = Some (GdmBackend.preprocessing (GdmBackend.components bundle)) /\
  keys loaded = keys (GdmBackend.saved_models metadata) /\
  forall name filename,
    dict_get name (GdmBackend.saved_models metadata) = Some filename ->
    exists m,
      GdmBackend.joblib_load_model fs
        (GdmBackend.path_join version_dir filename) = Some m /\
      dict_get name loaded = Some m.
Proof.
  unfold GdmBackend.load_model_version. cbv zeta.
  destruct (GdmBackend.json_load fs _) as [md|] eqn:Ej; [|discriminate].
  destruct (GdmBackend.joblib_load_preprocessing fs _) as [pp|] eqn:Ep;
    [|discriminate].
  destruct (GdmBackend.load_models fs version_dir _ []) as [e|loaded] eqn:El;
    [discriminate|].
  intros H. injection H as <-. cbn. intro Hnd.
  destruct (load_models_returns _ _ _ _ _ El Hnd) as [Hk Hg];
    [reflexivity|].
  repeat split; auto.
  intros name filename Hs.
  pose proof (proj1 (load_models_fails fs version_dir
                       (GdmBackend.saved_models md) [])
                    (ex_intro _ loaded El) name filename
                    (dict_get_In _ _ _ Hs)) as Hread.
  destruct (GdmBackend.joblib_load_model fs _) as [m|] eqn:Em;
    [|contradiction].
  exists m. split; [reflexivity|]. now rewrite Hg, Hs.
Qed.

Lemma load_model_version_returns_the_saved_models_witness :
  exists bundle,
    GdmBackend.load_model_version sample_disk "./latest" = inr bundle /\
    keys (GdmBackend.models (GdmBackend.components bundle))
    = ["RandomForest"; "Ensemble"] /\
    GdmBackend.version (GdmBackend.bundle_metadata bundle) = Some "v2".
Proof.
  destruct (GdmBackend.load_model_version sample_disk "./latest")
    as [e|bundle] eqn:E; [vm_compute in E; discriminate E|].
  exists bundle. split; [reflexivity|].
  assert (Hmd : GdmBackend.bundle_metadata bundle = sample_metadata).
  { pose proof E as E'. cbv in E'. injection E' as <-. reflexivity. }
  assert (Hnd : NoDup (keys (GdmBackend.saved_models
                               (GdmBackend.bundle_metadata bundle)))).
  { rewrite Hmd. repeat constructor; cbn; intuition discriminate. }
  destruct (load_model_version_returns_the_saved_models
              sample_disk "./latest" bundle E Hnd) as (_ & _ & Hk & _).
  split; [now rewrite Hk, Hmd | now rewrite Hmd].
Defined.

(** X26.  [load_model_version] returns a bundle exactly when the
    metadata file, the preprocessing file and the file of every saved
    model can be read; [load_latest_model] raises [FileNotFoundError]
    without reading anything when [./latest] does not exist. *)
Theorem loading_needs_every_artifact
        (fs : GdmBackend.FileSystem) (version_dir : string) :
  ((exists bundle,
      GdmBackend.load_model_version fs version_dir = inr bundle) <->
   exists metadata,
     GdmBackend.json_load fs
       (GdmBackend.path_join version_dir "model_metadata.json")
     = Some metadata /\
     GdmBackend.joblib_load_preprocessing fs
       (GdmBackend.path_join version_dir "preprocessing.pkl") <> None /\
     forall name filename,
       In (name, filename) (GdmBackend.saved_models metadata) ->
       GdmBackend.joblib_load_model fs
         (GdmBackend.path_join version_dir filename) <> None) /\
  (GdmBackend.path_exists fs "./latest" = false ->
   GdmBackend.load_latest_model fs
   = inl (GdmBackend.FileNotFoundError
            "No latest model found. Please train and save a model first."))
  /\
  (GdmBackend.path_exists fs "./latest" = true ->
   GdmBackend.load_latest_model fs
   = GdmBackend.load_model_version fs "./latest").
Proof.
  split; [|split].
  - unfold GdmBackend.load_model_version. cbv zeta.
    destruct (GdmBackend.json_load fs _) as [md|] eqn:Ej.
    2:{ split; [intros [b H]; discriminate|].
        intros (md & H & _). discriminate. }
    destruct (GdmBackend.joblib_load_preprocessing fs _) as [pp|] eqn:Ep.
    2:{ split; [intros [b H]; discriminate|].
        intros (md' & _ & H & _). congruence. }
    pose proof (load_models_fails fs version_dir
                  (GdmBackend.saved_models md) []) as Hm.
    destruct (GdmBackend.load_models fs version_dir _ [])
      as [e|loaded] eqn:El.
    + split; [intros [b H]; discriminate|].
      intros (md' & Hmd & _ & Hall). injection Hmd as <-.
      apply Hm in Hall as [l Hl]. discriminate.
    + split; [|eauto]. intros _. exists md.
      split; [reflexivity|]. split; [discriminate|].
      apply Hm. eauto.
  - intro H. unfold GdmBackend.load_latest_model. cbv zeta.
    change (GdmBackend.path_join GdmBackend.MODELS_DIR "latest")
      with "./latest".
    now rewrite H.
  - intro H. unfold GdmBackend.load_latest_model. cbv zeta.
    change (GdmBackend.path_join GdmBackend.MODELS_DIR "latest")
      with "./latest".
    now rewrite H.
Qed.

Lemma loading_needs_every_artifact_witness :
  GdmBackend.load_latest_model empty_disk
  = inl (GdmBackend.FileNotFoundError
           "No latest model found. Please train and save a model first.") /\
  GdmBackend.load_latest_model sample_disk
  = GdmBackend.load_model_version sample_disk "./latest".
Proof.
  split.
  - exact (proj1 (proj2 (loading_needs_every_artifact empty_disk ""))
             eq_refl).
  - exact (proj2 (proj2 (loading_needs_every_artifact sample_disk ""))
             eq_refl).
Defined.

(** ** The service *)

(** X27.  When loading fails at startup the server keeps running
    degraded: the health query says "degraded", the model-info query is
    answered with status 503, and every prediction request with status
    500 caused by "Model not loaded". *)
Theorem failed_startup_degrades_the_service
        (fs : GdmBackend.FileSystem) (e : GdmBackend.load_error) :
  GdmBackend.load_latest_model fs = inl e ->
  let st := GdmBackend.lifespan fs in
  GdmBackend.health_check st
  = GdmBackend.Returned
      {| GdmBackend.status := "degraded";
         GdmBackend.model_loaded := false;
         GdmBackend.health_model_version := None |} /\
  GdmBackend.model_info st = GdmBackend.HTTPException 503 None /\
  forall now p,
    GdmBackend.predict_endpoint st now p
    = GdmBackend.HTTPException 500 (Some (ValueError "Model not loaded")).
Proof.
  intros H st. subst st. unfold GdmBackend.lifespan. rewrite H.
  repeat split.
Qed.

Lemma failed_startup_degrades_the_service_witness :
  GdmBackend.health_check (GdmBackend.lifespan empty_disk)
  = GdmBackend.Returned
      {| GdmBackend.status := "degraded";
         GdmBackend.model_loaded := false;
         GdmBackend.health_model_version := None |} /\
  GdmBackend.test_high_risk (GdmBackend.lifespan empty_disk) "2026-01-01"
  = GdmBackend.HTTPException 500 (Some (ValueError "Model not loaded")).
Proof.
  destruct (failed_startup_degrades_the_service empty_disk _ eq_refl)
    as (H1 & _ & H2).
  split; [exact H1 | apply H2].
Defined.

(** X28.  After a successful load the service depends on the 'version'
    entry of the descriptor, which the loader does not require.  With a
    version, the health query says "healthy" with it and a prediction
    request is answered either with a response that has [success] set,
    the request's time stamp, the version and the outcome of
    [predict_gdm] on the dumped request, or with status 500 wrapping the
    failure of the prediction.  Without it, the health query itself fails
    with [KeyError] 'version' and no prediction request is answered with
    a response: a prediction that succeeded ends in status 500 caused by
    that [KeyError]. *)
Theorem loaded_service_answers
        (fs : GdmBackend.FileSystem) (bundle : GdmBackend.Bundle)
        (now : string) (p : GdmBackend.PatientData) :
  GdmBackend.load_latest_model fs = inr bundle ->
  let st := GdmBackend.lifespan fs in
  let answer :=
    GdmBackend.predict_gdm (Some (GdmBackend.components bundle))
                           (GdmBackend.model_dump p) in
  (forall cause,
     answer = Raise cause ->
     GdmBackend.predict_endpoint st now p
     = GdmBackend.HTTPException 500 (Some cause) /\
     exists e, cause = PredictionFailed e) /\
  (forall v,
     GdmBackend.version (GdmBackend.bundle_metadata bundle) = Some v ->
     GdmBackend.health_check st
     = GdmBackend.Returned
         {| GdmBackend.status := "healthy";
            GdmBackend.model_loaded := true;
            GdmBackend.health_model_version := Some v |} /\
     forall out,
       answer = Ok out ->
       GdmBackend.predict_endpoint st now p
       = GdmBackend.Returned
           {| GdmBackend.success := true;
              GdmBackend.prediction_result := out;
              GdmBackend.timestamp := now;
              GdmBackend.model_version := v;
              GdmBackend.message :=
                "Prediction completed successfully with fixed models" |}) /\
  (GdmBackend.version (GdmBackend.bundle_metadata bundle) = None ->
   GdmBackend.health_check st = GdmBackend.Unhandled (KeyError "version") /\
   forall out,
     answer = Ok out ->
     GdmBackend.predict_endpoint st now p
     = GdmBackend.HTTPException 500 (Some (KeyError "version"))).
Proof.
  intros H st answer. subst st answer. unfold GdmBackend.lifespan. rewrite H.
  unfold GdmBackend.predict_endpoint, GdmBackend.health_check. cbv zeta.
  cbn [GdmBackend.model_components GdmBackend.model_metadata].
  split; [|split].
  - intros cause E. rewrite E. cbn [bind]. split; [reflexivity|].
    unfold GdmBackend.predict_gdm in E.
    destruct (GdmBackend.predict_gdm_body _ _); [discriminate|].
    injection E as <-. eauto.
  - intros v Hv. rewrite Hv. cbn [GdmBackend.metadata_getitem].
    split; [reflexivity|]. intros out E. now rewrite E.
  - intros Hv. rewrite Hv. cbn [GdmBackend.metadata_getitem].
    split; [reflexivity|]. intros out E. now rewrite E.
Qed.

Lemma loaded_service_answers_witness :
  GdmBackend.health_check (GdmBackend.lifespan sample_disk)
  = GdmBackend.Returned
      {| GdmBackend.status := "healthy";
         GdmBackend.model_loaded := true;
         GdmBackend.health_model_version := Some "v2" |} /\
  GdmBackend.health_check (GdmBackend.lifespan unversioned_disk)
  = GdmBackend.Unhandled (KeyError "version") /\
  GdmBackend.test_low_risk (GdmBackend.lifespan unversioned_disk) "2026-01-01"
  = GdmBackend.HTTPException 500 (Some (KeyError "version")).
Proof.
  destruct (GdmBackend.load_latest_model sample_disk) as [e|versioned] eqn:E;
    [vm_compute in E; discriminate E|].
  destruct (GdmBackend.load_latest_model unversioned_disk)
    as [e|unversioned] eqn:U; [vm_compute in U; discriminate U|].
  assert (Hv : GdmBackend.version (GdmBackend.bundle_metadata versioned)
               = Some "v2").
  { pose proof E as E'. cbv in E'. injection E' as <-. reflexivity. }
  assert (Hu : GdmBackend.version (GdmBackend.bundle_metadata unversioned)
               = None).
  { pose proof U as U'. cbv in U'. injection U' as <-. reflexivity. }
  destruct (loaded_service_answers sample_disk versioned "2026-01-01"
              GdmBackend.low_risk_profile E) as (_ & H1 & _).
  destruct (loaded_service_answers unversioned_disk unversioned "2026-01-01"
              GdmBackend.low_risk_profile U) as (_ & _ & H2).
  destruct (H2 Hu) as (H3 & H4).
  split; [exact (proj1 (H1 _ Hv))|]. split; [exact H3|].
  destruct (GdmBackend.predict_gdm
              (Some (GdmBackend.components unversioned))
              (GdmBackend.model_dump GdmBackend.low_risk_profile))
    as [out|c] eqn:P.
  - exact (H4 out eq_refl).
  - exfalso. pose proof U as U'. cbv in U'. injection U' as <-.
    vm_compute in P. discriminate P.
Defined.

Lemma predict_endpoint_returns (st : GdmBackend.ServiceState)
      (now : string) (p : GdmBackend.PatientData)
      (r : GdmBackend.PredictionResponse) :
  GdmBackend.predict_endpoint st now p = GdmBackend.Returned r ->
  exists mc g n,
    GdmBackend.model_components st = Some mc /\
    GdmBackend.prediction_result r =
    let label :=
      if Qgeb g (GdmBackend.threshold_of (GdmBackend.preprocessing mc))
      then "GDM" else "Non GDM" in
    let risk :=
      GdmBackend.risk_category_of g
        (count_true (GdmBackend.high_risk_markers (GdmBackend.model_dump p)))
    in
    {| GdmBackend.prediction := label;
       GdmBackend.gdm_probability := g;
       GdmBackend.non_gdm_probability := n;
       GdmBackend.risk_category := risk;
       GdmBackend.confidence := py_max g n;
       GdmBackend.risk_factors :=
         GdmBackend.risk_factors_of (GdmBackend.model_dump p);
       GdmBackend.clinical_recommendations :=
         GdmBackend.recommendations_of label risk |}.
Proof.
  unfold GdmBackend.predict_endpoint. cbv zeta.
  destruct (GdmBackend.model_components st) as [mc|] eqn:Emc;
    [|cbn; discriminate].
  destruct (GdmBackend.predict_gdm (Some mc) (GdmBackend.model_dump p))
    as [out|e] eqn:E; cbn [bind]; [|discriminate].
  destruct (match GdmBackend.model_metadata st with
            | Some md => _ | None => _ end) as [v|e];
    cbn [bind]; [|discriminate].
  intros [= <-]. destruct (predict_gdm_outcome _ _ _ E) as (g & n & ->).
  exists mc, g, n. split; reflexivity.
Qed.

(** X29.  The two test endpoints build requests that pass validation.
    Whatever the loaded models answer, a response to the high-risk test
    has category "High Risk", the urgent recommendations and the obesity
    and high-glucose flags; a response to the low-risk test has no flag
    of obesity or high glucose, and since none of its five markers holds
    its category follows the probability alone. *)
Theorem test_endpoints_profiles (st : GdmBackend.ServiceState)
        (now : string) (r : GdmBackend.PredictionResponse) :
  GdmBackend.is_valid GdmBackend.high_risk_profile = true /\
  GdmBackend.is_valid GdmBackend.low_risk_profile = true /\
  (GdmBackend.test_high_risk st now = GdmBackend.Returned r ->
   let out := GdmBackend.prediction_result r in
   GdmBackend.risk_category out = "High Risk" /\
   GdmBackend.clinical_recommendations out = urgent_care /\
   GdmBackend.obesity (GdmBackend.risk_factors out) = true /\
   GdmBackend.high_glucose (GdmBackend.risk_factors out) = true) /\
  (GdmBackend.test_low_risk st now = GdmBackend.Returned r ->
   let out := GdmBackend.prediction_result r in
   let g := GdmBackend.gdm_probability out in
   GdmBackend.obesity (GdmBackend.risk_factors out) = false /\
   GdmBackend.high_glucose (GdmBackend.risk_factors out) = false /\
   (g < 0.4 -> GdmBackend.risk_category out = "Low Risk") /\
   (0.4 <= g < 0.7 -> GdmBackend.risk_category out = "Moderate Risk") /\
   (0.7 <= g -> GdmBackend.risk_category out = "High Risk")).
Proof.
  split; [reflexivity|]. split; [reflexivity|]. split.
  - intros H out. subst out.
    destruct (predict_endpoint_returns _ _ _ _ H) as (mc & g & n & _ & ->).
    cbv zeta.
    cbn [GdmBackend.risk_category GdmBackend.clinical_recommendations
           GdmBackend.risk_factors].
    assert (E : GdmBackend.risk_category_of g
                  (count_true
                     (GdmBackend.high_risk_markers
                        (GdmBackend.model_dump GdmBackend.high_risk_profile)))
                = "High Risk").
    { unfold GdmBackend.risk_category_of.
      replace (count_true _) with 5%nat by reflexivity.
      cbn [Nat.leb]. now rewrite orb_true_r. }
    rewrite E. split; [reflexivity|]. split.
    + unfold urgent_care. destruct (Qgeb g _); reflexivity.
    + split; reflexivity.
  - intros H out g. subst g out.
    destruct (predict_endpoint_returns _ _ _ _ H) as (mc & g & n & _ & ->).
    cbv zeta.
    cbn [GdmBackend.risk_category GdmBackend.gdm_probability
           GdmBackend.risk_factors].
    split; [reflexivity|]. split; [reflexivity|].
    unfold GdmBackend.risk_category_of.
    replace (count_true _) with 0%nat by reflexivity.
    cbn [Nat.leb]. rewrite !orb_false_r.
    repeat split; intro; qcases.
Qed.

Lemma test_endpoints_profiles_witness :
  exists r,
    GdmBackend.test_high_risk (GdmBackend.lifespan sample_disk) "2026-01-01"
    = GdmBackend.Returned r /\
    GdmBackend.risk_category (GdmBackend.prediction_result r) = "High Risk".
Proof.
  destruct (GdmBackend.test_high_risk (GdmBackend.lifespan sample_disk)
              "2026-01-01") as [r|c e|e] eqn:E;
    [|vm_compute in E; discriminate E..].
  exists r. split; [reflexivity|].
  exact (proj1 (proj1 (proj2 (proj2 (test_endpoints_profiles
                                       (GdmBackend.lifespan sample_disk)
                                       "2026-01-01" r))) E)).
Defined.
